(** * Statement parsing and table assembly of automacao_cartao.py

    A shallow embedding of the parsing / projection / date-sorting core of
    [src/automacao_cartao.py] (class methods [processar_formato_santander],
    [processar_formato_sicoob], [identificar_coluna_data] and the table
    part of [processar_fatura]), together with the Python and pandas
    primitives these methods call, the page loop of
    [extrair_texto_pdf_com_ocr] and the file name chosen by
    [criar_nova_planilha_com_estrutura_modelo].

    Conventions of the embedding.
    - A Python [str] is a [string]; a character is an [ascii] read as the
      code point U+0000..U+00FF (Latin-1).  Character classes ([\s], [\d],
      [str.strip], [str.lower]) are the Python 3 ones restricted to that
      range.
    - A Python [float] is the rational it denotes ([PFin q], with [q] a
      binary64 value), an infinity or a NaN; [float(s)] rounds the decimal
      to the nearest binary64, ties to even.
    - An exception is an explicit [Raise] result.
    - A [dict] is a [gmap]; a DataFrame is the list of its rows. *)

From Stdlib Require Import Ascii String ZArith QArith Lia.
From stdpp Require Import gmap strings list sorting.

(* ===================================================================== *)
(** * Part I: definitions                                                 *)
(* ===================================================================== *)

(** ** Python string primitives *)

Module PyStr.

Definition ord (c : ascii) : N := N_of_ascii c.

(** [str.isspace] on one character, which is also the class [\s] of a
    [str] pattern: TAB..CR, FS..US, SPACE, NEL (0x85) and NBSP (0xA0). *)
Definition isspace (c : ascii) : bool :=
  let n := ord c in
  (((9 <=? n) && (n <=? 13)) || ((28 <=? n) && (n <=? 32))
   || (n =? 133) || (n =? 160))%N.

(** The class [\d] (the Latin-1 range has no other decimal digit). *)
Definition isdigit (c : ascii) : bool :=
  let n := ord c in ((48 <=? n) && (n <=? 57))%N.

(** [str.lower] on one character: A-Z and the Latin-1 capitals
    (0xC0..0xDE except the multiplication sign 0xD7) move up by 32. *)
Definition lower_char (c : ascii) : ascii :=
  let n := ord c in
  if (((65 <=? n) && (n <=? 90))
      || ((192 <=? n) && (n <=? 222) && negb (n =? 215)))%N
  then ascii_of_N (n + 32) else c.

Fixpoint lower (s : string) : string :=
  match s with
  | EmptyString => EmptyString
  | String c s' => String (lower_char c) (lower s')
  end.

Fixpoint lstrip (s : string) : string :=
  match s with
  | EmptyString => EmptyString
  | String c s' => if isspace c then lstrip s' else s
  end.

Fixpoint rstrip (s : string) : string :=
  match s with
  | EmptyString => EmptyString
  | String c s' =>
      match rstrip s' with
      | EmptyString => if isspace c then EmptyString else String c EmptyString
      | r => String c r
      end
  end.

(** [s.strip()] *)
Definition strip (s : string) : string := rstrip (lstrip s).

(** [s.split('\n')]: never empty, one more piece than there are
    newlines. *)
Fixpoint split_nl (s : string) : list string :=
  match s with
  | EmptyString => [EmptyString]
  | String c s' =>
      if Ascii.eqb c "010" then EmptyString :: split_nl s'
      else match split_nl s' with
           | h :: t => String c h :: t
           | [] => [String c EmptyString]
           end
  end.

(** [sub in s] *)
Fixpoint contains (sub s : string) : bool :=
  String.prefix sub s ||
  match s with
  | EmptyString => false
  | String _ s' => contains sub s'
  end.

(** [s.replace(old, new)] for a one-character [old]. *)
Fixpoint replace (old : ascii) (new : string) (s : string) : string :=
  match s with
  | EmptyString => EmptyString
  | String c s' =>
      if Ascii.eqb c old then new +:+ replace old new s'
      else String c (replace old new s')
  end.

Definition digit_char (n : N) : ascii := ascii_of_N (48 + n mod 10).

Definition digit_val (c : ascii) : Z := Z.of_N (ord c) - 48.

Fixpoint str_N_aux (fuel : nat) (n : N) (acc : string) : string :=
  let acc' := String (digit_char n) acc in
  match fuel with
  | O => acc'
  | S f => if (n <? 10)%N then acc' else str_N_aux f (n / 10) acc'
  end.

(** [str(n)] of a Python [int] (what an f-string renders). *)
Definition str_int (z : Z) : string :=
  let n := Z.abs_N z in
  let body := str_N_aux (N.to_nat (N.log2 n)) n EmptyString in
  if (z <? 0)%Z then String "-" body else body.

(** Value of a string of decimal digits, most significant first. *)
Fixpoint digits_val_acc (acc : Z) (s : string) : Z :=
  match s with
  | EmptyString => acc
  | String c s' => digits_val_acc (10 * acc + digit_val c) s'
  end.

Definition digits_val (s : string) : Z := digits_val_acc 0 s.

Fixpoint all_chars (p : ascii -> bool) (s : string) : bool :=
  match s with
  | EmptyString => true
  | String c s' => p c && all_chars p s'
  end.

(** A string of decimal digits (maybe empty). *)
Definition digits (w : string) : Prop := all_chars isdigit w = true.

(** The characters of a normalised amount: digits and the point. *)
Definition numchar (c : ascii) : bool := isdigit c || Ascii.eqb c ".".

End PyStr.

(** ** Exceptions *)

Inductive exn : Type :=
| ValueError
| AttributeError.

Inductive result (A : Type) : Type :=
| Ok (a : A)
| Raise (e : exn).
Arguments Ok {A} a.
Arguments Raise {A} e.

Definition bind {A B} (r : result A) (f : A -> result B) : result B :=
  match r with
  | Ok a => f a
  | Raise e => Raise e
  end.

(** ** The [re] backtracking matcher *)

Module Re.

(** The constructs the three patterns of the program and the one pandas
    builds for [%d/%m/%Y] are made of.  [Star true r] is [r*],
    [Star false r] is [r*?]; [Alt r1 r2] tries [r1] first. *)
Inductive regex : Type :=
| Chr (p : ascii -> bool)
| Eps
| Seq (r1 r2 : regex)
| Alt (r1 r2 : regex)
| Star (greedy : bool) (r : regex)
| Group (i : nat) (r : regex)
| Bol
| Eol.

(** A position of the matcher: how many characters lie before it, the
    text after it, and the groups captured so far (latest first). *)
Record mstate : Type := MState {
  pos : nat;
  rest : string;
  caps : list (nat * string)
}.

Definition advance (st : mstate) (s' : string) : mstate :=
  MState (S (pos st)) s' (caps st).

(** The text between two positions of the same subject. *)
Definition consumed (st st' : mstate) : string :=
  String.substring 0 (String.length (rest st) - String.length (rest st'))
    (rest st).

Definition set_cap (i : nat) (st0 st1 : mstate) : mstate :=
  MState (pos st1) (rest st1) ((i, consumed st0 st1) :: caps st1).

(** The iterations of a star: [passo] matches the body once.  [r*]
    ([greedy]) first tries one more iteration and falls back on leaving
    the star; [r*?] does it the other way round.  An iteration has to
    consume something, so [n], the length of the text left when the
    star is entered, bounds the iterations. *)
Fixpoint star_loop
    (passo : mstate -> (mstate -> option mstate) -> option mstate)
    (greedy : bool) (k : mstate -> option mstate)
    (n : nat) (st : mstate) {struct n} : option mstate :=
  let again (_ : unit) :=
    match n with
    | O => None
    | S n' =>
        passo st (fun st1 =>
          if (String.length (rest st1) <? String.length (rest st))%nat
          then star_loop passo greedy k n' st1 else None)
    end in
  if greedy then
    match again tt with Some x => Some x | None => k st end
  else
    match k st with Some x => Some x | None => again tt end.

(** [rmatch r st k]: match [r] at [st], then run the continuation [k];
    the first alternative (in the engine's order of preference) whose
    continuation succeeds is the answer. *)
Fixpoint rmatch (r : regex) (st : mstate)
    (k : mstate -> option mstate) {struct r} : option mstate :=
  match r with
  | Chr p =>
      match rest st with
      | String c s' => if p c then k (advance st s') else None
      | EmptyString => None
      end
  | Eps => k st
  | Seq r1 r2 => rmatch r1 st (fun st1 => rmatch r2 st1 k)
  | Alt r1 r2 =>
      match rmatch r1 st k with
      | Some x => Some x
      | None => rmatch r2 st k
      end
  | Star greedy r1 =>
      star_loop (rmatch r1) greedy k (String.length (rest st)) st
  | Group i r1 => rmatch r1 st (fun st1 => k (set_cap i st st1))
  | Bol => if (pos st =? 0)%nat then k st else None
  | Eol =>
      match rest st with
      | EmptyString => k st
      | String c EmptyString => if Ascii.eqb c "010" then k st else None
      | _ => None
      end
  end.

(** [re.match(r, s)] run from position [p] of the subject. *)
Definition match_at (r : regex) (p : nat) (s : string) : option mstate :=
  rmatch r (MState p s []) Some.

(** [re.search(r, s)]: the leftmost position where a match starts. *)
Fixpoint search_from (r : regex) (p : nat) (s : string) : option mstate :=
  match match_at r p s with
  | Some st => Some st
  | None =>
      match s with
      | EmptyString => None
      | String _ s' => search_from r (S p) s'
      end
  end.

Definition search (r : regex) (s : string) : option mstate :=
  search_from r 0 s.

Fixpoint cap_get (i : nat) (cs : list (nat * string)) : option string :=
  match cs with
  | [] => None
  | (j, s) :: cs' => if (i =? j)%nat then Some s else cap_get i cs'
  end.

(** [m.group(i)], [None] when the group took no part in the match. *)
Definition group (i : nat) (st : mstate) : option string :=
  cap_get i (caps st).

(** Derived forms. *)
Definition lit (c : ascii) : regex := Chr (Ascii.eqb c).
Definition opt (r : regex) : regex := Alt r Eps.          (* r?  *)
Definition plus (greedy : bool) (r : regex) : regex :=    (* r+ / r+? *)
  Seq r (Star greedy r).
Definition digit : regex := Chr PyStr.isdigit.            (* \d *)
Definition space : regex := Chr PyStr.isspace.            (* \s *)
Definition dot : regex := Chr (fun c => negb (Ascii.eqb c "010")). (* . *)
Definition digit2 : regex := Seq digit digit.             (* \d{2} *)
Definition digit3 : regex := Seq digit digit2.            (* \d{3} *)
Definition digit4 : regex := Seq digit digit3.            (* \d{4} *)
Definition digit1to3 : regex :=                           (* \d{1,3} *)
  Seq digit (opt (Seq digit (opt digit))).
Definition spaces : regex := plus true space.             (* \s+ *)

(** [re.fullmatch(r, s)], as a test. *)
Definition fullmatch (r : regex) (s : string) : bool :=
  match rmatch r (MState 0 s [])
          (fun st => match rest st with
                     | EmptyString => Some st
                     | _ => None
                     end) with
  | Some _ => true
  | None => false
  end.

(** *** What a match is, apart from the order in which the matcher
    looks for one *)

(** [matches r st st']: [r] can take the matcher from [st] to [st'].
    The iterations of a star consume at least one character each. *)
Inductive matches : regex -> mstate -> mstate -> Prop :=
| M_Chr p st c s' :
    rest st = String c s' -> p c = true ->
    matches (Chr p) st (advance st s')
| M_Eps st : matches Eps st st
| M_Seq r1 r2 st st1 st2 :
    matches r1 st st1 -> matches r2 st1 st2 -> matches (Seq r1 r2) st st2
| M_AltL r1 r2 st st' : matches r1 st st' -> matches (Alt r1 r2) st st'
| M_AltR r1 r2 st st' : matches r2 st st' -> matches (Alt r1 r2) st st'
| M_Star0 g r st : matches (Star g r) st st
| M_StarS g r st st1 st2 :
    matches r st st1 ->
    (String.length (rest st1) < String.length (rest st))%nat ->
    matches (Star g r) st1 st2 ->
    matches (Star g r) st st2
| M_Group i r st st1 :
    matches r st st1 -> matches (Group i r) st (set_cap i st st1)
| M_Bol st : pos st = 0%nat -> matches Bol st st
| M_Eol st :
    rest st = EmptyString \/ rest st = String "010" EmptyString ->
    matches Eol st st.

(** [in_lang r w]: the text [w] is one [r] can consume (anchors
    consume nothing). *)
Inductive in_lang : regex -> string -> Prop :=
| L_Chr p c : p c = true -> in_lang (Chr p) (String c EmptyString)
| L_Eps : in_lang Eps EmptyString
| L_Seq r1 r2 w1 w2 :
    in_lang r1 w1 -> in_lang r2 w2 -> in_lang (Seq r1 r2) (w1 +:+ w2)
| L_AltL r1 r2 w : in_lang r1 w -> in_lang (Alt r1 r2) w
| L_AltR r1 r2 w : in_lang r2 w -> in_lang (Alt r1 r2) w
| L_Star0 g r : in_lang (Star g r) EmptyString
| L_StarS g r w1 w2 :
    in_lang r w1 -> in_lang (Star g r) w2 ->
    in_lang (Star g r) (w1 +:+ w2)
| L_Group i r w : in_lang r w -> in_lang (Group i r) w
| L_Bol : in_lang Bol EmptyString
| L_Eol : in_lang Eol EmptyString.

(** Patterns without groups, and without anchors. *)
Fixpoint no_groups (r : regex) : bool :=
  match r with
  | Seq r1 r2 | Alt r1 r2 => no_groups r1 && no_groups r2
  | Star _ r1 => no_groups r1
  | Group _ _ => false
  | _ => true
  end.

Fixpoint no_anchors (r : regex) : bool :=
  match r with
  | Seq r1 r2 | Alt r1 r2 => no_anchors r1 && no_anchors r2
  | Star _ r1 | Group _ r1 => no_anchors r1
  | Bol | Eol => false
  | _ => true
  end.

End Re.

(** ** Python floats *)

Module PyFloat.

(** A [float] by its value.  [PFin q] always holds a [q] that binary64
    represents, in lowest terms (signed zeros are not told apart). *)
Inductive pyfloat : Type :=
| PFin (q : Q)
| PInf (neg : bool)
| PNan.

(** [floor (log2 (a / b))] for positive [a], [b]. *)
Definition ilog2_ratio (a b : Z) : Z :=
  let e0 := (Z.log2 a - Z.log2 b)%Z in
  let ge := if (0 <=? e0)%Z then (b * 2 ^ e0 <=? a)%Z
            else (b <=? a * 2 ^ (- e0))%Z in
  if ge then e0 else (e0 - 1)%Z.

(** Round the positive rational [a / b] to the nearest binary64 (53-bit
    significand, exponents down to the subnormal 2^-1074), ties to even;
    [None] when the result overflows. *)
Definition round64_pos (a b : Z) : option Q :=
  let e := ilog2_ratio a b in
  let u := (Z.max e (-1022) - 52)%Z in
  let num := if (u <? 0)%Z then (a * 2 ^ (- u))%Z else a in
  let den := if (u <? 0)%Z then b else (b * 2 ^ u)%Z in
  let n := (num / den)%Z in
  let r := (num mod den)%Z in
  let n' := if (2 * r <? den)%Z then n
            else if (den <? 2 * r)%Z then (n + 1)%Z
            else if Z.even n then n else (n + 1)%Z in
  if (0 <=? u)%Z && (2 ^ 1024 <=? n' * 2 ^ u)%Z
  then None
  else Some (Qred (if (u <? 0)%Z then Qmake n' (Z.to_pos (2 ^ (- u)))
                   else Qmake (n' * 2 ^ u) 1)).

(** The binary64 nearest to [m * 10^e]. *)
Definition of_decimal (m e : Z) : pyfloat :=
  let a := if (0 <=? e)%Z then (Z.abs m * 10 ^ e)%Z else Z.abs m in
  let b := if (0 <=? e)%Z then 1%Z else (10 ^ (- e))%Z in
  if (m =? 0)%Z then PFin 0
  else match round64_pos a b with
       | Some q => PFin (if (m <? 0)%Z then Qopp q else q)
       | None => PInf (m <? 0)%Z
       end.

Definition neg (f : pyfloat) : pyfloat :=
  match f with
  | PFin q => PFin (Qopp q)
  | PInf b => PInf (negb b)
  | PNan => PNan
  end.

(** [f > 0] *)
Definition gt0 (f : pyfloat) : bool :=
  match f with
  | PFin q => (0 <? Qnum q)%Z
  | PInf b => negb b
  | PNan => false
  end.

Fixpoint span_digits (s : string) : string * string :=
  match s with
  | EmptyString => (EmptyString, EmptyString)
  | String c s' =>
      if PyStr.isdigit c
      then let (d, r) := span_digits s' in (String c d, r)
      else (EmptyString, s)
  end.

(** Underscores are dropped when each one stands between two digits;
    any other underscore is an error. *)
Fixpoint drop_underscores (prev : ascii) (s : string) : option string :=
  match s with
  | EmptyString => if Ascii.eqb prev "_" then None else Some EmptyString
  | String c s' =>
      if Ascii.eqb c "_" then
        if PyStr.isdigit prev then drop_underscores c s' else None
      else if Ascii.eqb prev "_" && negb (PyStr.isdigit c) then None
      else option_map (String c) (drop_underscores c s')
  end.

(** The optional exponent [[eE][+-]?\d+] followed by the end. *)
Definition parse_exponent (s : string) : option Z :=
  match s with
  | EmptyString => Some 0%Z
  | String c s' =>
      if Ascii.eqb c "e" || Ascii.eqb c "E" then
        let (sgn, s'') :=
          match s' with
          | String c' t =>
              if Ascii.eqb c' "-" then (-1, t)%Z
              else if Ascii.eqb c' "+" then (1, t)%Z
              else (1, s')%Z
          | EmptyString => (1, s')%Z
          end in
        match span_digits s'' with
        | (String d ds, EmptyString) =>
            Some (sgn * PyStr.digits_val (String d ds))%Z
        | _ => None
        end
      else None
  end.

(** An unsigned literal: [inf], [infinity], [nan] in any case, or
    digits with an optional point (a digit on at least one side) and an
    optional exponent. *)
Definition parse_unsigned (s : string) : option pyfloat :=
  let l := PyStr.lower s in
  if String.eqb l "inf" || String.eqb l "infinity" then Some (PInf false)
  else if String.eqb l "nan" then Some PNan
  else
    let (ip, r1) := span_digits s in
    let (fp, r2) :=
      match r1 with
      | String c t =>
          if Ascii.eqb c "." then span_digits t else (EmptyString, r1)
      | EmptyString => (EmptyString, r1)
      end in
    match ip +:+ fp with
    | EmptyString => None
    | ds =>
        match parse_exponent r2 with
        | Some e =>
            Some (of_decimal (PyStr.digits_val ds)
                    (e - Z.of_nat (String.length fp)))
        | None => None
        end
    end.

(** [float(s)] for a [str] argument. *)
Definition float (s : string) : result pyfloat :=
  match drop_underscores "000" (PyStr.strip s) with
  | None => Raise ValueError
  | Some t =>
      let (sgn, body) :=
        match t with
        | String c b =>
            if Ascii.eqb c "-" then (true, b)
            else if Ascii.eqb c "+" then (false, b)
            else (false, t)
        | EmptyString => (false, t)
        end in
      match parse_unsigned body with
      | Some f => Ok (if sgn then neg f else f)
      | None => Raise ValueError
      end
  end.

End PyFloat.

Import PyFloat.

(** ** The line patterns of the two statement formats *)

Module Padroes.
Import Re.

Infix "@@" := Seq (at level 60, right associativity).

(** [\d{2}\/\d{2}\/\d{4}] *)
Definition data_completa_re : regex :=
  digit2 @@ lit "/" @@ digit2 @@ lit "/" @@ digit4.

(** [\d{2}\/\d{2}] *)
Definition dia_mes_re : regex := digit2 @@ lit "/" @@ digit2.

(** [(?:\.\d{3})*] *)
Definition milhares : regex := Star true (lit "." @@ digit3).

(** [\d{1,3}(?:\.\d{3})*,\d{2}] *)
Definition valor_re : regex :=
  digit1to3 @@ milhares @@ lit "," @@ digit2.

Definition ponto_ou_virgula (c : ascii) : bool :=
  Ascii.eqb c "." || Ascii.eqb c ",".

Definition menos_ou_virgula (c : ascii) : bool :=
  Ascii.eqb c "-" || Ascii.eqb c ",".

(** [\d{1,3}(?:[.,]\d{3})*] *)
Definition cotacao_re : regex :=
  digit1to3 @@ Star true (Chr ponto_ou_virgula @@ digit3).

(** [processar_formato_santander], [padrao]:
    [^(\d{2}\/\d{2}\/\d{4})\s+(.+?)\s+(\d{1,3}(?:\.\d{3})*,\d{2})\s+\d{1,3}(?:\.\d{3})*,\d{2}\s+\d{1,3}(?:[.,]\d{3})*] *)
Definition padrao_santander : regex :=
  Bol @@ Group 1 data_completa_re @@ spaces @@ Group 2 (plus false dot)
      @@ spaces @@ Group 3 valor_re
      @@ spaces @@ valor_re @@ spaces @@ cotacao_re.

(** [processar_formato_santander], [padrao_negativo]:
    [^(\d{2}\/\d{2}\/\d{4})\s+(.+?)\s+(-\d{1,3}(?:\.\d{3})*,\d{2})] *)
Definition padrao_negativo : regex :=
  Bol @@ Group 1 data_completa_re @@ spaces @@ Group 2 (plus false dot)
      @@ spaces @@ Group 3 (lit "-" @@ valor_re).

(** [[-,]?\d{1,3}(?:\.\d{3})*?[.,]\d{2}] *)
Definition valor_sicoob_re : regex :=
  opt (Chr menos_ou_virgula) @@ digit1to3
      @@ Star false (lit "." @@ digit3) @@ Chr ponto_ou_virgula @@ digit2.

(** [processar_formato_sicoob], [padrao]:
    [^(\d{2}\/\d{2})\s+(.+?)\s+([-,]?\d{1,3}(?:\.\d{3})*?[.,]\d{2})$] *)
Definition padrao_sicoob : regex :=
  Bol @@ Group 1 dia_mes_re @@ spaces @@ Group 2 (plus false dot)
      @@ spaces @@ Group 3 valor_sicoob_re @@ Eol.

(** [match.groups()] of a pattern with three groups, unpacked. *)
Definition groups3 (st : mstate) : option (string * string * string) :=
  match group 1 st, group 2 st, group 3 st with
  | Some a, Some b, Some c => Some (a, b, c)
  | _, _, _ => None
  end.

End Padroes.

(** ** The two statement parsers *)

(** One entry of [dados]: the dict with the keys ['Data'], ['Descricao'],
    ['Valor'] and ['Observacao']. *)
Record transacao : Type := Transacao {
  Data : string;
  Descricao : string;
  Valor : pyfloat;
  Observacao : string
}.

(** [valor_str.replace('.', '').replace(',', '.')] *)
Definition normalizar_valor (valor_str : string) : string :=
  PyStr.replace "," "." (PyStr.replace "." "" valor_str).

(** The lines a parser iterates over: the pieces of [texto.split('\n')],
    stripped, blank ones left out. *)
Definition linhas_de (texto : string) : list string :=
  filter (fun l => l <> EmptyString) (map PyStr.strip (PyStr.split_nl texto)).

(** Run a loop body over the lines, appending to [dados]; an exception
    leaves the loop. *)
Fixpoint para_cada_linha (corpo : string -> result (list transacao))
    (linhas : list string) : result (list transacao) :=
  match linhas with
  | [] => Ok []
  | l :: ls =>
      bind (corpo l) (fun novos =>
      bind (para_cada_linha corpo ls) (fun resto => Ok (novos ++ resto)))
  end.

(** Body of the loop of [processar_formato_santander] for one stripped,
    non-blank line: the entries the line appends to [dados]. *)
Definition santander_linha (linha : string) : result (list transacao) :=
  match Re.search Padroes.padrao_santander linha with
  | Some m =>
      match Padroes.groups3 m with
      | Some (data_completa, descricao, valor_str) =>
          bind (PyFloat.float (normalizar_valor valor_str)) (fun valor =>
          if PyFloat.gt0 valor then
            Ok [Transacao data_completa (PyStr.strip descricao) valor
                  (PyStr.strip descricao)]
          else Ok [])
      | None => Raise AttributeError
      end
  | None =>
      match Re.search Padroes.padrao_negativo linha with
      | Some m_neg =>
          match Padroes.groups3 m_neg with
          | Some _ => Ok []
          | None => Raise AttributeError
          end
      | None => Ok []
      end
  end.

Definition processar_formato_santander (texto : string)
  : result (list transacao) :=
  para_cada_linha santander_linha (linhas_de texto).

Definition marcadores_sicoob : list string :=
  ["SALDO ANTERIOR"; "TOTAL"; "GASTOS DE"].

(** [any(palavra in s for palavra in palavras)] *)
Definition contem_alguma (palavras : list string) (s : string) : bool :=
  existsb (fun palavra => PyStr.contains palavra s) palavras.

(** Body of the loop of [processar_formato_sicoob]. *)
Definition sicoob_linha (ano : Z) (linha : string) : result (list transacao) :=
  if contem_alguma marcadores_sicoob linha then Ok []
  else
    match Re.search Padroes.padrao_sicoob linha with
    | Some m =>
        match Padroes.groups3 m with
        | Some (data_str, descricao, valor_str) =>
            bind (PyFloat.float (normalizar_valor valor_str)) (fun valor =>
            if PyFloat.gt0 valor then
              Ok [Transacao (data_str +:+ "/" +:+ PyStr.str_int ano)
                    (PyStr.strip descricao) valor (PyStr.strip descricao)]
            else Ok [])
        | None => Raise AttributeError
        end
    | None => Ok []
    end.

Definition processar_formato_sicoob (texto : string) (ano : Z)
  : result (list transacao) :=
  para_cada_linha (sicoob_linha ano) (linhas_de texto).

(** ** Projection of a transaction onto the template's columns *)

(** A value held by a cell of the table: a [str] or a [float]. *)
Inductive cell : Type :=
| CStr (s : string)
| CFloat (f : pyfloat).

Global Instance cell_inhabited : Inhabited cell := populate (CStr EmptyString).

(** A row: the dict [nova_linha], then a row of the DataFrame. *)
Abbreviation linha := (gmap string cell).

Definition possiveis_nomes : list string :=
  ["Data"; "Data Vencimento"; "Data_Vencimento"; "Dt_Vencimento"; "Date"].

(** [identificar_coluna_data] *)
Definition identificar_coluna_data (colunas_modelo : list string) : string :=
  match List.find (fun nome => bool_decide (nome ∈ colunas_modelo))
          possiveis_nomes with
  | Some nome => nome
  | None =>
      match colunas_modelo with
      | c :: _ => c
      | [] => "Data"
      end
  end.

Definition palavras_descricao : list string :=
  ["descricao"; "description"; "desc"].
Definition palavras_valor : list string := ["valor"; "value"; "amount"].
Definition palavras_observacao : list string :=
  ["observacao"; "obs"; "observation"].

(** [[col for col in colunas_modelo
      if any(palavra in col.lower() for palavra in palavras)]] *)
Definition colunas_com (palavras : list string) (colunas_modelo : list string)
  : list string :=
  List.filter (fun col => contem_alguma palavras (PyStr.lower col))
    colunas_modelo.

(** [if cs: nova_linha[cs[0]] = v] *)
Definition atribuir_primeira (cs : list string) (v : cell) (nova_linha : linha)
  : linha :=
  match cs with
  | c :: _ => <[c := v]> nova_linha
  | [] => nova_linha
  end.

(** The column a role resolves to, if any: the first one whose lower-cased
    name contains one of the role's keywords. *)
Definition coluna_do_papel (palavras : list string)
    (colunas_modelo : list string) : option string :=
  head (colunas_com palavras colunas_modelo).

Definition tem_palavra (palavras : list string) (col : string) : Prop :=
  contem_alguma palavras (PyStr.lower col) = true.

(** Every column set to [''] *)
Definition linha_vazia (colunas_modelo : list string) : linha :=
  foldl (fun nova_linha coluna => <[coluna := CStr EmptyString]> nova_linha)
    ∅ colunas_modelo.

(** Body of the loop [for item in dados] of [processar_fatura]: the dict
    [nova_linha] built for one transaction. *)
Definition nova_linha (colunas_modelo : list string)
    (nome_coluna_data : string) (item : transacao) : linha :=
  let l0 := linha_vazia colunas_modelo in
  let l1 := <[nome_coluna_data := CStr (Data item)]> l0 in
  let l2 := atribuir_primeira (colunas_com palavras_descricao colunas_modelo)
              (CStr (Descricao item)) l1 in
  let l3 := atribuir_primeira (colunas_com palavras_valor colunas_modelo)
              (CFloat (Valor item)) l2 in
  atribuir_primeira (colunas_com palavras_observacao colunas_modelo)
    (CStr (Observacao item)) l3.

(** The DataFrame after the loop: one row per transaction, in order (the
    keys of [nova_linha] are the template's columns whenever there is at
    least one column). *)
Definition montar_tabela (colunas_modelo : list string)
    (dados : list transacao) : list linha :=
  nova_linha colunas_modelo (identificar_coluna_data colunas_modelo)
    <$> dados.

(** ** Dates: [pd.to_datetime], [sort_values], [dropna], [dt.strftime] *)

Module Datas.

(** A parsed date (a Timestamp at midnight). *)
Record date : Type := Date { year : Z; month : Z; day : Z }.

Definition is_leap (y : Z) : bool :=
  ((y mod 4 =? 0) && (negb (y mod 100 =? 0) || (y mod 400 =? 0)))%Z.

Definition days_in_month (y m : Z) : Z :=
  if (m =? 2)%Z then (if is_leap y then 29 else 28)%Z
  else if ((m =? 4) || (m =? 6) || (m =? 9) || (m =? 11))%Z then 30%Z
  else 31%Z.

(** Lexicographic order on (year, month, day). *)
Definition date_leb (a b : date) : bool :=
  ((year a <? year b)
   || ((year a =? year b)
       && ((month a <? month b)
           || ((month a =? month b) && (day a <=? day b)))))%Z.

(** The range of [datetime64[ns]]: 1677-09-22 .. 2262-04-11 for
    timestamps at midnight. *)
Definition in_bounds (d : date) : bool :=
  date_leb (Date 1677 9 22) d && date_leb d (Date 2262 4 11).

(** A real calendar date, as [datetime.date(y, m, d)] accepts it. *)
Definition calendar_ok (d : date) : bool :=
  ((1 <=? year d) && (year d <=? 9999)
   && (1 <=? month d) && (month d <=? 12)
   && (1 <=? day d) && (day d <=? days_in_month (year d) (month d)))%Z.

Definition date_ok (d : date) : bool := calendar_ok d && in_bounds d.

Definition in_range (lo hi : N) (c : ascii) : bool :=
  ((lo <=? PyStr.ord c) && (PyStr.ord c <=? hi))%N.

(** The directive [%d]: [3[0-1]|[1-2]\d|0[1-9]|[1-9]| [1-9]]. *)
Definition campo_dia (s : string) : option Z :=
  match s with
  | String a (String b EmptyString) =>
      if (Ascii.eqb a "3" && in_range 48 49 b)
         || (in_range 49 50 a && PyStr.isdigit b)
         || (Ascii.eqb a "0" && in_range 49 57 b)
      then Some (10 * PyStr.digit_val a + PyStr.digit_val b)%Z
      else if Ascii.eqb a " " && in_range 49 57 b
      then Some (PyStr.digit_val b)
      else None
  | String a EmptyString =>
      if in_range 49 57 a then Some (PyStr.digit_val a) else None
  | _ => None
  end.

(** The directive [%m]: [1[0-2]|0[1-9]|[1-9]]. *)
Definition campo_mes (s : string) : option Z :=
  match s with
  | String a (String b EmptyString) =>
      if (Ascii.eqb a "1" && in_range 48 50 b)
         || (Ascii.eqb a "0" && in_range 49 57 b)
      then Some (10 * PyStr.digit_val a + PyStr.digit_val b)%Z
      else None
  | String a EmptyString =>
      if in_range 49 57 a then Some (PyStr.digit_val a) else None
  | _ => None
  end.

(** The directive [%Y]: [\d\d\d\d]. *)
Definition campo_ano (s : string) : option Z :=
  match s with
  | String a (String b (String c (String d EmptyString))) =>
      if PyStr.isdigit a && PyStr.isdigit b && PyStr.isdigit c
         && PyStr.isdigit d
      then Some (PyStr.digits_val s) else None
  | _ => None
  end.

(** The text before the first ['/'] and the text after it. *)
Fixpoint ate_barra (s : string) : option (string * string) :=
  match s with
  | EmptyString => None
  | String c s' =>
      if Ascii.eqb c "/" then Some (EmptyString, s')
      else match ate_barra s' with
           | Some (a, b) => Some (String c a, b)
           | None => None
           end
  end.

(** One element of [pd.to_datetime(_, format='%d/%m/%Y',
    errors='coerce')]: the whole string has to be day, ['/'], month,
    ['/'], four-digit year, and name a calendar date inside the
    nanosecond range; anything else is coerced to [NaT] ([None]). *)
Definition strptime (s : string) : option date :=
  match ate_barra s with
  | Some (sd, r) =>
      match ate_barra r with
      | Some (sm, sy) =>
          match campo_dia sd, campo_mes sm, campo_ano sy with
          | Some d, Some m, Some y =>
              if date_ok (Date y m d) then Some (Date y m d) else None
          | _, _, _ => None
          end
      | None => None
      end
  | None => None
  end.

Definition pad2 (n : Z) : string :=
  String (PyStr.digit_char (Z.to_N (n / 10)))
    (String (PyStr.digit_char (Z.to_N n)) EmptyString).

Definition pad4 (n : Z) : string :=
  String (PyStr.digit_char (Z.to_N (n / 1000)))
    (String (PyStr.digit_char (Z.to_N (n / 100)))
       (String (PyStr.digit_char (Z.to_N (n / 10)))
          (String (PyStr.digit_char (Z.to_N n)) EmptyString))).

(** [strftime('%d/%m/%Y')] *)
Definition strftime (d : date) : string :=
  pad2 (day d) +:+ "/" +:+ pad2 (month d) +:+ "/" +:+ pad4 (year d).

(** What [to_datetime] makes of a cell: a [str] is parsed; a [float] is
    either NaN or rendered with [str], which never has the shape of a
    date. *)
Definition to_datetime_cell (c : option cell) : option date :=
  match c with
  | Some (CStr s) => strptime s
  | _ => None
  end.

(** A row together with the value of its date column once that column
    has been converted ([None] is [NaT]). *)
Abbreviation datada := (option date * linha)%type.

(** [df[col] = pd.to_datetime(df[col], format='%d/%m/%Y',
    errors='coerce')] *)
Definition to_datetime (col : string) (df : list linha) : list datada :=
  (fun r => (to_datetime_cell (r !! col), r)) <$> df.

(** Order of the keys under [sort_values]: ascending dates, [NaT]
    last. *)
Definition chave_leb (k1 k2 : option date) : bool :=
  match k1, k2 with
  | Some a, Some b => date_leb a b
  | _, None => true
  | None, Some _ => false
  end.

Definition chave_ord (k1 k2 : option date) : Prop := chave_leb k1 k2 = true.

Definition chave_le (x y : datada) : Prop := chave_ord x.1 y.1.

Global Instance chave_le_dec : RelDecision chave_le.
Proof. intros x y. unfold chave_le, chave_ord. apply _. Defined.

(** What [df.sort_values(by=col)] promises with its default
    [kind='quicksort']: the rows come back rearranged in ascending
    order of the key.  pandas documents this kind as not stable (only
    [mergesort] and [stable] are), so nothing is said about rows with
    equal keys; which order they come back in depends on the sorting
    routine of the installed numpy.  The table step below is therefore
    stated for any [sort_values] with this property. *)
Definition sort_values_spec (sort_values : list datada -> list datada)
  : Prop :=
  forall df, sort_values df ≡ₚ df /\ Sorted chave_le (sort_values df).

(** [df.dropna(subset=[col])] *)
Definition dropna (df : list datada) : list datada :=
  filter (fun x : datada => is_Some x.1) df.

(** [df[col] = df[col].dt.strftime('%d/%m/%Y')] ([NaT] renders as a
    missing value). *)
Definition dt_strftime_linha (col : string) (x : datada) : linha :=
  match x.1 with
  | Some d => <[col := CStr (strftime d)]> x.2
  | None => <[col := CFloat PNan]> x.2
  end.

Definition dt_strftime (col : string) (df : list datada) : list linha :=
  dt_strftime_linha col <$> df.

(** Order of two rows of a table by the dates their date column
    spells. *)
Definition linha_le (col : string) (r1 r2 : linha) : Prop :=
  chave_leb (to_datetime_cell (r1 !! col)) (to_datetime_cell (r2 !! col))
  = true.

(** A key that is a date [to_datetime] can have produced. *)
Definition chave_valida (x : datada) : Prop :=
  exists d, x.1 = Some d /\ date_ok d = true.

(** What the date column of a rendered row holds. *)
Definition celula_da_chave (k : option date) : option cell :=
  match k with
  | Some d => Some (CStr (strftime d))
  | None => Some (CFloat PNan)
  end.

(** A row with its date column rendered, still carrying its key. *)
Definition renderizada (col : string) (x : datada) : datada :=
  (x.1, dt_strftime_linha col x).

(** The four statements of the [try] block of [processar_fatura]. *)
Definition ordenar_por_data (sort_values : list datada -> list datada)
    (col : string) (df : list linha) : list linha :=
  dt_strftime col (dropna (sort_values (to_datetime col df))).

(** A sorting algorithm that meets [sort_values_spec]: the merge sort
    of stdpp (like the default of [sort_values], it does not keep the
    order of equal keys). *)
Definition sort_merge (df : list datada) : list datada :=
  merge_sort chave_le df.

End Datas.

Import Datas.

(** The table part of [processar_fatura], from the parsed [dados] on:
    [None] when [dados] is empty (the method returns before building a
    table), else the DataFrame handed to the writer. *)
Definition tabela_final (sort_values : list datada -> list datada)
    (colunas_modelo : list string) (dados : list transacao)
  : option (list linha) :=
  match dados with
  | [] => None
  | _ =>
      let nome_coluna_data := identificar_coluna_data colunas_modelo in
      let df := montar_tabela colunas_modelo dados in
      Some (if bool_decide (nome_coluna_data ∈ colunas_modelo)
            then ordenar_por_data sort_values nome_coluna_data df
            else df)
  end.

(** Sample data of the examples: a row with a date and a description,
    and the MERCADO LIVRE transaction of the specification. *)
Definition linha_exemplo (data descricao : string) : linha :=
  <["Data" := CStr data]> (<["Descricao" := CStr descricao]> ∅).

(** Eighteen rows of one date, told apart by their description. *)
Definition letras : list string :=
  ["A"; "B"; "C"; "D"; "E"; "F"; "G"; "H"; "I"; "J"; "K"; "L"; "M"; "N";
   "O"; "P"; "Q"; "R"].

Definition mesma_data : list linha := linha_exemplo "05/03/2024" <$> letras.

Definition transacao_exemplo : transacao :=
  Transacao "05/03/2024" "MERCADO LIVRE" (PFin 120) "MERCADO LIVRE".

Inductive formato : Type := Santander | Sicoob.

(** Outcome of [processar_fatura]. *)
Inductive resultado : Type :=
| SemTexto                       (* warning: no text given *)
| SemTransacoes                  (* "Nenhuma transação de gasto encontrada" *)
| Erro (e : exn)                 (* the outer [except]: error dialog *)
| Planilha (df : list linha) (n : nat).  (* table written, [len(dados)] *)

(** [processar_fatura]: parse, build the table, sort it. *)
Definition processar_fatura (sort_values : list datada -> list datada)
    (colunas_modelo : list string) (fmt : formato) (ano_fatura : Z)
    (texto_fatura : string) : resultado :=
  let texto := PyStr.strip texto_fatura in
  match texto with
  | EmptyString => SemTexto
  | _ =>
      match (match fmt with
             | Santander => processar_formato_santander texto
             | Sicoob => processar_formato_sicoob texto ano_fatura
             end) with
      | Raise e => Erro e
      | Ok dados =>
          match tabela_final sort_values colunas_modelo dados with
          | None => SemTransacoes
          | Some df => Planilha df (length dados)
          end
      end
  end.

(** ** Vocabulary of the further properties *)

(** No line break inside. *)
Definition sem_quebra (s : string) : Prop :=
  PyStr.all_chars (fun c => negb (Ascii.eqb c "010")) s = true.

(** Only white space (or nothing). *)
Definition em_branco (s : string) : Prop :=
  PyStr.all_chars PyStr.isspace s = true.

(** The third character from the end. *)
Fixpoint antepenultimo (s : string) : option ascii :=
  match s with
  | String c (String _ (String _ EmptyString)) => Some c
  | String _ s' => antepenultimo s'
  | EmptyString => None
  end.

(** An amount token that opens with a comma and has a comma before its
    two last characters. *)
Definition virgula_dupla (valor_str : string) : bool :=
  match valor_str with
  | String c _ =>
      Ascii.eqb c ","
      && match antepenultimo valor_str with
         | Some c' => Ascii.eqb c' ","
         | None => false
         end
  | EmptyString => false
  end.

(** Sample statements of the examples. *)
Definition fatura_santander_exemplo : string :=
  "SANTANDER" +:+ String "010"
    ("01/03/2024 UBER TRIP 45,90 9,18 5,000" +:+ String "010"
       ("02/03/2024 ESTORNO UBER -45,90" +:+ String "010"
          "05/04/2024 POSTO SHELL 1.250,00 250,00 5,000")).

Definition fatura_sicoob_exemplo : string :=
  "SALDO ANTERIOR 10,00" +:+ String "010"
    ("05/03 MERCADO LIVRE 120,00" +:+ String "010"
       "06/03 PADARIA 1.234,56").

Definition fatura_sicoob_virgulas : string :=
  "05/03 MERCADO LIVRE 120,00" +:+ String "010" "01/02 LOJA ,123,45".

(** A cell that holds a date written as DD/MM/YYYY. *)
Definition data_preenchida (c : option cell) : Prop :=
  exists s, c = Some (CStr s)
            /\ Re.fullmatch Padroes.data_completa_re s = true.

(** Three rows of different dates, one of them no calendar date. *)
Definition tres_datas : list linha :=
  [linha_exemplo "10/01/2024" "A"; linha_exemplo "31/02/2024" "B";
   linha_exemplo "05/01/2024" "C"].

(** ** The name of the workbook written *)

(** [datetime.now()], to the second. *)
Record datetime : Type :=
  DateTime { dia_de : date; hora : Z; minuto : Z; segundo : Z }.

(** A moment of a calendar day, in a year of four digits. *)
Definition datetime_ok (agora : datetime) : bool :=
  (calendar_ok (dia_de agora) && (1000 <=? year (dia_de agora))
   && (0 <=? hora agora) && (hora agora <=? 23)
   && (0 <=? minuto agora) && (minuto agora <=? 59)
   && (0 <=? segundo agora) && (segundo agora <=? 59))%Z.

(** [agora.strftime('%Y%m%d_%H%M%S')] *)
Definition strftime_arquivo (agora : datetime) : string :=
  pad4 (year (dia_de agora)) +:+ pad2 (month (dia_de agora))
    +:+ pad2 (day (dia_de agora)) +:+ "_" +:+ pad2 (hora agora)
    +:+ pad2 (minuto agora) +:+ pad2 (segundo agora).

(** [criar_nova_planilha_com_estrutura_modelo], [nome_novo_arquivo]:
    [f"fatura_processada_{datetime.now().strftime('%Y%m%d_%H%M%S')}.xlsx"] *)
Definition nome_novo_arquivo (agora : datetime) : string :=
  "fatura_processada_" +:+ strftime_arquivo agora +:+ ".xlsx".

(** ** Reading a PDF statement by OCR *)

Section OCR.
Context {imagem : Type}.

(** [pytesseract.image_to_string(imagem, lang=lang, config=config)]
    ([lang] absent in the last resort): the text read, or [None] when
    the call raises. *)
Context (image_to_string : option string -> imagem -> option string).

(** The nested [try] of the loop: Portuguese first, English when that
    raises, no language when that raises too. *)
Definition texto_da_pagina (img : imagem) : option string :=
  match image_to_string (Some "por") img with
  | Some texto_pagina => Some texto_pagina
  | None =>
      match image_to_string (Some "eng") img with
      | Some texto_pagina => Some texto_pagina
      | None => image_to_string None img
      end
  end.

(** The loop over the pages, [texto_completo] threaded through; a page
    is its rendered image, or [None] when loading or rendering it
    raises.  [None] as a result: an exception left the loop. *)
Fixpoint texto_das_paginas (paginas : list (option imagem))
    (texto_completo : string) : option string :=
  match paginas with
  | [] => Some texto_completo
  | None :: _ => None
  | Some img :: resto =>
      match texto_da_pagina img with
      | Some texto_pagina =>
          texto_das_paginas resto
            (texto_completo +:+ (texto_pagina +:+ String "010" EmptyString))
      | None => None
      end
  end.

(** [extrair_texto_pdf_com_ocr]: [tesseract] is what
    [configurar_tesseract] returns, [documento] the pages of the opened
    PDF ([None] when [fitz.open] raises).  [None] as a result: the
    method raises its [Exception]. *)
Definition extrair_texto_pdf_com_ocr (tesseract : bool)
    (documento : option (list (option imagem))) : option string :=
  if tesseract then
    match documento with
    | Some paginas => texto_das_paginas paginas EmptyString
    | None => None
    end
  else None.

End OCR.

(** The texts of the pages, a line break after each. *)
Definition juntar_paginas (textos : list string) : string :=
  foldr (fun t r => t +:+ String "010" r) EmptyString textos.

(** A stand-in for the OCR engine in the examples: an image is the
    text printed on it, and the Portuguese data are missing. *)
Definition ocr_exemplo (lang : option string) (img : string)
  : option string :=
  match lang with
  | Some l => if String.eqb l "por" then None else Some img
  | None => Some img
  end.

Definition paginas_exemplo : list (option string) :=
  [Some "01/03/2024 UBER TRIP 45,90 9,18 5,000";
   Some "05/04/2024 POSTO SHELL 1.250,00 250,00 5,000"].

(** Every character, and the patterns whose character classes all lie
    inside a class [q]. *)
Definition todos_ascii : list ascii := map ascii_of_nat (seq 0 256).

Fixpoint classes_em (q : ascii -> bool) (r : Re.regex) : bool :=
  match r with
  | Re.Chr p => forallb (fun c => implb (p c) (q c)) todos_ascii
  | Re.Seq r1 r2 | Re.Alt r1 r2 => classes_em q r1 && classes_em q r2
  | Re.Star _ r1 | Re.Group _ r1 => classes_em q r1
  | _ => true
  end.


(* ===================================================================== *)
(** * Part II: properties                                                 *)
(* ===================================================================== *)

(** ** Strings *)

#[local] Arguments String.append !s1 s2 : simpl nomatch.

Section StringFacts.

Lemma app_nil_r (s : string) : s +:+ "" = s.
Proof. induction s as [|c s IH]; simpl; [done|by rewrite IH]. Qed.

Lemma app_assoc (a b c : string) : (a +:+ b) +:+ c = a +:+ (b +:+ c).
Proof. induction a as [|x a IH]; simpl; [done|by rewrite IH]. Qed.

Lemma length_app (a b : string) :
  String.length (a +:+ b) = (String.length a + String.length b)%nat.
Proof. induction a as [|x a IH]; simpl; [done|by rewrite IH]. Qed.

Lemma substring_app (w t : string) :
  String.substring 0 (String.length w) (w +:+ t) = w.
Proof.
  induction w as [|c w IH]; simpl.
  - by destruct t.
  - by rewrite IH.
Qed.

Lemma replace_app old new (a b : string) :
  PyStr.replace old new (a +:+ b)
  = PyStr.replace old new a +:+ PyStr.replace old new b.
Proof.
  induction a as [|c a IH]; simpl; [done|].
  destruct (Ascii.eqb c old); rewrite IH; [by rewrite app_assoc|done].
Qed.

Lemma all_chars_app p (a b : string) :
  PyStr.all_chars p (a +:+ b)
  = PyStr.all_chars p a && PyStr.all_chars p b.
Proof.
  induction a as [|c a IH]; simpl; [done|].
  by rewrite IH, andb_assoc.
Qed.

Lemma all_chars_impl (p q : ascii -> bool) (s : string) :
  (forall c, p c = true -> q c = true) ->
  PyStr.all_chars p s = true -> PyStr.all_chars q s = true.
Proof.
  intros Hpq. induction s as [|c s IH]; simpl; [done|].
  intros [Hc Hs]%andb_true_iff. rewrite (Hpq _ Hc). by apply IH.
Qed.

End StringFacts.

(** ** The matcher and the matches *)

Section ReFacts.
Import Re.

Lemma star_loop_sound passo g r1 k
  (Hpasso : forall st k' x, passo st k' = Some x ->
              exists st', matches r1 st st' /\ k' st' = Some x) :
  forall n st x, star_loop passo g k n st = Some x ->
    exists st', matches (Star g r1) st st' /\ k st' = Some x.
Proof.
  induction n as [|n IHn]; intros st x H; simpl in H.
  - destruct g; [|destruct (k st) eqn:Ek; [|done]];
      exists st; split; try apply M_Star0; congruence.
  - assert (Hagain : forall y,
      passo st (fun st1 =>
        if (String.length (rest st1) <? String.length (rest st))%nat
        then star_loop passo g k n st1 else None) = Some y ->
      exists st', matches (Star g r1) st st' /\ k st' = Some y).
    { intros y Hy. apply Hpasso in Hy as (st1 & M1 & Hy).
      destruct (String.length (rest st1) <? String.length (rest st))%nat
        eqn:Hlt; [|done].
      apply Nat.ltb_lt in Hlt. apply IHn in Hy as (st2 & M2 & Hy).
      exists st2. split; [by eapply M_StarS|done]. }
    destruct g.
    + destruct (passo st _) eqn:E.
      * inversion H; subst. by apply Hagain.
      * exists st. split; [apply M_Star0|done].
    + destruct (k st) eqn:Ek.
      * inversion H; subst. exists st. split; [apply M_Star0|done].
      * by apply Hagain.
Qed.

(** A result of the matcher is a match. *)
Lemma rmatch_sound r : forall st k x,
  rmatch r st k = Some x ->
  exists st', matches r st st' /\ k st' = Some x.
Proof.
  induction r as [p| |r1 IH1 r2 IH2|r1 IH1 r2 IH2|g r1 IH|i r1 IH| |];
    intros st k x H; simpl in H.
  - destruct (rest st) as [|c s'] eqn:E; [done|].
    destruct (p c) eqn:Ep; [|done].
    exists (advance st s'). split; [by eapply M_Chr|done].
  - exists st. split; [apply M_Eps|done].
  - apply IH1 in H as (st1 & M1 & H). apply IH2 in H as (st2 & M2 & H).
    exists st2. split; [by eapply M_Seq|done].
  - destruct (rmatch r1 st k) eqn:E1.
    + inversion H; subst. apply IH1 in E1 as (st' & M1 & E1).
      exists st'. split; [by apply M_AltL|done].
    + apply IH2 in H as (st' & M2 & H).
      exists st'. split; [by apply M_AltR|done].
  - by eapply star_loop_sound.
  - apply IH in H as (st1 & M1 & H).
    exists (set_cap i st st1). split; [by apply M_Group|done].
  - destruct (pos st =? 0)%nat eqn:E; [|done]. apply Nat.eqb_eq in E.
    exists st. split; [by apply M_Bol|done].
  - exists st. split; [|by destruct (rest st) as [|c [|]];
      try destruct (Ascii.eqb c "010")].
    apply M_Eol. destruct (rest st) as [|c [|]]; [by left| |done].
    destruct (Ascii.eqb c "010") eqn:E; [|done].
    apply Ascii.eqb_eq in E. subst. by right.
Qed.

Lemma star_loop_complete passo g r1 k
  (Hpasso : forall st st', matches r1 st st' ->
              forall k', is_Some (k' st') -> is_Some (passo st k')) :
  forall n st st', (String.length (rest st) <= n)%nat ->
    matches (Star g r1) st st' -> is_Some (k st') ->
    is_Some (star_loop passo g k n st).
Proof.
  induction n as [|n IHn]; intros st st' Hn M Hk; inversion M; subst; simpl.
  - destruct g; [done|]. by destruct Hk as [y ->].
  - lia.
  - destruct g.
    + by destruct (passo st' _).
    + by destruct Hk as [y ->].
  - match goal with
    | M1 : matches r1 st ?st1, M2 : matches (Star g r1) ?st1 st' |- _ =>
        assert (Hagain : is_Some (passo st (fun st1 =>
          if (String.length (rest st1) <? String.length (rest st))%nat
          then star_loop passo g k n st1 else None)));
        [ eapply Hpasso; [exact M1|];
          destruct (Nat.ltb_spec (String.length (rest st1))
                      (String.length (rest st))); [|lia];
          eapply IHn; [lia|exact M2|done] |]
    end.
    destruct Hagain as [y Hy]. destruct g.
    + by rewrite Hy.
    + destruct (k st); [done|]. by rewrite Hy.
Qed.

(** Where there is a match whose continuation succeeds, the matcher
    finds one (maybe another). *)
Lemma rmatch_complete r : forall st st',
  matches r st st' ->
  forall k, is_Some (k st') -> is_Some (rmatch r st k).
Proof.
  induction r as [p| |r1 IH1 r2 IH2|r1 IH1 r2 IH2|g r1 IH|i r1 IH| |];
    intros st st' M k Hk; inversion M; subst; simpl.
  - match goal with H : rest _ = String _ _ |- _ => rewrite H end.
    match goal with H : p _ = true |- _ => by rewrite H end.
  - done.
  - eapply IH1; [done|]. by eapply IH2.
  - destruct (rmatch r1 _ k) eqn:E; [done|].
    assert (is_Some (rmatch r1 st k)) as [? ?] by by eapply IH1.
    congruence.
  - destruct (rmatch r1 _ k) eqn:E; [done|]. by eapply IH2.
  - eapply star_loop_complete; [apply IH|lia|apply M_Star0|done].
  - eapply star_loop_complete; [apply IH|lia| |done].
    by eapply M_StarS.
  - by eapply IH.
  - match goal with H : pos _ = _ |- _ => by rewrite H end.
  - match goal with H : _ \/ _ |- _ => by destruct H as [-> | ->] end.
Qed.

End ReFacts.

Section ReLang.
Import Re.

(** A match consumes a word of the pattern's language. *)
Lemma matches_word r st st' :
  matches r st st' ->
  exists w, rest st = w +:+ rest st' /\ in_lang r w.
Proof.
  induction 1 as [p st c s' E Hp|st|r1 r2 st st1 st2 _ IH1 _ IH2
                 |r1 r2 st st' _ IH|r1 r2 st st' _ IH|g r st
                 |g r st st1 st2 _ IH1 _ _ IH2|i r st st1 _ IH|st|st].
  - exists (String c ""). split; [done|by constructor].
  - exists "". split; [done|constructor].
  - destruct IH1 as (w1 & E1 & L1), IH2 as (w2 & E2 & L2).
    exists (w1 +:+ w2). split; [|by constructor].
    by rewrite E1, E2, app_assoc.
  - destruct IH as (w & E & L). exists w. split; [done|by apply L_AltL].
  - destruct IH as (w & E & L). exists w. split; [done|by apply L_AltR].
  - exists "". split; [done|constructor].
  - destruct IH1 as (w1 & E1 & L1), IH2 as (w2 & E2 & L2).
    exists (w1 +:+ w2). split; [|by constructor].
    by rewrite E1, E2, app_assoc.
  - destruct IH as (w & E & L). exists w. split; [done|by constructor].
  - exists "". split; [done|constructor].
  - exists "". split; [done|constructor].
Qed.

Lemma consumed_word st st' w :
  rest st = w +:+ rest st' -> consumed st st' = w.
Proof.
  intros E. unfold consumed. rewrite E, length_app.
  replace (String.length w + String.length (rest st')
           - String.length (rest st'))%nat with (String.length w) by lia.
  apply substring_app.
Qed.

(** Outside a group nothing is captured. *)
Lemma matches_caps r st st' :
  matches r st st' -> no_groups r = true -> caps st' = caps st.
Proof.
  induction 1 as [p st c s' E Hp|st|r1 r2 st st1 st2 _ IH1 _ IH2
                 |r1 r2 st st' _ IH|r1 r2 st st' _ IH|g r st
                 |g r st st1 st2 _ IH1 _ _ IH2|i r st st1 _ IH|st|st];
    simpl; intros Hg; try done.
  - apply andb_true_iff in Hg as [? ?]. rewrite IH2, IH1; done.
  - apply andb_true_iff in Hg as [? ?]. auto.
  - apply andb_true_iff in Hg as [? ?]. auto.
  - rewrite IH2, IH1; done.
Qed.

(** A word of the language can be matched wherever it stands. *)
Lemma word_matches r w :
  in_lang r w -> no_anchors r = true ->
  forall st tl, rest st = w +:+ tl ->
  exists st', matches r st st' /\ rest st' = tl.
Proof.
  induction 1 as [p c Hp| |r1 r2 w1 w2 _ IH1 _ IH2|r1 r2 w _ IH
                 |r1 r2 w _ IH|g r|g r w1 w2 _ IH1 _ IH2|i r w _ IH| |];
    simpl; intros Ha st tl E; try done.
  - exists (advance st tl). split; [by eapply M_Chr|done].
  - exists st. split; [constructor|done].
  - apply andb_true_iff in Ha as [Ha1 Ha2]. rewrite app_assoc in E.
    destruct (IH1 Ha1 _ _ E) as (st1 & M1 & E1).
    destruct (IH2 Ha2 _ _ E1) as (st2 & M2 & E2).
    exists st2. split; [by eapply M_Seq|done].
  - apply andb_true_iff in Ha as [Ha1 Ha2].
    destruct (IH Ha1 _ _ E) as (st1 & M1 & E1).
    exists st1. split; [by apply M_AltL|done].
  - apply andb_true_iff in Ha as [Ha1 Ha2].
    destruct (IH Ha2 _ _ E) as (st1 & M1 & E1).
    exists st1. split; [by apply M_AltR|done].
  - exists st. split; [constructor|done].
  - destruct w1 as [|c w1]; [exact (IH2 Ha _ _ E)|].
    rewrite app_assoc in E.
    destruct (IH1 Ha _ _ E) as (st1 & M1 & E1).
    destruct (IH2 Ha _ _ E1) as (st2 & M2 & E2).
    exists st2. split; [|done]. eapply M_StarS; [done| |done].
    rewrite E, E1. simpl. rewrite !length_app. lia.
  - destruct (IH Ha _ _ E) as (st1 & M1 & E1).
    exists (set_cap i st st1). split; [by constructor|done].
Qed.

(** A pattern anchored with [^] only matches at the start. *)
Lemma search_from_bol r : forall s n,
  search_from (Seq Bol r) (S n) s = None.
Proof. induction s as [|c s IH]; intros n; simpl; [done|apply IH]. Qed.

Lemma search_bol r s :
  search (Seq Bol r) s = match_at (Seq Bol r) 0 s.
Proof.
  unfold search. destruct s as [|c s]; simpl.
  - by destruct (match_at _ _ _).
  - destruct (match_at _ _ _) eqn:E; [done|]. apply search_from_bol.
Qed.

End ReLang.

Section CharFacts.
Import PyStr.

Lemma isdigit_inv c :
  isdigit c = true ->
  In c ["0"; "1"; "2"; "3"; "4"; "5"; "6"; "7"; "8"; "9"]%char.
Proof.
  destruct c as [[] [] [] [] [] [] [] []]; intros H;
    vm_compute in H; try discriminate H; simpl; tauto.
Qed.

(** What the float parser and the normalisation need to know about a
    digit. *)
Lemma isdigit_facts c :
  isdigit c = true ->
  isspace c = false /\ lower_char c = c
  /\ Ascii.eqb c "." = false /\ Ascii.eqb c "," = false
  /\ Ascii.eqb c "_" = false /\ Ascii.eqb c "-" = false
  /\ Ascii.eqb c "+" = false /\ Ascii.eqb c "i" = false
  /\ Ascii.eqb c "n" = false /\ Ascii.eqb c "/" = false.
Proof.
  intros H%isdigit_inv. simpl in H.
  repeat destruct H as [<-|H]; try done; by vm_compute.
Qed.

Lemma digits_app a b : digits a -> digits b -> digits (a +:+ b).
Proof. unfold digits. rewrite all_chars_app. by intros -> ->. Qed.

Lemma digits_cons c w : digits (String c w) <-> isdigit c = true /\ digits w.
Proof. unfold digits. simpl. apply andb_true_iff. Qed.

End CharFacts.

Section ValorFacts.
Import Re Padroes PyStr.

Lemma normalizar_app a b :
  normalizar_valor (a +:+ b) = normalizar_valor a +:+ normalizar_valor b.
Proof. unfold normalizar_valor. by rewrite !replace_app. Qed.

Lemma normalizar_digits w : digits w -> normalizar_valor w = w.
Proof.
  unfold normalizar_valor. induction w as [|c w IH]; [done|].
  intros [Hc Hw]%digits_cons.
  destruct (isdigit_facts c Hc) as (_ & _ & Hp & Hv & _).
  simpl. rewrite Hp. simpl. rewrite Hv. by rewrite IH.
Qed.

Ltac inv_lang :=
  repeat match goal with
    | H : in_lang (Seq _ _) _ |- _ => inversion H; subst; clear H
    | H : in_lang (Alt _ _) _ |- _ => inversion H; subst; clear H
    | H : in_lang (Chr _) _ |- _ => inversion H; subst; clear H
    | H : in_lang (Group _ _) _ |- _ => inversion H; subst; clear H
    | H : in_lang Eps _ |- _ => inversion H; subst; clear H
    | H : in_lang Bol _ |- _ => inversion H; subst; clear H
    | H : in_lang Eol _ |- _ => inversion H; subst; clear H
    | H : Ascii.eqb _ _ = true |- _ => apply Ascii.eqb_eq in H; subst
    end.

Lemma lang_digit1to3 w :
  in_lang digit1to3 w -> w <> "" /\ digits w.
Proof.
  unfold digit1to3, opt, digit. intros H. inv_lang; simpl;
    (split; [done|]); unfold digits; simpl;
    repeat match goal with H : isdigit _ = true |- _ => rewrite H; clear H end;
    done.
Qed.

Lemma lang_digit2 w :
  in_lang digit2 w ->
  exists a b, w = String a (String b "")
              /\ isdigit a = true /\ isdigit b = true.
Proof. unfold digit2, digit. intros H. inv_lang. simpl. eauto 6. Qed.

Lemma lang_digit3 w :
  in_lang digit3 w -> String.length w = 3%nat /\ digits w.
Proof.
  unfold digit3, digit2, digit. intros H. inv_lang. simpl.
  split; [done|]. unfold digits; simpl.
  repeat match goal with H : isdigit _ = true |- _ => rewrite H; clear H end.
  done.
Qed.

(** The thousands groups vanish under the normalisation, leaving
    digits. *)
Lemma lang_milhares w :
  in_lang milhares w -> digits (normalizar_valor w).
Proof.
  unfold milhares. remember (Star true (lit "." @@ digit3)) as r eqn:Er.
  induction 1 as [| | | | | |g r0 w1 w2 H1 _ H2 IH2| | |]; try done.
  inversion Er; subst. rewrite normalizar_app.
  apply digits_app; [|by apply IH2].
  unfold lit in H1. inv_lang.
  match goal with H : in_lang digit3 _ |- _ =>
    apply lang_digit3 in H as [_ Hd] end.
  change (normalizar_valor (String "." "" +:+ ?w))
    with (normalizar_valor w). by rewrite normalizar_digits.
Qed.

(** The amount token of the Santander pattern normalises to digits, a
    point and two digits. *)
Lemma lang_valor w :
  in_lang valor_re w ->
  exists ip fp, normalizar_valor w = ip +:+ String "." fp
                /\ ip <> "" /\ digits ip /\ digits fp
                /\ String.length fp = 2%nat.
Proof.
  unfold valor_re. intros H.
  inversion H as [| |? ? w1 w' H1 H'| | | | | | |]; subst; clear H.
  inversion H' as [| |? ? w2 w'' H2 H''| | | | | | |]; subst; clear H'.
  inversion H'' as [| |? ? w3 w4 H3 H4| | | | | | |]; subst; clear H''.
  apply lang_digit1to3 in H1 as [Hne Hd1].
  apply lang_milhares in H2.
  apply lang_digit2 in H4 as (a & b & -> & Ha & Hb).
  unfold lit in H3. inv_lang.
  exists (w1 +:+ normalizar_valor w2), (String a (String b "")).
  rewrite !normalizar_app, (normalizar_digits w1) by done.
  repeat split.
  - rewrite app_assoc. f_equal. f_equal.
    change (normalizar_valor (String "," "" +:+ ?w))
      with (String "." (normalizar_valor w)).
    f_equal. apply normalizar_digits. unfold digits; simpl. by rewrite Ha, Hb.
  - by destruct w1.
  - by apply digits_app.
  - unfold digits; simpl. by rewrite Ha, Hb.
Qed.

End ValorFacts.

Section FloatFacts.
Import PyStr.

Lemma lstrip_nonspace c s :
  isspace c = false -> lstrip (String c s) = String c s.
Proof. intros H. simpl. by rewrite H. Qed.

Lemma rstrip_nospace s :
  all_chars (fun c => negb (isspace c)) s = true -> rstrip s = s.
Proof.
  induction s as [|c s IH]; [done|]. simpl.
  intros [Hc Hs]%andb_true_iff. rewrite (IH Hs).
  apply negb_true_iff in Hc. rewrite Hc. by destruct s.
Qed.

Lemma strip_nospace s :
  all_chars (fun c => negb (isspace c)) s = true -> strip s = s.
Proof.
  intros H. unfold strip. destruct s as [|c s]; [done|].
  pose proof H as [Hc _]%andb_true_iff. apply negb_true_iff in Hc.
  rewrite lstrip_nonspace by done. by apply rstrip_nospace.
Qed.

Lemma numchar_facts c :
  numchar c = true ->
  isspace c = false /\ lower_char c = c /\ Ascii.eqb c "_" = false.
Proof.
  unfold numchar. intros [H|H]%orb_true_iff.
  - destruct (isdigit_facts c H) as (? & ? & _ & _ & ? & _). done.
  - apply Ascii.eqb_eq in H. by subst.
Qed.

Lemma drop_underscores_none prev s :
  Ascii.eqb prev "_" = false ->
  all_chars numchar s = true ->
  PyFloat.drop_underscores prev s = Some s.
Proof.
  revert prev. induction s as [|c s IH]; intros prev Hp; simpl.
  - by rewrite Hp.
  - intros [Hc Hs]%andb_true_iff.
    destruct (numchar_facts c Hc) as (_ & _ & Hu).
    rewrite Hu, Hp. simpl. by rewrite IH.
Qed.

Lemma span_digits_app ip r :
  digits ip ->
  match r with String c _ => isdigit c = false | EmptyString => True end ->
  PyFloat.span_digits (ip +:+ r) = (ip, r).
Proof.
  intros Hd Hr. induction ip as [|c ip IH]; simpl.
  - destruct r as [|c r]; [done|]. simpl. by rewrite Hr.
  - apply digits_cons in Hd as [Hc Hd]. by rewrite Hc, IH.
Qed.

(** [float] of digits, a point and digits is the decimal they
    write. *)
Lemma float_decimal ip fp :
  ip <> "" -> digits ip -> digits fp ->
  PyFloat.float (ip +:+ String "." fp)
  = Ok (PyFloat.of_decimal (digits_val (ip +:+ fp))
          (- Z.of_nat (String.length fp))).
Proof.
  intros Hne Hip Hfp.
  assert (Hnum : all_chars numchar (ip +:+ String "." fp) = true).
  { rewrite all_chars_app. simpl.
    rewrite (all_chars_impl isdigit numchar ip), (all_chars_impl isdigit numchar fp);
      try done; unfold numchar; by intros c ->. }
  unfold PyFloat.float.
  rewrite strip_nospace.
  2:{ eapply all_chars_impl; [|exact Hnum].
      intros c Hc. by destruct (numchar_facts c Hc) as (-> & _). }
  rewrite drop_underscores_none by done.
  destruct ip as [|c ip]; [done|]. apply digits_cons in Hip as [Hc Hip].
  destruct (isdigit_facts c Hc) as (_ & Hl & _ & _ & _ & Hm & Hpl & Hi & Hn & _).
  simpl String.append. cbv iota. rewrite Hm, Hpl.
  unfold PyFloat.parse_unsigned.
  simpl lower. rewrite Hl. simpl String.eqb. rewrite Hi, Hn.
  cbv [orb]. cbv iota.
  change (String c (ip +:+ String "." fp))
    with (String c ip +:+ String "." fp).
  rewrite span_digits_app; [|by apply digits_cons|done].
  cbv iota. change (Ascii.eqb "." ".") with true. cbv iota.
  rewrite <- (app_nil_r fp) at 1.
  rewrite span_digits_app by done.
  simpl String.append. cbv iota. simpl PyFloat.parse_exponent. cbv iota.
  done.
Qed.

End FloatFacts.

Section GroupFacts.
Import Re Padroes PyStr.

Lemma group_cap i r st st' :
  matches (Group i r) st st' -> no_groups r = true ->
  exists w, in_lang r w /\ caps st' = (i, w) :: caps st
            /\ rest st = w +:+ rest st'.
Proof.
  intros M Hg. inversion M as [| | | | | | |? ? ? st1 M1| |]; subst.
  destruct (matches_word _ _ _ M1) as (w & E & L).
  exists w. simpl. rewrite (consumed_word _ _ _ E).
  by rewrite (matches_caps _ _ _ M1 Hg).
Qed.

Lemma spaces_word st st' :
  matches spaces st st' ->
  exists w, in_lang spaces w /\ caps st' = caps st
            /\ rest st = w +:+ rest st'.
Proof.
  intros M. destruct (matches_word _ _ _ M) as (w & E & L).
  exists w. by rewrite (matches_caps _ _ _ M).
Qed.

(** The three patterns share their head
    [^(A)\s+(B)\s+(C)]: after it the three groups are set, to
    consecutive pieces of the line. *)
Lemma tres_grupos A B C st st' s1 s2 s3 s4 s5 :
  matches Bol st st' ->
  matches (Group 1 A) st' s1 -> matches spaces s1 s2 ->
  matches (Group 2 B) s2 s3 -> matches spaces s3 s4 ->
  matches (Group 3 C) s4 s5 ->
  no_groups A = true -> no_groups B = true -> no_groups C = true ->
  exists a b c ws1 ws2,
    caps s5 = (3%nat, c) :: (2%nat, b) :: (1%nat, a) :: caps st
    /\ in_lang A a /\ in_lang B b /\ in_lang C c
    /\ in_lang spaces ws1 /\ in_lang spaces ws2
    /\ rest st = a +:+ ws1 +:+ b +:+ ws2 +:+ c +:+ rest s5.
Proof.
  intros H0 M1 M2 M3 M4 M5 HA HB HC.
  assert (st' = st) as -> by by inversion H0.
  destruct (group_cap _ _ _ _ M1 HA) as (a & La & Ca & Ea).
  destruct (spaces_word _ _ M2) as (ws1 & L1 & C1 & E1).
  destruct (group_cap _ _ _ _ M3 HB) as (b & Lb & Cb & Eb).
  destruct (spaces_word _ _ M4) as (ws2 & L2 & C2 & E2).
  destruct (group_cap _ _ _ _ M5 HC) as (c & Lc & Cc & Ec).
  exists a, b, c, ws1, ws2.
  rewrite Cc, C2, Cb, C1, Ca, Ea, E1, Eb, E2, Ec. done.
Qed.

Ltac inv_seq :=
  repeat match goal with
    | H : matches (Seq _ _) _ _ |- _ => inversion H; subst; clear H
    end.

(** A match of [^(A)\s+(B)\s+(C)T]: the groups and where they
    stand. *)
Lemma grupos_com_cauda A B C T linha m :
  search (Bol @@ Group 1 A @@ spaces @@ Group 2 B @@ spaces
            @@ Group 3 C @@ T) linha = Some m ->
  no_groups A = true -> no_groups B = true -> no_groups C = true ->
  no_groups T = true ->
  exists a b c ws1 ws2 t,
    groups3 m = Some (a, b, c)
    /\ in_lang A a /\ in_lang B b /\ in_lang C c
    /\ in_lang spaces ws1 /\ in_lang spaces ws2 /\ in_lang T t
    /\ linha = a +:+ ws1 +:+ b +:+ ws2 +:+ c +:+ t +:+ rest m.
Proof.
  rewrite search_bol. intros H HA HB HC HT.
  apply rmatch_sound in H as (st' & M & H). inversion H; subst; clear H.
  inv_seq.
  match goal with
  | H0 : matches Bol _ ?s0, H1 : matches (Group 1 _) ?s0 ?s1,
    H2 : matches spaces ?s1 ?s2, H3 : matches (Group 2 _) ?s2 ?s3,
    H4 : matches spaces ?s3 ?s4, H5 : matches (Group 3 _) ?s4 ?s5,
    H6 : matches T ?s5 m |- _ =>
      destruct (tres_grupos _ _ _ _ _ _ _ _ _ _ H0 H1 H2 H3 H4 H5 HA HB HC)
        as (a & b & c & ws1 & ws2 & Hc & La & Lb & Lc & L1 & L2 & E);
      destruct (matches_word _ _ _ H6) as (t & Et & Lt);
      pose proof (matches_caps _ _ _ H6 HT) as Hm
  end.
  simpl in E, Hc. rewrite Hc in Hm.
  exists a, b, c, ws1, ws2, t. unfold groups3, group.
  rewrite Hm, E, Et. done.
Qed.

(** A match of [^(A)\s+(B)\s+(C)]. *)
Lemma grupos_sem_cauda A B C linha m :
  search (Bol @@ Group 1 A @@ spaces @@ Group 2 B @@ spaces
            @@ Group 3 C) linha = Some m ->
  no_groups A = true -> no_groups B = true -> no_groups C = true ->
  exists a b c ws1 ws2,
    groups3 m = Some (a, b, c)
    /\ in_lang A a /\ in_lang B b /\ in_lang C c
    /\ in_lang spaces ws1 /\ in_lang spaces ws2
    /\ linha = a +:+ ws1 +:+ b +:+ ws2 +:+ c +:+ rest m.
Proof.
  rewrite search_bol. intros H HA HB HC.
  apply rmatch_sound in H as (st' & M & H). inversion H; subst; clear H.
  inv_seq.
  match goal with
  | H0 : matches Bol _ ?s0, H1 : matches (Group 1 _) ?s0 ?s1,
    H2 : matches spaces ?s1 ?s2, H3 : matches (Group 2 _) ?s2 ?s3,
    H4 : matches spaces ?s3 ?s4, H5 : matches (Group 3 _) ?s4 m |- _ =>
      destruct (tres_grupos _ _ _ _ _ _ _ _ _ _ H0 H1 H2 H3 H4 H5 HA HB HC)
        as (a & b & c & ws1 & ws2 & Hc & La & Lb & Lc & L1 & L2 & E)
  end.
  simpl in E, Hc.
  exists a, b, c, ws1, ws2. unfold groups3, group.
  rewrite Hc, E. done.
Qed.

(** [re.fullmatch] accepts words of the language only. *)
Lemma fullmatch_lang r s : fullmatch r s = true -> in_lang r s.
Proof.
  unfold fullmatch.
  destruct (rmatch r _ _) as [x|] eqn:H; [intros _|done].
  apply rmatch_sound in H as (st' & M & H).
  destruct (rest st') eqn:E; [|done].
  destruct (matches_word _ _ _ M) as (w & Ew & L).
  simpl in Ew. rewrite E, app_nil_r in Ew. by subst.
Qed.

End GroupFacts.

Section Santander.
Import Re Padroes PyStr.

(** What a primary match makes of the line. *)
Lemma santander_linha_match linha m :
  search padrao_santander linha = Some m ->
  exists data_completa descricao valor_str ip fp,
    groups3 m = Some (data_completa, descricao, valor_str)
    /\ in_lang valor_re valor_str
    /\ normalizar_valor valor_str = ip +:+ String "." fp
    /\ digits ip /\ digits fp /\ String.length fp = 2%nat
    /\ let valor := of_decimal (PyStr.digits_val (ip +:+ fp)) (-2) in
       float (normalizar_valor valor_str) = Ok valor
       /\ santander_linha linha
          = Ok (if gt0 valor
                then [Transacao data_completa (PyStr.strip descricao) valor
                        (PyStr.strip descricao)]
                else []).
Proof.
  intros H. pose proof H as Hs.
  apply grupos_com_cauda in H
    as (a & b & c & ws1 & ws2 & t & Hg & _ & _ & Lc & _); try done.
  destruct (lang_valor _ Lc) as (ip & fp & En & Hne & Hip & Hfp & Hlen).
  exists a, b, c, ip, fp.
  assert (Hf : float (normalizar_valor c)
               = Ok (of_decimal (PyStr.digits_val (ip +:+ fp)) (-2))).
  { rewrite En, float_decimal by done. by rewrite Hlen. }
  repeat split; try done.
  unfold santander_linha. rewrite Hs, Hg, Hf. simpl.
  by destruct (gt0 _).
Qed.

End Santander.

Import PyStr.

Section Claims_Santander.
Import Re Padroes.

(** C1. A line matched by the Santander primary pattern is parsed to
    the amount its third group writes: the group, with ['.'] deleted
    and [','] turned into ['.'], is [ip.fp] with digits [ip] and two
    digits [fp]; [float] accepts it and gives the decimal [ip.fp]; when
    that amount is positive the line appends exactly one transaction
    carrying it (with the date of group 1 and the stripped description
    of group 2), and otherwise it appends nothing.  In particular the
    line [01/03/2024 UBER TRIP 45,90 9,18 5,000] yields the single
    transaction of 01/03/2024, UBER TRIP, 45.90 (the binary64 nearest
    to 4590/100). *)
Theorem santander_linha_primaria :
  (forall linha m,
     search padrao_santander linha = Some m ->
     exists data_completa descricao valor_str ip fp valor,
       groups3 m = Some (data_completa, descricao, valor_str)
       /\ replace "," "." (replace "." "" valor_str) = ip +:+ String "." fp
       /\ digits ip /\ digits fp /\ String.length fp = 2%nat
       /\ valor = of_decimal (digits_val (ip +:+ fp)) (-2)
       /\ float (replace "," "." (replace "." "" valor_str)) = Ok valor
       /\ (gt0 valor = true ->
           santander_linha linha
           = Ok [Transacao data_completa (strip descricao) valor
                   (strip descricao)])
       /\ (gt0 valor = false -> santander_linha linha = Ok []))
  /\ santander_linha "01/03/2024 UBER TRIP 45,90 9,18 5,000"
     = Ok [Transacao "01/03/2024" "UBER TRIP" (of_decimal 4590 (-2))
             "UBER TRIP"]
  /\ of_decimal 4590 (-2) = PFin (6459850715509555 # 140737488355328)
  /\ processar_formato_santander "01/03/2024 UBER TRIP 45,90 9,18 5,000"
     = Ok [Transacao "01/03/2024" "UBER TRIP" (of_decimal 4590 (-2))
             "UBER TRIP"].
Proof.
  split; [|by vm_compute].
  intros linha m H.
  destruct (santander_linha_match linha m H)
    as (d & desc & v & ip & fp & Hg & _ & En & Hip & Hfp & Hlen & Hf & Hl).
  exists d, desc, v, ip, fp, (of_decimal (digits_val (ip +:+ fp)) (-2)).
  repeat split; try done.
  - intros Hpos. by rewrite Hl, Hpos.
  - intros Hneg. by rewrite Hl, Hneg.
Qed.

Lemma santander_linha_primaria_witness :
  search padrao_santander "05/04/2024 POSTO SHELL 1.250,00 250,00 5,000"
    = Some (MState 44 "" [(3, "1.250,00"); (2, "POSTO SHELL");
                            (1, "05/04/2024")]%nat)
  /\ santander_linha "05/04/2024 POSTO SHELL 1.250,00 250,00 5,000"
     = Ok [Transacao "05/04/2024" "POSTO SHELL" (PFin 1250) "POSTO SHELL"].
Proof.
  split; [by vm_compute|].
  destruct (proj1 santander_linha_primaria
              "05/04/2024 POSTO SHELL 1.250,00 250,00 5,000"
              (MState 44 "" [(3, "1.250,00"); (2, "POSTO SHELL");
                               (1, "05/04/2024")]%nat) eq_refl)
    as (d & desc & v & ip & fp & valor & Hg & _ & _ & _ & _ & _ & Hf & Hp & _).
  clear ip fp. vm_compute in Hg. injection Hg as <- <- <-.
  vm_compute in Hf. injection Hf as <-.
  apply Hp. reflexivity.
Defined.

(** C7. A line the primary pattern does not match but the
    negative-amount pattern does appends nothing (and raises
    nothing). *)
Theorem santander_linha_estorno linha :
  search padrao_santander linha = None ->
  search padrao_negativo linha <> None ->
  santander_linha linha = Ok [].
Proof.
  intros Hp Hn. unfold santander_linha. rewrite Hp.
  destruct (search padrao_negativo linha) as [m|] eqn:E; [|done].
  apply grupos_sem_cauda in E as (a & b & c & _ & _ & -> & _); done.
Qed.

Lemma santander_linha_estorno_witness :
  search padrao_santander "02/03/2024 ESTORNO UBER -45,90" = None
  /\ search padrao_negativo "02/03/2024 ESTORNO UBER -45,90"
     = Some (MState 30 "" [(3, "-45,90"); (2, "ESTORNO UBER");
                             (1, "02/03/2024")]%nat)
  /\ santander_linha "02/03/2024 ESTORNO UBER -45,90" = Ok [].
Proof.
  split; [by vm_compute|]. split; [by vm_compute|].
  apply santander_linha_estorno; [by vm_compute|].
  by vm_compute.
Defined.

End Claims_Santander.

Section DateShape.
Import Re Padroes.

Lemma isdigit_digit_char n : isdigit (digit_char n) = true.
Proof.
  unfold isdigit, digit_char, ord.
  rewrite N_ascii_embedding by (pose proof (N.mod_lt n 10); lia).
  pose proof (N.mod_lt n 10 ltac:(done)).
  apply andb_true_iff. split; apply N.leb_le; [apply N.le_add_r|lia].
Qed.

(** Ten characters laid out as DD/MM/YYYY. *)
Lemma fullmatch_data_completa a b c d e f g h :
  isdigit a = true -> isdigit b = true -> isdigit c = true ->
  isdigit d = true -> isdigit e = true -> isdigit f = true ->
  isdigit g = true -> isdigit h = true ->
  fullmatch data_completa_re
    (String a (String b (String "/" (String c (String d (String "/"
       (String e (String f (String g (String h "")))))))))) = true.
Proof.
  intros Ha Hb Hc Hd He Hf Hg Hh.
  unfold fullmatch, data_completa_re, digit4, digit3, digit2, digit, lit.
  simpl. by rewrite Ha, Hb, Hc, Hd, He, Hf, Hg, Hh.
Qed.

Lemma lang_dia_mes w :
  in_lang dia_mes_re w ->
  exists a b c d,
    w = String a (String b (String "/" (String c (String d ""))))
    /\ isdigit a = true /\ isdigit b = true
    /\ isdigit c = true /\ isdigit d = true.
Proof.
  unfold dia_mes_re, lit. intros H.
  inversion H as [| |? ? w1 w' H1 H'| | | | | | |]; subst; clear H.
  inversion H' as [| |? ? w2 w3 H2 H3| | | | | | |]; subst; clear H'.
  apply lang_digit2 in H1 as (a & b & -> & Ha & Hb).
  apply lang_digit2 in H3 as (c & d & -> & Hc & Hd).
  inversion H2 as [? x Hx| | | | | | | | |]; subst.
  apply Ascii.eqb_eq in Hx. subst x.
  exists a, b, c, d. done.
Qed.

(** [str] of a four-digit year. *)
Lemma str_int_ano :
  forallb (fun y => String.eqb (str_int y) (pad4 y)) (seqZ 1000 9000) = true.
Proof. by vm_compute. Qed.

Lemma str_int_pad4 y : (1000 <= y <= 9999)%Z -> str_int y = pad4 y.
Proof.
  intros Hy. apply String.eqb_eq.
  pose proof str_int_ano as H. rewrite forallb_forall in H.
  apply H. apply list_elem_of_In, elem_of_seqZ. lia.
Qed.

End DateShape.

Section Claims_Sicoob.
Import Re Padroes.

Lemma sicoob_grupos linha m :
  search padrao_sicoob linha = Some m ->
  exists data_str descricao valor_str,
    groups3 m = Some (data_str, descricao, valor_str)
    /\ in_lang dia_mes_re data_str.
Proof.
  intros H. apply grupos_com_cauda in H
    as (a & b & c & _ & _ & _ & Hg & La & _); try done.
  by exists a, b, c.
Qed.

(** C2, as the code has it. A line without boilerplate marker that the
    Sicoob pattern matches, and whose amount parses to a positive
    [float], appends exactly one transaction; its date is the DD/MM of
    group 1, ['/'] and the year as [str] renders it, which for a year of
    four digits has the layout DD/MM/YYYY.  When the amount parses to a
    value that is not positive the line appends nothing.  In particular
    [05/03 MERCADO LIVRE 120,00] with year 2024 yields the single
    transaction of 05/03/2024, MERCADO LIVRE, 120.00. *)
Theorem sicoob_linha_transacao :
  (forall ano linha m,
     contem_alguma marcadores_sicoob linha = false ->
     search padrao_sicoob linha = Some m ->
     exists data_str descricao valor_str,
       groups3 m = Some (data_str, descricao, valor_str)
       /\ in_lang dia_mes_re data_str
       /\ forall valor,
            float (replace "," "." (replace "." "" valor_str)) = Ok valor ->
            (gt0 valor = true ->
               sicoob_linha ano linha
               = Ok [Transacao (data_str +:+ "/" +:+ str_int ano)
                       (strip descricao) valor (strip descricao)]
               /\ ((1000 <= ano <= 9999)%Z ->
                   fullmatch data_completa_re
                     (data_str +:+ "/" +:+ str_int ano) = true))
            /\ (gt0 valor = false -> sicoob_linha ano linha = Ok []))
  /\ sicoob_linha 2024 "05/03 MERCADO LIVRE 120,00"
     = Ok [Transacao "05/03/2024" "MERCADO LIVRE" (PFin 120)
             "MERCADO LIVRE"]
  /\ processar_formato_sicoob "05/03 MERCADO LIVRE 120,00" 2024
     = Ok [Transacao "05/03/2024" "MERCADO LIVRE" (PFin 120)
             "MERCADO LIVRE"].
Proof.
  split; [|by vm_compute].
  intros ano linha m Hmk Hs.
  destruct (sicoob_grupos linha m Hs) as (d & desc & v & Hg & Ld).
  exists d, desc, v. repeat split; try done.
  - unfold sicoob_linha. rewrite Hmk, Hs, Hg.
    fold (normalizar_valor v).
    match goal with H : float _ = Ok _ |- _ =>
      unfold normalizar_valor; rewrite H end.
    simpl. by match goal with H : gt0 _ = true |- _ => rewrite H end.
  - intros Hano. rewrite (str_int_pad4 ano Hano).
    destruct (lang_dia_mes _ Ld) as (a & b & c & e & -> & Ha & Hb & Hc & He).
    apply fullmatch_data_completa; try done; apply isdigit_digit_char.
  - intros Hneg. unfold sicoob_linha. rewrite Hmk, Hs, Hg.
    match goal with H : float _ = Ok _ |- _ =>
      unfold normalizar_valor; rewrite H end.
    simpl. by rewrite Hneg.
Qed.

Lemma sicoob_linha_transacao_witness :
  contem_alguma marcadores_sicoob "06/03 PADARIA 1.234,56" = false
  /\ search padrao_sicoob "06/03 PADARIA 1.234,56"
     = Some (MState 22 "" [(3, "1.234,56"); (2, "PADARIA");
                             (1, "06/03")]%nat)
  /\ exists valor,
       float "1234.56" = Ok valor /\ gt0 valor = true
       /\ sicoob_linha 2025 "06/03 PADARIA 1.234,56"
          = Ok [Transacao "06/03/2025" "PADARIA" valor "PADARIA"].
Proof.
  split; [by vm_compute|]. split; [by vm_compute|].
  destruct (proj1 sicoob_linha_transacao 2025%Z "06/03 PADARIA 1.234,56"
              (MState 22 "" [(3, "1.234,56"); (2, "PADARIA");
                               (1, "06/03")]%nat) eq_refl eq_refl)
    as (d & desc & v & Hg & _ & H).
  vm_compute in Hg. inversion Hg; subst d desc v.
  exists (of_decimal 123456 (-2)).
  split; [by vm_compute|]. split; [by vm_compute|].
  destruct (H (of_decimal 123456 (-2)) ltac:(by vm_compute)) as [Hp _].
  destruct (Hp ltac:(by vm_compute)) as [-> _]. by vm_compute.
Defined.

(** The claim without the marker test fails: this line has the shape
    of the pattern and a positive amount, and appends nothing. *)
Lemma sicoob_linha_transacao_counterexample :
  search padrao_sicoob "05/03 COMPRA TOTAL 120,00"
    = Some (MState 25 "" [(3, "120,00"); (2, "COMPRA TOTAL");
                            (1, "05/03")]%nat)
  /\ float (replace "," "." (replace "." "" "120,00")) = Ok (PFin 120)
  /\ gt0 (PFin 120) = true
  /\ sicoob_linha 2024 "05/03 COMPRA TOTAL 120,00" = Ok [].
Proof. by vm_compute. Qed.

(** C8. A line containing one of the markers SALDO ANTERIOR, TOTAL or
    GASTOS DE appends nothing, whatever else it holds. *)
Theorem sicoob_linha_marcador ano linha :
  contains "SALDO ANTERIOR" linha = true
  \/ contains "TOTAL" linha = true
  \/ contains "GASTOS DE" linha = true ->
  sicoob_linha ano linha = Ok [].
Proof.
  intros H. unfold sicoob_linha.
  assert (contem_alguma marcadores_sicoob linha = true) as ->; [|done].
  unfold contem_alguma, marcadores_sicoob. simpl.
  destruct H as [-> | [-> | ->]]; by rewrite ?orb_true_r.
Qed.

Lemma sicoob_linha_marcador_witness :
  contains "TOTAL" "05/03 TOTAL DA FATURA 1.120,00" = true
  /\ search padrao_sicoob "05/03 TOTAL DA FATURA 1.120,00" <> None
  /\ sicoob_linha 2024 "05/03 TOTAL DA FATURA 1.120,00" = Ok [].
Proof.
  split; [by vm_compute|]. split; [by vm_compute|].
  apply sicoob_linha_marcador. right; left. by vm_compute.
Defined.

(** C10, the failing input.  The sign class [[-,]] lets the amount
    group begin with a comma; the normalisation then hands [float] a
    string with two points, and the parser raises [ValueError]. *)
Theorem sicoob_linha_virgula_inicial :
  contem_alguma marcadores_sicoob "01/02 LOJA ,123,45" = false
  /\ search padrao_sicoob "01/02 LOJA ,123,45"
     = Some (MState 18 "" [(3, ",123,45"); (2, "LOJA"); (1, "01/02")]%nat)
  /\ replace "," "." (replace "." "" ",123,45") = ".123.45"
  /\ float ".123.45" = Raise ValueError
  /\ sicoob_linha 2024 "01/02 LOJA ,123,45" = Raise ValueError
  /\ processar_formato_sicoob "01/02 LOJA ,123,45" 2024 = Raise ValueError
  /\ forall sort_values colunas_modelo,
       processar_fatura sort_values colunas_modelo Sicoob 2024
         "01/02 LOJA ,123,45" = Erro ValueError.
Proof. repeat split; by vm_compute. Qed.

End Claims_Sicoob.

Section Claims_Gramatica.
Import Re Padroes.

Lemma lang_cotacao_digit c : isdigit c = true -> in_lang cotacao_re (String c "").
Proof.
  intros Hc. unfold cotacao_re, digit1to3, opt, digit.
  change (String c "") with ((String c "" +:+ "") +:+ "").
  apply L_Seq; [apply L_Seq|apply L_Star0].
  - by apply L_Chr.
  - apply L_AltR, L_Eps.
Qed.

(** C6, as the code has it.  A line made of a DD/MM/YYYY date, a
    description, a primary amount, a second amount and the start of a
    third token (a digit), separated by white space, is matched by the
    Santander primary pattern; the line then appends a transaction
    exactly when the amount the pattern captured is positive, and never
    raises. *)
Theorem santander_gramatica_primaria
    (d ws1 desc ws2 v ws3 v2 ws4 resto : string) (c : ascii) :
  fullmatch data_completa_re d = true ->
  fullmatch (plus false dot) desc = true ->
  fullmatch valor_re v = true ->
  fullmatch valor_re v2 = true ->
  isdigit c = true ->
  fullmatch spaces ws1 = true -> fullmatch spaces ws2 = true ->
  fullmatch spaces ws3 = true -> fullmatch spaces ws4 = true ->
  let linha := d +:+ ws1 +:+ desc +:+ ws2 +:+ v +:+ ws3 +:+ v2 +:+ ws4
                 +:+ String c resto in
  exists m data_completa descricao valor_str valor,
    search padrao_santander linha = Some m
    /\ groups3 m = Some (data_completa, descricao, valor_str)
    /\ float (replace "," "." (replace "." "" valor_str)) = Ok valor
    /\ santander_linha linha
       = Ok (if gt0 valor
             then [Transacao data_completa (strip descricao) valor
                     (strip descricao)]
             else []).
Proof.
  intros Hd Hdesc Hv Hv2 Hc H1 H2 H3 H4 linha.
  apply fullmatch_lang in Hd, Hdesc, Hv, Hv2, H1, H2, H3, H4.
  pose proof (lang_cotacao_digit c Hc) as Lc.
  set (R := Group 1 data_completa_re @@ spaces @@ Group 2 (plus false dot)
              @@ spaces @@ Group 3 valor_re
              @@ spaces @@ valor_re @@ spaces @@ cotacao_re).
  assert (LR : in_lang R (d +:+ ws1 +:+ desc +:+ ws2 +:+ v +:+ ws3 +:+ v2
                            +:+ ws4 +:+ String c "")).
  { unfold R. repeat (first [apply L_Seq | apply L_Group]); done. }
  destruct (word_matches R _ LR eq_refl (MState 0 linha []) resto)
    as (st' & M & _).
  { simpl. unfold linha. by rewrite !app_assoc. }
  assert (Hs : is_Some (search padrao_santander linha)).
  { unfold padrao_santander. rewrite search_bol. unfold match_at.
    eapply rmatch_complete; [|done].
    eapply M_Seq; [by apply M_Bol|exact M]. }
  destruct Hs as [m Hs].
  destruct (santander_linha_match linha m Hs)
    as (a & b & x & ip & fp & Hg & _ & _ & _ & _ & _ & Hf & Hl).
  exists m, a, b, x, (of_decimal (digits_val (ip +:+ fp)) (-2)).
  done.
Qed.

Lemma santander_gramatica_primaria_witness :
  exists m,
    search padrao_santander "01/03/2024  UBER TRIP 45,90 9,18 5,000" = Some m
    /\ santander_linha "01/03/2024  UBER TRIP 45,90 9,18 5,000"
       = Ok [Transacao "01/03/2024" "UBER TRIP" (of_decimal 4590 (-2))
               "UBER TRIP"].
Proof.
  destruct (santander_gramatica_primaria
              "01/03/2024" "  " "UBER TRIP" " " "45,90" " " "9,18" " "
              ",000" "5" eq_refl eq_refl eq_refl eq_refl eq_refl
              eq_refl eq_refl eq_refl eq_refl)
    as (m & a & b & x & valor & Hs & Hg & Hf & Hl).
  exists m. split; [exact Hs|]. by vm_compute.
Defined.

(** The claim with a single token after the primary amount fails: the
    pattern asks for two. *)
Lemma santander_gramatica_primaria_counterexample :
  fullmatch data_completa_re "01/03/2024" = true
  /\ fullmatch (plus false dot) "UBER TRIP" = true
  /\ fullmatch valor_re "45,90" = true
  /\ fullmatch valor_re "9,18" = true
  /\ search padrao_santander "01/03/2024 UBER TRIP 45,90 9,18" = None
  /\ santander_linha "01/03/2024 UBER TRIP 45,90 9,18" = Ok [].
Proof. by vm_compute. Qed.

End Claims_Gramatica.

Section RowFacts.

Lemma lookup_foldl_insert (v : cell) (cols : list string) :
  forall (m : gmap string cell) (c : string),
  foldl (fun acc col => <[col := v]> acc) m cols !! c
  = if decide (c ∈ cols) then Some v else m !! c.
Proof.
  induction cols as [|x cols IH]; intros m c.
  - destruct (decide (c ∈ [])) as [H|H]; [by apply elem_of_nil in H|done].
  - simpl. rewrite IH. rewrite lookup_insert.
    destruct (decide (c ∈ cols)) as [H1|H1].
    + by rewrite decide_True by by right.
    + destruct (decide (x = c)) as [->|H2].
      * by rewrite decide_True by by left.
      * rewrite decide_False; [done|].
        rewrite elem_of_cons. intros [?|?]; [congruence|done].
Qed.

Lemma lookup_linha_vazia cols c :
  linha_vazia cols !! c = if decide (c ∈ cols) then Some (CStr "") else None.
Proof. unfold linha_vazia. by rewrite lookup_foldl_insert, lookup_empty. Qed.

Lemma lookup_atribuir_primeira cs v (m : gmap string cell) c :
  atribuir_primeira cs v m !! c
  = if decide (head cs = Some c) then Some v else m !! c.
Proof.
  destruct cs as [|x cs]; simpl; [done|].
  - rewrite lookup_insert.
    destruct (decide (x = c)), (decide (Some x = Some c)); congruence.
Qed.

Lemma head_filter_spec (f : string -> bool) (l : list string) :
  match head (List.filter f l) with
  | Some c => exists pre pos, l = pre ++ c :: pos /\ f c = true
                              /\ forall x, x ∈ pre -> f x = false
  | None => forall x, x ∈ l -> f x = false
  end.
Proof.
  induction l as [|a l IH]; simpl.
  - intros x Hx. by apply elem_of_nil in Hx.
  - destruct (f a) eqn:Ea; simpl.
    + exists [], l. split; [done|]. split; [done|].
      intros x Hx. by apply elem_of_nil in Hx.
    + destruct (head (List.filter f l)) as [c|].
      * destruct IH as (pre & pos & -> & Hc & Hpre).
        exists (a :: pre), pos. split; [done|]. split; [done|].
        intros x [->|Hx]%elem_of_cons; auto.
      * intros x [->|Hx]%elem_of_cons; auto.
Qed.

Lemma head_filter_elem (f : string -> bool) l c :
  head (List.filter f l) = Some c -> c ∈ l.
Proof.
  intros H. pose proof (head_filter_spec f l) as Hs. rewrite H in Hs.
  destruct Hs as (pre & pos & -> & _). apply elem_of_app. right. by left.
Qed.

Lemma find_spec (f : string -> bool) (l : list string) :
  match List.find f l with
  | Some c => exists pre pos, l = pre ++ c :: pos /\ f c = true
                              /\ forall x, x ∈ pre -> f x = false
  | None => forall x, x ∈ l -> f x = false
  end.
Proof.
  induction l as [|a l IH]; simpl.
  - intros x Hx. by apply elem_of_nil in Hx.
  - destruct (f a) eqn:Ea.
    + exists [], l. split; [done|]. split; [done|].
      intros x Hx. by apply elem_of_nil in Hx.
    + destruct (List.find f l) as [c|].
      * destruct IH as (pre & pos & -> & Hc & Hpre).
        exists (a :: pre), pos. split; [done|]. split; [done|].
        intros x [->|Hx]%elem_of_cons; auto.
      * intros x [->|Hx]%elem_of_cons; auto.
Qed.

(** The date column is one of the template's columns. *)
Lemma identificar_coluna_data_elem cols :
  cols <> [] -> identificar_coluna_data cols ∈ cols.
Proof.
  intros Hne. unfold identificar_coluna_data.
  pose proof (find_spec (fun nome => bool_decide (nome ∈ cols))
                possiveis_nomes) as Hs.
  destruct (List.find _ _) as [c|].
  - destruct Hs as (_ & _ & _ & Hc & _). by apply bool_decide_eq_true in Hc.
  - destruct cols; [done|]. by left.
Qed.

(** The cell of every column of the row built for a transaction: the
    assignments run in the order date, description, value, note, and a
    later one overwrites an earlier one to the same column. *)
Lemma lookup_nova_linha cols dc item c :
  nova_linha cols dc item !! c
  = if decide (head (colunas_com palavras_observacao cols) = Some c)
    then Some (CStr (Observacao item))
    else if decide (head (colunas_com palavras_valor cols) = Some c)
    then Some (CFloat (Valor item))
    else if decide (head (colunas_com palavras_descricao cols) = Some c)
    then Some (CStr (Descricao item))
    else if decide (c = dc) then Some (CStr (Data item))
    else if decide (c ∈ cols) then Some (CStr "") else None.
Proof.
  unfold nova_linha.
  rewrite !lookup_atribuir_primeira, lookup_insert, lookup_linha_vazia.
  repeat destruct (decide _); congruence.
Qed.

End RowFacts.

Section Claims_Projecao.

(** C9. For a template with at least one column, the date column is
    the first of Data, Data Vencimento, Data_Vencimento, Dt_Vencimento,
    Date (compared exactly) that is a column, else the first column; the
    column of the description, value and note role is the first column
    whose lower-cased name contains one of the role's keywords, and a
    role without such a column writes nothing; the row has exactly the
    template's columns, and each holds [''] or the value of a role that
    resolved to it (the date, description, value and note are written
    in this order, so a column two roles resolve to keeps the later
    one).  In particular the template [Data Vencimento, Descricao
    Completa, Valor Total, Obs] with the MERCADO LIVRE transaction
    gives the row stated. *)
Theorem nova_linha_projecao :
  (forall cols item, cols <> [] ->
     let dc := identificar_coluna_data cols in
     let cd := coluna_do_papel palavras_descricao cols in
     let cv := coluna_do_papel palavras_valor cols in
     let co := coluna_do_papel palavras_observacao cols in
     let row := nova_linha cols dc item in
     (dc ∈ cols
      /\ ((exists pre pos, possiveis_nomes = pre ++ dc :: pos
                           /\ forall n, n ∈ pre -> n ∉ cols)
          \/ ((forall n, n ∈ possiveis_nomes -> n ∉ cols)
              /\ head cols = Some dc)))
     /\ (forall palavras,
           match coluna_do_papel palavras cols with
           | Some c => exists pre pos, cols = pre ++ c :: pos
                         /\ tem_palavra palavras c
                         /\ forall x, x ∈ pre -> ~ tem_palavra palavras x
           | None => forall x, x ∈ cols -> ~ tem_palavra palavras x
           end)
     /\ (forall c, c ∉ cols -> row !! c = None)
     /\ (forall c, c ∈ cols ->
           row !! c
           = Some (if decide (co = Some c) then CStr (Observacao item)
                   else if decide (cv = Some c) then CFloat (Valor item)
                   else if decide (cd = Some c) then CStr (Descricao item)
                   else if decide (c = dc) then CStr (Data item)
                   else CStr ""))
     /\ (forall c v, row !! c = Some v ->
           v = CStr ""
           \/ (c = dc /\ v = CStr (Data item))
           \/ (cd = Some c /\ v = CStr (Descricao item))
           \/ (cv = Some c /\ v = CFloat (Valor item))
           \/ (co = Some c /\ v = CStr (Observacao item))))
  /\ identificar_coluna_data
       ["Data Vencimento"; "Descricao Completa"; "Valor Total"; "Obs"]
     = "Data Vencimento"
  /\ nova_linha
       ["Data Vencimento"; "Descricao Completa"; "Valor Total"; "Obs"]
       "Data Vencimento"
       (Transacao "05/03/2024" "MERCADO LIVRE" (PFin 120) "MERCADO LIVRE")
     = <["Data Vencimento" := CStr "05/03/2024"]>
       (<["Descricao Completa" := CStr "MERCADO LIVRE"]>
       (<["Valor Total" := CFloat (PFin 120)]>
       (<["Obs" := CStr "MERCADO LIVRE"]> ∅))).
Proof.
  split; [|split; vm_compute; exact eq_refl].
  intros cols item Hne dc cd cv co row.
  assert (Hdc : dc ∈ cols) by by apply identificar_coluna_data_elem.
  assert (Hrole : forall palavras c,
            coluna_do_papel palavras cols = Some c -> c ∈ cols).
  { intros palavras c. apply head_filter_elem. }
  assert (Hrow : forall c, row !! c
            = if decide (co = Some c) then Some (CStr (Observacao item))
              else if decide (cv = Some c) then Some (CFloat (Valor item))
              else if decide (cd = Some c) then Some (CStr (Descricao item))
              else if decide (c = dc) then Some (CStr (Data item))
              else if decide (c ∈ cols) then Some (CStr "") else None).
  { intros c. apply lookup_nova_linha. }
  split; [split; [done|]|split; [|split; [|split]]].
  - unfold dc, identificar_coluna_data.
    pose proof (find_spec (fun nome => bool_decide (nome ∈ cols))
                  possiveis_nomes) as Hs.
    destruct (List.find _ _) as [c|].
    + left. destruct Hs as (pre & pos & E & _ & Hpre).
      exists pre, pos. split; [done|]. intros n Hn Hin.
      specialize (Hpre n Hn). by apply bool_decide_eq_false in Hpre.
    + right. split.
      * intros n Hn Hin. specialize (Hs n Hn).
        by apply bool_decide_eq_false in Hs.
      * by destruct cols.
  - intros palavras. unfold coluna_do_papel, colunas_com, tem_palavra.
    pose proof (head_filter_spec
                  (fun col => contem_alguma palavras (lower col)) cols) as Hs.
    destruct (head _) as [c|].
    + destruct Hs as (pre & pos & E & Hc & Hpre).
      exists pre, pos. split; [done|]. split; [done|].
      intros x Hx. rewrite (Hpre x Hx). done.
    + intros x Hx. rewrite (Hs x Hx). done.
  - intros c Hc. rewrite Hrow.
    destruct (decide (co = Some c)) as [E|_]; [by apply Hrole in E|].
    destruct (decide (cv = Some c)) as [E|_]; [by apply Hrole in E|].
    destruct (decide (cd = Some c)) as [E|_]; [by apply Hrole in E|].
    destruct (decide (c = dc)) as [->|_]; [done|].
    by rewrite decide_False.
  - intros c Hc. rewrite Hrow.
    repeat destruct (decide _); done.
  - intros c v. rewrite Hrow.
    repeat destruct (decide _); intros [= <-]; tauto.
Qed.

Lemma nova_linha_projecao_witness :
  ["Descricao"; "Valor"] <> []
  /\ nova_linha ["Descricao"; "Valor"]
       (identificar_coluna_data ["Descricao"; "Valor"])
       (Transacao "05/03/2024" "MERCADO LIVRE" (PFin 120) "MERCADO LIVRE")
     !! "Descricao" = Some (CStr "MERCADO LIVRE").
Proof.
  split; [done|].
  destruct (proj1 nova_linha_projecao ["Descricao"; "Valor"]
              (Transacao "05/03/2024" "MERCADO LIVRE" (PFin 120)
                 "MERCADO LIVRE") ltac:(done))
    as (_ & _ & _ & H & _).
  rewrite (H "Descricao"); [by vm_compute|by left].
Defined.

End Claims_Projecao.

Section DateFacts.

Lemma date_leb_trans a b c :
  date_leb a b = true -> date_leb b c = true -> date_leb a c = true.
Proof. unfold date_leb. destruct a, b, c; simpl. lia. Qed.

Lemma date_leb_total a b : date_leb a b = true \/ date_leb b a = true.
Proof. unfold date_leb. destruct a, b; simpl. lia. Qed.

Lemma date_leb_antisym a b :
  date_leb a b = true -> date_leb b a = true -> a = b.
Proof.
  unfold date_leb. destruct a as [y m d], b as [y' m' d']; simpl.
  intros H1 H2. assert (y = y' /\ m = m' /\ d = d') as (-> & -> & ->) by lia.
  done.
Qed.

Lemma chave_leb_trans k1 k2 k3 :
  chave_leb k1 k2 = true -> chave_leb k2 k3 = true -> chave_leb k1 k3 = true.
Proof.
  destruct k1, k2, k3; simpl; try done. apply date_leb_trans.
Qed.

Lemma chave_leb_total k1 k2 :
  chave_leb k1 k2 = true \/ chave_leb k2 k1 = true.
Proof. destruct k1, k2; simpl; auto. apply date_leb_total. Qed.

Lemma chave_leb_antisym k1 k2 :
  chave_leb k1 k2 = true -> chave_leb k2 k1 = true -> k1 = k2.
Proof.
  destruct k1, k2; simpl; try done. intros H1 H2. f_equal.
  by apply date_leb_antisym.
Qed.

Global Instance chave_ord_trans : Transitive chave_ord.
Proof. intros x y z. apply chave_leb_trans. Qed.

Global Instance chave_ord_antisym : AntiSymm (=) chave_ord.
Proof. intros x y. apply chave_leb_antisym. Qed.

Global Instance chave_le_trans : Transitive chave_le.
Proof. intros x y z. apply chave_leb_trans. Qed.

Global Instance chave_le_total : Total chave_le.
Proof. intros x y. apply chave_leb_total. Qed.

(** A parsed date is a date of the calendar inside the range. *)
Lemma strptime_ok s d : strptime s = Some d -> date_ok d = true.
Proof.
  unfold strptime.
  destruct (ate_barra s) as [[sd r]|]; [|done].
  destruct (ate_barra r) as [[sm sy]|]; [|done].
  destruct (campo_dia sd), (campo_mes sm), (campo_ano sy); try done.
  destruct (date_ok _) eqn:E; [|done]. by intros [= <-].
Qed.

Lemma days_in_month_le y m : (days_in_month y m <= 31)%Z.
Proof.
  unfold days_in_month.
  destruct (m =? 2)%Z; [by destruct (is_leap y)|].
  by destruct (_ || _).
Qed.

Lemma date_ok_ranges d :
  date_ok d = true ->
  (1 <= day d <= 31 /\ 1 <= month d <= 12 /\ 1677 <= year d <= 2262)%Z.
Proof.
  unfold date_ok, calendar_ok, in_bounds, date_leb.
  pose proof (days_in_month_le (year d) (month d)).
  destruct d as [y m dd]; cbn [year month day] in *. lia.
Qed.

Lemma forallb_seqZ (f : Z -> bool) (a n x : Z) :
  forallb f (seqZ a n) = true -> (a <= x < a + n)%Z -> f x = true.
Proof.
  intros H Hx. rewrite forallb_forall in H. apply H.
  apply list_elem_of_In. apply elem_of_seqZ. lia.
Qed.

Lemma campo_dia_pad2 :
  forallb (fun n => bool_decide (campo_dia (pad2 n) = Some n)) (seqZ 1 31)
  = true.
Proof. by vm_compute. Qed.

Lemma campo_mes_pad2 :
  forallb (fun n => bool_decide (campo_mes (pad2 n) = Some n)) (seqZ 1 12)
  = true.
Proof. by vm_compute. Qed.

Lemma campo_ano_pad4 :
  forallb (fun n => bool_decide (campo_ano (pad4 n) = Some n))
    (seqZ 1677 586) = true.
Proof. by vm_compute. Qed.

Lemma ate_barra_pad2 n r :
  ate_barra (pad2 n +:+ "/" +:+ r) = Some (pad2 n, r).
Proof.
  unfold pad2. simpl.
  destruct (isdigit_facts _ (isdigit_digit_char (Z.to_N (n / 10))))
    as (_ & _ & _ & _ & _ & _ & _ & _ & _ & ->).
  destruct (isdigit_facts _ (isdigit_digit_char (Z.to_N n)))
    as (_ & _ & _ & _ & _ & _ & _ & _ & _ & ->).
  done.
Qed.

(** Rendering a date and parsing it again gives the date back. *)
Lemma strptime_strftime d :
  date_ok d = true -> strptime (strftime d) = Some d.
Proof.
  intros Hok. destruct (date_ok_ranges d Hok) as (Hd & Hm & Hy).
  destruct d as [y m dd]; simpl in *.
  unfold strptime, strftime; simpl year; simpl month; simpl day.
  rewrite ate_barra_pad2, ate_barra_pad2.
  rewrite (bool_decide_eq_true_1 _
             (forallb_seqZ _ _ _ dd campo_dia_pad2 ltac:(lia))).
  rewrite (bool_decide_eq_true_1 _
             (forallb_seqZ _ _ _ m campo_mes_pad2 ltac:(lia))).
  rewrite (bool_decide_eq_true_1 _
             (forallb_seqZ _ _ _ y campo_ano_pad4 ltac:(lia))).
  by rewrite Hok.
Qed.

End DateFacts.

Section SortStep.
Context (sort_values : list datada -> list datada).
Context (Hspec : sort_values_spec sort_values).
Context (col : string).

Lemma sort_values_perm X : sort_values X ≡ₚ X.
Proof. apply Hspec. Qed.

Lemma sort_values_sorted X : Sorted chave_le (sort_values X).
Proof. apply Hspec. Qed.

Lemma StronglySorted_filter {A} (R : relation A) (P : A -> Prop)
    `{forall x, Decision (P x)} (l : list A) :
  StronglySorted R l -> StronglySorted R (filter P l).
Proof.
  induction 1 as [|x l Hl IH Hx]; [constructor|].
  rewrite filter_cons. destruct (decide (P x)); [|done].
  constructor; [done|].
  apply Forall_forall. intros y [_ Hy]%list_elem_of_filter.
  rewrite Forall_forall in Hx. by apply Hx.
Qed.

Lemma Sorted_dropna X : Sorted chave_le X -> Sorted chave_le (dropna X).
Proof.
  intros H. apply Sorted.StronglySorted_Sorted. unfold dropna.
  apply StronglySorted_filter.
  apply Sorted.Sorted_StronglySorted; [apply chave_le_trans|done].
Qed.

Lemma dropna_all X : Forall (fun x : datada => is_Some x.1) X -> dropna X = X.
Proof.
  unfold dropna. induction 1 as [|x l Hx Hl IH]; [done|].
  by rewrite filter_cons_True, IH.
Qed.

Lemma dropna_sort_perm X : dropna (sort_values X) ≡ₚ dropna X.
Proof. unfold dropna. by rewrite sort_values_perm. Qed.

Lemma length_dropna_eq X :
  length (dropna X) = length X <-> Forall (fun x : datada => is_Some x.1) X.
Proof.
  split.
  - unfold dropna. induction X as [|x l IH]; [done|].
    rewrite filter_cons. destruct (decide (is_Some x.1)) as [Hx|Hx]; simpl.
    + intros [= E]. constructor; auto.
    + intros E. pose proof (length_filter (fun x : datada => is_Some x.1) l).
      lia.
  - intros H. by rewrite (dropna_all X H).
Qed.

(** The keys [to_datetime] computes are valid dates. *)
Lemma to_datetime_valida df :
  Forall (fun x : datada => is_Some x.1 -> chave_valida x)
    (to_datetime col df).
Proof.
  apply Forall_forall. intros x Hx [d Hd].
  apply list_elem_of_fmap in Hx as (r & -> & _). simpl in *.
  exists d. split; [done|].
  unfold to_datetime_cell in Hd.
  destruct (r !! col) as [[s|f]|]; try done. by eapply strptime_ok.
Qed.

Lemma retidas_validas df :
  Forall chave_valida (dropna (sort_values (to_datetime col df))).
Proof.
  apply Forall_forall. intros x Hx.
  apply list_elem_of_filter in Hx as [Hs Hx].
  rewrite sort_values_perm in Hx.
  pose proof (to_datetime_valida df) as Hv. rewrite Forall_forall in Hv.
  by apply Hv.
Qed.

(** The date column of a rendered row parses back to its key. *)
Lemma to_datetime_cell_strftime x :
  chave_valida x ->
  to_datetime_cell (dt_strftime_linha col x !! col) = x.1.
Proof.
  intros (d & Hd & Hok). unfold dt_strftime_linha. rewrite Hd.
  rewrite lookup_insert_eq. simpl. by apply strptime_strftime.
Qed.

Lemma to_datetime_dt_strftime L :
  Forall chave_valida L ->
  to_datetime col (dt_strftime col L) = renderizada col <$> L.
Proof.
  intros H. unfold to_datetime, dt_strftime.
  rewrite <- list_fmap_compose. apply Forall_fmap_ext_1.
  eapply Forall_impl; [exact H|]. intros x Hx. simpl.
  unfold renderizada. by rewrite to_datetime_cell_strftime.
Qed.

Lemma dt_strftime_renderizada L :
  dt_strftime col (renderizada col <$> L) = dt_strftime col L.
Proof.
  unfold dt_strftime. rewrite <- list_fmap_compose.
  apply list_fmap_ext. intros i x _. simpl.
  unfold renderizada.
  destruct x as [[d|] r]; unfold dt_strftime_linha; simpl;
    by rewrite insert_insert_eq.
Qed.

Lemma Sorted_renderizada L :
  Sorted chave_le L -> Sorted chave_le (renderizada col <$> L).
Proof. apply Sorted_fmap. by intros x y. Qed.

Lemma renderizada_valida L :
  Forall chave_valida L -> Forall chave_valida (renderizada col <$> L).
Proof.
  intros H. apply Forall_fmap. eapply Forall_impl; [exact H|].
  by intros x Hx.
Qed.

Lemma valida_is_Some L :
  Forall chave_valida L -> Forall (fun x : datada => is_Some x.1) L.
Proof.
  intros H. eapply Forall_impl; [exact H|].
  intros x (d & -> & _). by eexists.
Qed.

(** The second pass, seen from the first one's sorted rows. *)
Lemma segunda_passagem df :
  let L := renderizada col
             <$> dropna (sort_values (to_datetime col df)) in
  ordenar_por_data sort_values col df = dt_strftime col L
  /\ ordenar_por_data sort_values col
       (ordenar_por_data sort_values col df)
     = dt_strftime col (dropna (sort_values L))
  /\ Sorted chave_le L /\ Forall chave_valida L
  /\ dropna (sort_values L) ≡ₚ L
  /\ Sorted chave_le (dropna (sort_values L)).
Proof.
  intros L. pose proof (retidas_validas df) as Hv.
  assert (HL : Forall chave_valida L) by by apply renderizada_valida.
  split; [|split; [|split; [|split; [|split]]]].
  - unfold ordenar_por_data, L. by rewrite dt_strftime_renderizada.
  - unfold ordenar_por_data at 1. f_equal. f_equal. f_equal.
    unfold ordenar_por_data. by rewrite to_datetime_dt_strftime.
  - apply Sorted_renderizada, Sorted_dropna, sort_values_sorted.
  - done.
  - rewrite dropna_sort_perm. by rewrite dropna_all by by apply valida_is_Some.
  - apply Sorted_dropna, sort_values_sorted.
Qed.

End SortStep.

Section SortInstances.

Lemma sort_merge_spec : sort_values_spec sort_merge.
Proof.
  intros df. unfold sort_merge. split.
  - apply merge_sort_Permutation.
  - apply Sorted_merge_sort, chave_le_total.
Qed.

End SortInstances.

Section Claims_Ordenacao.
Context (sort_values : list datada -> list datada).
Context (Hspec : sort_values_spec sort_values).
Context (col : string).

Lemma coluna_dt_strftime L :
  (fun r : linha => r !! col) <$> dt_strftime col L
  = celula_da_chave <$> L.*1.
Proof.
  unfold dt_strftime. rewrite <- !list_fmap_compose.
  apply list_fmap_ext. intros i [[d|] r] _; simpl;
    unfold dt_strftime_linha; simpl; by rewrite lookup_insert_eq.
Qed.

Lemma chaves_iguais (L1 L2 : list datada) :
  Sorted chave_le L1 -> Sorted chave_le L2 -> L1 ≡ₚ L2 -> L1.*1 = L2.*1.
Proof.
  intros H1 H2 Hp.
  apply (Sorted_unique chave_ord).
  - eapply Sorted_fmap; [|exact H1]. by intros x y.
  - eapply Sorted_fmap; [|exact H2]. by intros x y.
  - by apply fmap_Permutation.
Qed.

Lemma NoDup_fmap_inj_on {A B} (g : A -> B) (l : list A) x y :
  NoDup (g <$> l) -> x ∈ l -> y ∈ l -> g x = g y -> x = y.
Proof.
  induction l as [|a l IH]; [by intros _ ?%elem_of_nil|].
  rewrite fmap_cons, NoDup_cons.
  intros [Ha Hl] [->|Hx]%elem_of_cons [->|Hy]%elem_of_cons E; auto.
  - exfalso. apply Ha. rewrite E. by apply list_elem_of_fmap_2.
  - exfalso. apply Ha. rewrite <- E. by apply list_elem_of_fmap_2.
Qed.

Lemma ordenadas_iguais (L1 L2 : list datada) :
  Sorted chave_le L1 -> Sorted chave_le L2 -> L1 ≡ₚ L2 ->
  NoDup L2.*1 -> L1 = L2.
Proof.
  intros H1 H2 Hp Hnd.
  apply (Sorted_unique_strong chave_le); try done.
  intros x1 x2 Hx1 Hx2 R12 R21. rewrite Hp in Hx1.
  eapply (NoDup_fmap_inj_on fst); [exact Hnd|done..|].
  by apply chave_leb_antisym.
Qed.

(** C3, as the code has it.  Whatever algorithm [sort_values] runs
    (any that returns the rows in ascending order of the date), the
    second application of the sort-and-drop step returns the rows of
    the first one, with the same sequence of dates in the date column;
    it returns exactly the same table when the retained dates are
    pairwise distinct.  (The order among rows of one date is the
    sorting algorithm's and may change.) *)
Theorem ordenar_por_data_duas_vezes df :
  let passo := ordenar_por_data sort_values col in
  passo (passo df) ≡ₚ passo df
  /\ (fun r : linha => r !! col) <$> passo (passo df)
     = (fun r : linha => r !! col) <$> passo df
  /\ (NoDup ((fun r : linha => r !! col) <$> passo df) ->
      passo (passo df) = passo df).
Proof.
  intros passo. unfold passo.
  destruct (segunda_passagem sort_values Hspec col df)
    as (E1 & E2 & HsL & HvL & Hp & Hs2).
  set (L := renderizada col
              <$> dropna (sort_values (to_datetime col df))) in *.
  rewrite E2, E1. split; [|split].
  - unfold dt_strftime. by apply fmap_Permutation.
  - rewrite !coluna_dt_strftime. f_equal. by apply chaves_iguais.
  - rewrite coluna_dt_strftime. intros Hnd.
    apply NoDup_fmap_1 in Hnd. f_equal. by apply ordenadas_iguais.
Qed.

Lemma Sorted_dt_strftime L :
  Forall chave_valida L -> Sorted chave_le L ->
  Sorted (linha_le col) (dt_strftime col L).
Proof.
  intros Hv Hs. apply Sorted.StronglySorted_Sorted.
  apply Sorted_StronglySorted in Hs; [|apply _].
  induction Hs as [|x l Hl IH Hx]; [constructor|].
  apply Forall_cons in Hv as [Hvx Hvl].
  unfold dt_strftime. rewrite fmap_cons. constructor; [by apply IH|].
  apply Forall_fmap, Forall_forall. intros y Hy. simpl.
  rewrite Forall_forall in Hx, Hvl. unfold linha_le.
  rewrite !to_datetime_cell_strftime by auto. by apply Hx.
Qed.

Lemma elem_of_retidas df (x : datada) :
  x ∈ dropna (to_datetime col df)
  <-> exists r d, r ∈ df /\ to_datetime_cell (r !! col) = Some d
                  /\ x = (Some d, r).
Proof.
  unfold dropna, to_datetime.
  rewrite list_elem_of_filter, list_elem_of_fmap. split.
  - intros [[d Hd] (r & -> & Hr)]. simpl in Hd. exists r, d. by rewrite Hd.
  - intros (r & d & Hr & Hd & ->). split; [by eexists|].
    exists r. by rewrite Hd.
Qed.

(** Two rows dated 10/01/2024 and 05/01/2024 come out with the one
    of 05/01/2024 first. *)
Lemma ordenar_dois r1 r2 :
  r1 !! col = Some (CStr "10/01/2024") ->
  r2 !! col = Some (CStr "05/01/2024") ->
  ordenar_por_data sort_values col [r1; r2] = [r2; r1].
Proof.
  intros E1 E2. unfold ordenar_por_data.
  assert (ET : to_datetime col [r1; r2]
               = [(Some (Date 2024 1 10), r1); (Some (Date 2024 1 5), r2)]).
  { unfold to_datetime. simpl. by rewrite E1, E2. }
  rewrite ET.
  assert (ES : sort_values
                 [(Some (Date 2024 1 10), r1); (Some (Date 2024 1 5), r2)]
               = [(Some (Date 2024 1 5), r2); (Some (Date 2024 1 10), r1)]).
  { apply (Sorted_unique_strong chave_le).
    - intros x1 x2 Hx1 Hx2 R12 R21.
      rewrite sort_values_perm in Hx1 by done.
      apply elem_of_cons in Hx1 as [->|Hx1];
        [|apply elem_of_cons in Hx1 as [->|Hx1];
          [|by apply elem_of_nil in Hx1]];
        (apply elem_of_cons in Hx2 as [->|Hx2];
          [|apply elem_of_cons in Hx2 as [->|Hx2];
            [|by apply elem_of_nil in Hx2]]); done.
    - by apply sort_values_sorted.
    - repeat constructor.
    - rewrite sort_values_perm by done. apply perm_swap. }
  rewrite ES. unfold dropna.
  rewrite !filter_cons_True by (simpl; by eexists). rewrite filter_nil.
  unfold dt_strftime, dt_strftime_linha. simpl.
  f_equal; [|f_equal]; by apply insert_id.
Qed.

(** C4, as the code has it.  The step keeps exactly the rows whose
    date column parses under the strict format, each with that column
    rendered again as DD/MM/YYYY, and returns them in ascending order
    of the date (nothing is promised about the relative order of rows
    of one date: that is the sorting algorithm's); two rows dated
    10/01/2024 and 05/01/2024 come out with the one of 05/01/2024
    first. *)
Theorem ordenar_por_data_ordena df :
  ordenar_por_data sort_values col df
    ≡ₚ dt_strftime col (dropna (to_datetime col df))
  /\ (forall r', r' ∈ ordenar_por_data sort_values col df <->
        exists r d, r ∈ df /\ to_datetime_cell (r !! col) = Some d
                    /\ r' = <[col := CStr (strftime d)]> r)
  /\ Sorted (linha_le col) (ordenar_por_data sort_values col df)
  /\ (forall r', r' ∈ ordenar_por_data sort_values col df ->
        exists d, r' !! col = Some (CStr (strftime d))
                  /\ strptime (strftime d) = Some d
                  /\ Re.fullmatch Padroes.data_completa_re (strftime d) = true)
  /\ (forall r1 r2,
        r1 !! col = Some (CStr "10/01/2024") ->
        r2 !! col = Some (CStr "05/01/2024") ->
        ordenar_por_data sort_values col [r1; r2] = [r2; r1]).
Proof.
  assert (Hperm : ordenar_por_data sort_values col df
                  ≡ₚ dt_strftime col (dropna (to_datetime col df))).
  { unfold ordenar_por_data, dt_strftime. apply fmap_Permutation.
    by apply dropna_sort_perm. }
  assert (Hel : forall r', r' ∈ ordenar_por_data sort_values col df <->
            exists r d, r ∈ df /\ to_datetime_cell (r !! col) = Some d
                        /\ r' = <[col := CStr (strftime d)]> r).
  { intros r'. rewrite Hperm. unfold dt_strftime.
    rewrite list_elem_of_fmap. split.
    - intros (x & -> & Hx). apply elem_of_retidas in Hx
        as (r & d & Hr & Hd & ->). by exists r, d.
    - intros (r & d & Hr & Hd & ->). exists (Some d, r).
      split; [done|]. apply elem_of_retidas. by exists r, d. }
  split; [done|]. split; [done|]. split; [|split].
  - destruct (segunda_passagem sort_values Hspec col df)
      as (E1 & _ & HsL & HvL & _).
    rewrite E1. by apply Sorted_dt_strftime.
  - intros r' (r & d & Hr & Hd & ->)%Hel.
    exists d. rewrite lookup_insert_eq. split; [done|].
    assert (Hok : date_ok d = true).
    { unfold to_datetime_cell in Hd.
      destruct (r !! col) as [[s|?]|]; try done. by eapply strptime_ok. }
    split; [by apply strptime_strftime|].
    unfold strftime, pad2, pad4.
    apply fullmatch_data_completa; apply isdigit_digit_char.
  - apply ordenar_dois.
Qed.

End Claims_Ordenacao.

Section Claims_Ordenacao_Exemplos.

Lemma ordenar_por_data_duas_vezes_witness :
  sort_values_spec sort_merge
  /\ ordenar_por_data sort_merge "Data"
       (ordenar_por_data sort_merge "Data"
          [linha_exemplo "10/01/2024" "A"; linha_exemplo "05/01/2024" "B";
           linha_exemplo "31/02/2024" "C"])
     = ordenar_por_data sort_merge "Data"
         [linha_exemplo "10/01/2024" "A"; linha_exemplo "05/01/2024" "B";
          linha_exemplo "31/02/2024" "C"].
Proof.
  split; [exact sort_merge_spec|].
  apply (ordenar_por_data_duas_vezes sort_merge sort_merge_spec "Data").
  vm_compute. repeat constructor; intros H; repeat (apply elem_of_cons in H as [H|H]; [discriminate H|]); by apply elem_of_nil in H.
Defined.

(** The claim as stated fails for a sorting algorithm that meets
    what [sort_values] promises: eighteen rows of one date come out of
    the second application in another order than out of the first. *)
Lemma ordenar_por_data_duas_vezes_counterexample :
  sort_values_spec sort_merge
  /\ ordenar_por_data sort_merge "Data"
       (ordenar_por_data sort_merge "Data" mesma_data)
     <> ordenar_por_data sort_merge "Data" mesma_data.
Proof.
  split; [exact sort_merge_spec|].
  intros H.
  apply (f_equal (fun l => (fun r : linha => r !! "Descricao") <$> l)) in H.
  vm_compute in H. discriminate H.
Qed.

Lemma ordenar_por_data_ordena_witness :
  sort_values_spec sort_merge
  /\ ordenar_por_data sort_merge "Data"
       [linha_exemplo "10/01/2024" "A"; linha_exemplo "05/01/2024" "B"]
     = [linha_exemplo "05/01/2024" "B"; linha_exemplo "10/01/2024" "A"].
Proof.
  split; [exact sort_merge_spec|].
  apply (ordenar_por_data_ordena sort_merge sort_merge_spec "Data" []);
    vm_compute; exact eq_refl.
Defined.

(** Stability fails for a sorting algorithm that meets what
    [sort_values] promises: eighteen rows of one date, which a stable
    sort would leave as they are, come out in another order. *)
Lemma ordenar_por_data_ordena_counterexample :
  sort_values_spec sort_merge
  /\ (fun r : linha => r !! "Data") <$> mesma_data
     = replicate 18 (Some (CStr "05/03/2024"))
  /\ strftime <$> strptime "05/03/2024" = Some "05/03/2024"
  /\ (fun r : linha => r !! "Descricao") <$> mesma_data
     = (fun d => Some (CStr d)) <$> letras
  /\ (fun r : linha => r !! "Descricao")
       <$> ordenar_por_data sort_merge "Data" mesma_data
     = (fun d => Some (CStr d))
         <$> ["Q"; "R"; "A"; "B"; "C"; "D"; "E"; "F"; "G"; "H"; "I"; "J";
              "K"; "L"; "M"; "N"; "O"; "P"]
  /\ ordenar_por_data sort_merge "Data" mesma_data <> mesma_data.
Proof.
  split; [exact sort_merge_spec|].
  split; [vm_compute; exact eq_refl|].
  split; [vm_compute; exact eq_refl|].
  split; [vm_compute; exact eq_refl|].
  split; [vm_compute; exact eq_refl|].
  intros H.
  apply (f_equal (fun l => (fun r : linha => r !! "Descricao") <$> l)) in H.
  vm_compute in H. discriminate H.
Qed.

End Claims_Ordenacao_Exemplos.

Section Claims_Contagem.
Context (sort_values : list datada -> list datada).
Context (Hspec : sort_values_spec sort_values).

(** C5, as the code has it.  For a template with at least one column
    and at least one parsed transaction the run yields a table: the
    rows whose date column parses, re-rendered, the others dropped one
    by one.  It has at most as many rows as there are transactions, and
    as many exactly when the date column of every row parses.  The date
    column of a row holds the transaction's date unless the date
    column is also the column of the description, value or note role
    (then it holds that role's value); so when it is none of these, the
    counts are equal exactly when every transaction's date parses. *)
Theorem tabela_final_contagem cols dados :
  cols <> [] -> dados <> [] ->
  let dc := identificar_coluna_data cols in
  exists df,
    tabela_final sort_values cols dados = Some df
    /\ df ≡ₚ dt_strftime dc (dropna (to_datetime dc (montar_tabela cols dados)))
    /\ length df <= length dados
    /\ (length df = length dados <->
        forall r, r ∈ montar_tabela cols dados ->
                  is_Some (to_datetime_cell (r !! dc)))
    /\ (coluna_do_papel palavras_descricao cols <> Some dc ->
        coluna_do_papel palavras_valor cols <> Some dc ->
        coluna_do_papel palavras_observacao cols <> Some dc ->
        (length df = length dados <->
         forall t, t ∈ dados -> is_Some (strptime (Data t)))).
Proof.
  intros Hc Hd dc.
  exists (ordenar_por_data sort_values dc (montar_tabela cols dados)).
  assert (Hlen : length (ordenar_por_data sort_values dc
                           (montar_tabela cols dados))
                 = length (dropna (to_datetime dc (montar_tabela cols dados)))).
  { unfold ordenar_por_data, dt_strftime. rewrite length_fmap.
    apply Permutation_length. by apply dropna_sort_perm. }
  assert (Hlen0 : length (to_datetime dc (montar_tabela cols dados))
                  = length dados).
  { unfold to_datetime, montar_tabela. by rewrite !length_fmap. }
  assert (Heq : length (ordenar_por_data sort_values dc
                          (montar_tabela cols dados)) = length dados <->
                forall r, r ∈ montar_tabela cols dados ->
                          is_Some (to_datetime_cell (r !! dc))).
  { rewrite Hlen, <- Hlen0, length_dropna_eq, Forall_forall.
    unfold to_datetime. split.
    - intros H r Hr. apply (H (to_datetime_cell (r !! dc), r)).
      apply list_elem_of_fmap. by exists r.
    - intros H x (r & -> & Hr)%list_elem_of_fmap. simpl. by apply H. }
  split; [|split; [|split; [|split]]].
  - unfold tabela_final. destruct dados; [done|].
    fold dc. rewrite bool_decide_eq_true_2; [done|].
    by apply identificar_coluna_data_elem.
  - unfold ordenar_por_data, dt_strftime. apply fmap_Permutation.
    by apply dropna_sort_perm.
  - rewrite Hlen, <- Hlen0. apply length_filter.
  - exact Heq.
  - intros H1 H2 H3. rewrite Heq. unfold montar_tabela. fold dc.
    assert (Hcel : forall t, nova_linha cols dc t !! dc
                             = Some (CStr (Data t))).
    { intros t. rewrite lookup_nova_linha.
      unfold coluna_do_papel in *.
      rewrite !decide_False by done. by rewrite decide_True. }
    split.
    + intros H t Ht.
      specialize (H (nova_linha cols dc t)). rewrite Hcel in H.
      apply H. apply list_elem_of_fmap. by exists t.
    + intros H r (t & -> & Ht)%list_elem_of_fmap. rewrite Hcel.
      by apply H.
Qed.

End Claims_Contagem.

Section Claims_Contagem_Exemplos.

Lemma tabela_final_contagem_witness :
  sort_values_spec sort_merge
  /\ ["Data"; "Descricao"; "Valor"] <> []
  /\ [transacao_exemplo; Transacao "31/02/2024" "X" (PFin 1) "X"] <> []
  /\ exists df,
       tabela_final sort_merge ["Data"; "Descricao"; "Valor"]
         [transacao_exemplo; Transacao "31/02/2024" "X" (PFin 1) "X"]
       = Some df
       /\ length df = 1%nat.
Proof.
  split; [exact sort_merge_spec|]. split; [done|]. split; [done|].
  destruct (tabela_final_contagem sort_merge sort_merge_spec
              ["Data"; "Descricao"; "Valor"]
              [transacao_exemplo; Transacao "31/02/2024" "X" (PFin 1) "X"]
              ltac:(done) ltac:(done))
    as (df & E & Hp & _).
  exists df. split; [exact E|].
  apply Permutation_length in Hp. rewrite Hp. vm_compute. exact eq_refl.
Defined.

(** Every transaction's date parses and yet the table loses the row:
    the template has no date column, the fallback picks the first
    column, and the description overwrites the date there. *)
Lemma tabela_final_contagem_counterexample :
  strptime (Data transacao_exemplo) = Some (Date 2024 3 5)
  /\ identificar_coluna_data ["Descricao"; "Valor"] = "Descricao"
  /\ (forall sort_values, sort_values_spec sort_values ->
      tabela_final sort_values ["Descricao"; "Valor"] [transacao_exemplo]
      = Some [])
  /\ length ([] : list linha) <> length [transacao_exemplo].
Proof.
  split; [by vm_compute|]. split; [by vm_compute|]. split; [|done].
  intros sort_values Hspec. unfold tabela_final.
  rewrite bool_decide_eq_true_2
    by (apply identificar_coluna_data_elem; done).
  f_equal. unfold ordenar_por_data.
  set (X := to_datetime _ _).
  assert (EX : exists r, X = [(None, r)]) by (eexists; vm_compute; exact eq_refl).
  destruct EX as [r EX]. rewrite EX.
  destruct (Hspec [(None, r)]) as [Hp _].
  apply Permutation_singleton_r in Hp. by rewrite Hp.
Qed.

End Claims_Contagem_Exemplos.

(** ** Lines of a statement *)

Section LinhasFacts.

Lemma lstrip_cases s :
  lstrip s = "" \/ exists c r, lstrip s = String c r /\ isspace c = false.
Proof.
  induction s as [|c s IH]; [by left|]. simpl.
  destruct (isspace c) eqn:E; [done|]. right. by exists c, s.
Qed.

Lemma rstrip_idem s : rstrip (rstrip s) = rstrip s.
Proof.
  induction s as [|c s IH]; [done|]. simpl.
  destruct (rstrip s) as [|x r] eqn:E.
  - destruct (isspace c) eqn:Ec; [done|]. simpl. by rewrite Ec.
  - simpl in IH. simpl. destruct (rstrip r) as [|y r'] eqn:Er.
    + destruct (isspace x) eqn:Ex; [done|]. by injection IH as <-.
    + by rewrite IH.
Qed.

Lemma rstrip_head c s :
  isspace c = false -> exists r, rstrip (String c s) = String c r.
Proof.
  intros Hc. simpl. destruct (rstrip s) as [|x r].
  - rewrite Hc. by eexists.
  - by eexists.
Qed.

(** [strip] leaves a stripped string alone. *)
Lemma strip_idem s : strip (strip s) = strip s.
Proof.
  unfold strip. destruct (lstrip_cases s) as [->|(c & r & -> & Hc)]; [done|].
  destruct (rstrip_head c r Hc) as [r' E]. rewrite E.
  rewrite lstrip_nonspace by done. by rewrite <- E, rstrip_idem.
Qed.

Lemma rstrip_empty s : rstrip s = "" <-> em_branco s.
Proof.
  unfold em_branco. induction s as [|c s IH]; [done|]. simpl.
  destruct (rstrip s) as [|x r] eqn:E.
  - destruct (isspace c); simpl; [|done].
    split; [intros _; by apply IH|done].
  - split; [done|]. intros [_ H]%andb_true_iff. by apply IH in H.
Qed.

Lemma strip_empty s : strip s = "" <-> em_branco s.
Proof.
  unfold strip. rewrite rstrip_empty. unfold em_branco.
  induction s as [|c s IH]; [done|]. simpl.
  destruct (isspace c) eqn:E; simpl; [done|]. by rewrite E.
Qed.

Lemma all_chars_lstrip p s :
  all_chars p s = true -> all_chars p (lstrip s) = true.
Proof.
  induction s as [|c s IH]; [done|]. simpl.
  intros [Hc Hs]%andb_true_iff. destruct (isspace c); [by apply IH|].
  simpl. by rewrite Hc, Hs.
Qed.

Lemma all_chars_rstrip p s :
  all_chars p s = true -> all_chars p (rstrip s) = true.
Proof.
  induction s as [|c s IH]; [done|]. simpl.
  intros [Hc Hs]%andb_true_iff. specialize (IH Hs).
  destruct (rstrip s) as [|x r].
  - destruct (isspace c); [done|]. simpl. by rewrite Hc.
  - change (all_chars p (String c (String x r)))
      with (p c && all_chars p (String x r)). by rewrite Hc, IH.
Qed.

Lemma all_chars_strip p s :
  all_chars p s = true -> all_chars p (strip s) = true.
Proof. intros H. by apply all_chars_rstrip, all_chars_lstrip. Qed.

Lemma split_nl_cons s : exists h t, split_nl s = h :: t.
Proof.
  induction s as [|c s (h & t & IH)]; simpl; [by eexists _, _|].
  destruct (Ascii.eqb c "010"); [by eexists _, _|].
  rewrite IH. by eexists _, _.
Qed.

Lemma split_nl_all p s :
  all_chars p s = true -> Forall (fun l => all_chars p l = true) (split_nl s).
Proof.
  induction s as [|c s IH]; simpl.
  - intros _. by repeat constructor.
  - intros [Hc Hs]%andb_true_iff. specialize (IH Hs).
    destruct (Ascii.eqb c "010"); [by constructor|].
    destruct (split_nl s) as [|h t]; [by repeat constructor; simpl; rewrite Hc|].
    apply Forall_cons in IH as [Hh Ht]. constructor; [|done].
    simpl. by rewrite Hc, Hh.
Qed.

(** The pieces between the line breaks hold no line break. *)
Lemma split_nl_sem_quebra s : Forall sem_quebra (split_nl s).
Proof.
  unfold sem_quebra. induction s as [|c s IH]; simpl.
  - by repeat constructor.
  - destruct (Ascii.eqb c "010") eqn:E; [by constructor|].
    destruct (split_nl s) as [|h t]; [by repeat constructor; simpl; rewrite E|].
    apply Forall_cons in IH as [Hh Ht]. constructor; [|done].
    simpl. by rewrite E, Hh.
Qed.

(** Splitting at the line breaks goes through a line break. *)
Lemma split_nl_app a b :
  split_nl (a +:+ String "010" b) = split_nl a ++ split_nl b.
Proof.
  induction a as [|c a IH]; simpl; [done|].
  destruct (Ascii.eqb c "010"); [by rewrite IH|].
  rewrite IH. destruct (split_nl_cons a) as (h & t & ->). done.
Qed.

Lemma linhas_de_app a b :
  linhas_de (a +:+ String "010" b) = linhas_de a ++ linhas_de b.
Proof.
  unfold linhas_de. by rewrite split_nl_app, map_app, filter_app.
Qed.

End LinhasFacts.

(** ** The two parsers over a whole text *)

Section ParserFacts.
Import Re Padroes.

Lemma bind_Ok {A B} (r : result A) (k : A -> result B) y :
  bind r k = Ok y <-> exists x, r = Ok x /\ k x = Ok y.
Proof.
  destruct r as [x|e]; simpl.
  - split; [by exists x|]. by intros (? & [= <-] & ?).
  - split; [done|]. by intros (? & ? & _).
Qed.

(** The loop over two runs of lines is the loop over the first, then
    over the second. *)
Lemma para_cada_linha_app corpo l1 l2 :
  para_cada_linha corpo (l1 ++ l2)
  = bind (para_cada_linha corpo l1) (fun d1 =>
    bind (para_cada_linha corpo l2) (fun d2 => Ok (d1 ++ d2))).
Proof.
  induction l1 as [|l l1 IH]; simpl.
  - by destruct (para_cada_linha corpo l2).
  - destruct (corpo l) as [novos|e]; simpl; [|done]. rewrite IH.
    destruct (para_cada_linha corpo l1) as [d1|e]; simpl; [|done].
    destruct (para_cada_linha corpo l2) as [d2|e]; simpl; [|done].
    by rewrite List.app_assoc.
Qed.

(** What holds of every line's entries holds of the entries of the
    text, and a body that appends at most one entry a line yields at
    most as many entries as there are lines. *)
Lemma para_cada_linha_Forall (P : transacao -> Prop) corpo linhas dados :
  (forall l novos, l ∈ linhas -> corpo l = Ok novos ->
                   Forall P novos /\ (length novos <= 1)%nat) ->
  para_cada_linha corpo linhas = Ok dados ->
  Forall P dados /\ (length dados <= length linhas)%nat.
Proof.
  revert dados. induction linhas as [|l ls IH]; intros dados Hc; simpl.
  - intros [= <-]. split; [constructor|done].
  - intros (novos & Hn & (resto & Hr & [= <-])%bind_Ok)%bind_Ok.
    destruct (Hc l novos) as [H1 H2]; [by left|done|].
    destruct (IH resto) as [H3 H4]; [|done|].
    { intros l' n' Hl'. apply Hc. by right. }
    split; [by apply Forall_app|]. rewrite List.length_app. lia.
Qed.

(** The loop fails exactly when the body fails on some line. *)
Lemma para_cada_linha_Raise corpo linhas e :
  para_cada_linha corpo linhas = Raise e ->
  exists l, l ∈ linhas /\ corpo l = Raise e.
Proof.
  induction linhas as [|l ls IH]; simpl; [done|].
  destruct (corpo l) as [novos|e'] eqn:E; simpl.
  - destruct (para_cada_linha corpo ls) as [d|e'']; simpl; [done|].
    intros [= ->]. destruct IH as (l' & Hl' & H'); [done|].
    exists l'. split; [by right|done].
  - intros [= ->]. exists l. split; [by left|done].
Qed.

Lemma para_cada_linha_Ok corpo linhas :
  (forall l, l ∈ linhas -> exists novos, corpo l = Ok novos) ->
  exists dados, para_cada_linha corpo linhas = Ok dados.
Proof.
  intros H. destruct (para_cada_linha corpo linhas) as [d|e] eqn:E;
    [by exists d|].
  apply para_cada_linha_Raise in E as (l & Hl & E).
  destruct (H l Hl) as (? & ?). congruence.
Qed.

(** Whatever the line, the body of the Santander loop returns. *)
Lemma santander_linha_Ok linha :
  exists novos, santander_linha linha = Ok novos.
Proof.
  destruct (search padrao_santander linha) as [m|] eqn:Hs.
  - destruct (santander_linha_match _ _ Hs)
      as (? & ? & ? & ? & ? & _ & _ & _ & _ & _ & _ & _ & ->).
    by eexists.
  - unfold santander_linha. rewrite Hs.
    destruct (search padrao_negativo linha) as [m|] eqn:Hn; [|by eexists].
    apply grupos_sem_cauda in Hn as (a & b & c & ? & ? & -> & _); try done.
    by eexists.
Qed.

End ParserFacts.

Section Texto.
Import Re Padroes.

(** X1. The lines both parsers iterate over: each one is non-empty,
    carries no white space at either end and holds no line break, so
    that [^] and [$] of the patterns stand at the two ends of a
    statement line. *)
Theorem linhas_de_invariante texto :
  Forall (fun l => l <> "" /\ strip l = l /\ sem_quebra l) (linhas_de texto).
Proof.
  unfold linhas_de. apply Forall_forall. intros l Hl.
  apply list_elem_of_filter in Hl as [Hne Hl].
  apply list_elem_of_fmap in Hl as (p & -> & Hp).
  split; [done|]. split; [apply strip_idem|].
  apply all_chars_strip.
  pose proof (split_nl_sem_quebra texto) as H.
  rewrite Forall_forall in H. by apply H.
Qed.

(** X2. The Santander parser raises on no text: both patterns have
    their three groups on every match, and the amount group of the
    primary pattern always normalises to a literal [float] accepts. *)
Theorem processar_formato_santander_total texto :
  exists dados, processar_formato_santander texto = Ok dados.
Proof.
  apply para_cada_linha_Ok. intros l _. apply santander_linha_Ok.
Qed.

(** X3. [processar_fatura] stops with the warning that asks for the
    text exactly when the text box holds white space only (line breaks
    included); the parsers are not run then. *)
Theorem processar_fatura_sem_texto sort_values colunas_modelo fmt ano texto :
  processar_fatura sort_values colunas_modelo fmt ano texto = SemTexto
  <-> em_branco texto.
Proof.
  rewrite <- strip_empty. unfold processar_fatura.
  destruct (strip texto) as [|c s] eqn:E; [done|].
  split; [|done].
  destruct (match fmt with
            | Santander => processar_formato_santander (String c s)
            | Sicoob => processar_formato_sicoob (String c s) ano
            end) as [dados|e]; [|done].
  by destruct (tabela_final sort_values colunas_modelo dados).
Qed.

(** X4. Both parsers work line by line: the entries of two texts
    joined by a line break are the entries of the first followed by
    the entries of the second, and an exception raised on the first
    text (or else on the second) is the exception of the whole. *)
Theorem processar_formato_concatena t1 t2 ano :
  processar_formato_santander (t1 +:+ String "010" t2)
  = bind (processar_formato_santander t1) (fun d1 =>
    bind (processar_formato_santander t2) (fun d2 => Ok (d1 ++ d2)))
  /\ processar_formato_sicoob (t1 +:+ String "010" t2) ano
     = bind (processar_formato_sicoob t1 ano) (fun d1 =>
       bind (processar_formato_sicoob t2 ano) (fun d2 => Ok (d1 ++ d2))).
Proof.
  unfold processar_formato_santander, processar_formato_sicoob.
  by rewrite linhas_de_app, !para_cada_linha_app.
Qed.

Ltac inv_lang' :=
  repeat match goal with
    | H : in_lang (Seq _ _) _ |- _ => inversion H; subst; clear H
    | H : in_lang (Chr _) _ |- _ => inversion H; subst; clear H
    | H : Ascii.eqb _ _ = true |- _ => apply Ascii.eqb_eq in H; subst
    end.

Lemma lang_data_completa w :
  in_lang data_completa_re w -> fullmatch data_completa_re w = true.
Proof.
  intros H. unfold data_completa_re, digit4, digit3, digit2, digit, lit in H.
  inv_lang'. by apply fullmatch_data_completa.
Qed.

(** What one line of a Santander statement appends. *)
Lemma santander_linha_entradas linha novos :
  santander_linha linha = Ok novos ->
  Forall (fun t => gt0 (Valor t) = true
                   /\ fullmatch data_completa_re (Data t) = true
                   /\ Observacao t = Descricao t
                   /\ strip (Descricao t) = Descricao t) novos
  /\ (length novos <= 1)%nat.
Proof.
  destruct (search padrao_santander linha) as [m|] eqn:Hs.
  - destruct (santander_linha_match _ _ Hs)
      as (a & b & c & ? & ? & Hg & _ & _ & _ & _ & _ & _ & ->).
    apply grupos_com_cauda in Hs
      as (a' & b' & c' & ? & ? & ? & Hg' & La & _); try done.
    rewrite Hg in Hg'. injection Hg' as <- <- <-.
    destruct (gt0 _) eqn:Hpos; intros [= <-]; simpl.
    + split; [|lia]. repeat constructor; simpl; try done.
      * by apply lang_data_completa.
      * apply strip_idem.
    + split; [constructor|lia].
  - unfold santander_linha. rewrite Hs.
    destruct (search padrao_negativo linha) as [m|] eqn:Hn.
    + apply grupos_sem_cauda in Hn as (a & b & c & ? & ? & -> & _); try done.
      intros [= <-]. split; [constructor|simpl; lia].
    + intros [= <-]. split; [constructor|simpl; lia].
Qed.

(** X5. Every entry the Santander parser returns has a positive
    amount, a date laid out as DD/MM/YYYY, a note equal to its
    description, and a description without white space at its ends;
    and there is at most one entry for each non-blank line. *)
Theorem processar_formato_santander_entradas texto dados :
  processar_formato_santander texto = Ok dados ->
  Forall (fun t => gt0 (Valor t) = true
                   /\ fullmatch data_completa_re (Data t) = true
                   /\ Observacao t = Descricao t
                   /\ strip (Descricao t) = Descricao t) dados
  /\ (length dados <= length (linhas_de texto))%nat.
Proof.
  apply para_cada_linha_Forall. intros l novos _.
  apply santander_linha_entradas.
Qed.

Lemma processar_formato_santander_entradas_witness :
  processar_formato_santander fatura_santander_exemplo
  = Ok [Transacao "01/03/2024" "UBER TRIP" (of_decimal 4590 (-2))
          "UBER TRIP";
        Transacao "05/04/2024" "POSTO SHELL" (PFin 1250) "POSTO SHELL"]
  /\ Forall (fun t => gt0 (Valor t) = true
                      /\ fullmatch data_completa_re (Data t) = true
                      /\ Observacao t = Descricao t
                      /\ strip (Descricao t) = Descricao t)
       [Transacao "01/03/2024" "UBER TRIP" (of_decimal 4590 (-2))
          "UBER TRIP";
        Transacao "05/04/2024" "POSTO SHELL" (PFin 1250) "POSTO SHELL"].
Proof.
  assert (H : processar_formato_santander fatura_santander_exemplo
              = Ok [Transacao "01/03/2024" "UBER TRIP" (of_decimal 4590 (-2))
                      "UBER TRIP";
                    Transacao "05/04/2024" "POSTO SHELL" (PFin 1250)
                      "POSTO SHELL"])
    by (vm_compute; reflexivity).
  split; [exact H|].
  exact (proj1 (processar_formato_santander_entradas _ _ H)).
Defined.

End Texto.

(** ** [float] on the amounts of the Sicoob pattern *)

Section FloatSicoob.
Import Re Padroes.

Lemma digits_nospace s : digits s -> all_chars numchar s = true.
Proof.
  apply all_chars_impl. unfold numchar. by intros c ->.
Qed.

Lemma numchar_nospace s :
  all_chars numchar s = true ->
  all_chars (fun c => negb (isspace c)) s = true.
Proof.
  apply all_chars_impl. intros c Hc.
  by destruct (numchar_facts c Hc) as (-> & _).
Qed.

(** An unsigned literal of digits and points. *)
Lemma float_sem_sinal s :
  all_chars numchar s = true ->
  PyFloat.float s = match PyFloat.parse_unsigned s with
                    | Some f => Ok f
                    | None => Raise ValueError
                    end.
Proof.
  intros Hs. unfold PyFloat.float.
  rewrite strip_nospace by by apply numchar_nospace.
  rewrite drop_underscores_none by done.
  destruct s as [|c s]; [done|].
  apply andb_true_iff in Hs as [Hc _].
  assert (Ascii.eqb c "-" = false /\ Ascii.eqb c "+" = false) as [-> ->].
  { unfold numchar in Hc. apply orb_true_iff in Hc as [Hc|Hc].
    - by destruct (isdigit_facts c Hc) as (_ & _ & _ & _ & _ & -> & -> & _).
    - apply Ascii.eqb_eq in Hc. by subst. }
  by destruct (PyFloat.parse_unsigned _).
Qed.

(** A literal of digits and points after a minus sign. *)
Lemma float_com_menos s :
  all_chars numchar s = true ->
  PyFloat.float (String "-" s)
  = match PyFloat.parse_unsigned s with
    | Some f => Ok (PyFloat.neg f)
    | None => Raise ValueError
    end.
Proof.
  intros Hs. unfold PyFloat.float.
  rewrite strip_nospace.
  2:{ simpl. by apply numchar_nospace. }
  change (PyFloat.drop_underscores "000" (String "-" s))
    with (option_map (String "-") (PyFloat.drop_underscores "-" s)).
  rewrite drop_underscores_none by done. simpl.
  by destruct (PyFloat.parse_unsigned _).
Qed.

Lemma lower_numchar s : all_chars numchar s = true -> lower s = s.
Proof.
  induction s as [|c s IH]; [done|]. simpl.
  intros [Hc Hs]%andb_true_iff.
  destruct (numchar_facts c Hc) as (_ & -> & _). by rewrite IH.
Qed.

Lemma numchar_palavras c s :
  numchar c = true ->
  String.eqb (String c s) "inf" = false
  /\ String.eqb (String c s) "infinity" = false
  /\ String.eqb (String c s) "nan" = false.
Proof.
  unfold numchar. intros [Hc|Hc]%orb_true_iff.
  - destruct (isdigit_facts c Hc) as (_ & _ & _ & _ & _ & _ & _ & Hi & Hn & _).
    simpl. by rewrite Hi, Hn.
  - apply Ascii.eqb_eq in Hc. by subst.
Qed.

(** Digits alone. *)
Lemma parse_unsigned_inteiro ip :
  ip <> "" -> digits ip ->
  exists f, PyFloat.parse_unsigned ip = Some f.
Proof.
  intros Hne Hd. unfold PyFloat.parse_unsigned.
  rewrite lower_numchar by by apply digits_nospace.
  destruct ip as [|c ip]; [done|].
  pose proof Hd as [Hc _]%digits_cons.
  destruct (numchar_palavras c ip) as (-> & -> & ->);
    [unfold numchar; by rewrite Hc|].
  cbv [orb]. cbv iota.
  pose proof (span_digits_app (String c ip) "" Hd I) as E.
  rewrite app_nil_r in E. rewrite E. cbv iota.
  rewrite app_nil_r. simpl. by eexists.
Qed.

(** A point, then digits. *)
Lemma parse_unsigned_fracao fp :
  fp <> "" -> digits fp ->
  exists f, PyFloat.parse_unsigned (String "." fp) = Some f.
Proof.
  intros Hne Hd. unfold PyFloat.parse_unsigned.
  change (lower (String "." fp)) with (String "." (lower fp)).
  change (String.eqb (String "." (lower fp)) "inf") with false.
  change (String.eqb (String "." (lower fp)) "infinity") with false.
  change (String.eqb (String "." (lower fp)) "nan") with false.
  cbv [orb]. cbv iota.
  change (PyFloat.span_digits (String "." fp)) with ("", String "." fp).
  cbv iota. change (Ascii.eqb "." ".") with true. cbv iota.
  pose proof (span_digits_app fp "" Hd I) as E.
  rewrite app_nil_r in E. rewrite E. cbv iota.
  destruct fp as [|c fp]; [done|]. simpl. by eexists.
Qed.

(** A point, digits, a second point: no literal. *)
Lemma parse_unsigned_dois_pontos ip fp :
  ip <> "" -> digits ip ->
  PyFloat.parse_unsigned (String "." (ip +:+ String "." fp)) = None.
Proof.
  intros Hne Hd. unfold PyFloat.parse_unsigned.
  change (lower (String "." ?s)) with (String "." (lower s)).
  change (String.eqb (String "." ?s) "inf") with false.
  change (String.eqb (String "." ?s) "infinity") with false.
  change (String.eqb (String "." ?s) "nan") with false.
  cbv [orb]. cbv iota.
  change (PyFloat.span_digits (String "." ?s)) with ("", String "." s).
  cbv iota. change (Ascii.eqb "." ".") with true. cbv iota.
  rewrite span_digits_app by done. cbv iota.
  destruct ip as [|c ip]; [done|]. simpl. done.
Qed.

End FloatSicoob.

(** ** The Sicoob parser over a whole text *)

Section SicoobTexto.
Import Re Padroes.

Ltac inv_lang' :=
  repeat match goal with
    | H : in_lang (Seq _ _) _ |- _ => inversion H; subst; clear H
    | H : in_lang (Alt _ _) _ |- _ => inversion H; subst; clear H
    | H : in_lang (Chr _) _ |- _ => inversion H; subst; clear H
    | H : in_lang Eps _ |- _ => inversion H; subst; clear H
    | H : Ascii.eqb _ _ = true |- _ => apply Ascii.eqb_eq in H; subst
    end.

(** The thousands groups of either star vanish under the
    normalisation, leaving digits. *)
Lemma lang_milhares_g g w :
  in_lang (Star g (lit "." @@ digit3)) w -> digits (normalizar_valor w).
Proof.
  remember (Star g (lit "." @@ digit3)) as r eqn:Er.
  induction 1 as [| | | | | |g' r0 w1 w2 H1 _ H2 IH2| | |]; try done.
  inversion Er; subst. rewrite normalizar_app.
  apply digits_app; [|by apply IH2].
  unfold lit in H1. inv_lang'.
  match goal with H : in_lang digit3 _ |- _ =>
    apply lang_digit3 in H as [_ Hd] end.
  change (normalizar_valor (String "." "" +:+ ?w))
    with (normalizar_valor w). by rewrite normalizar_digits.
Qed.

Lemma antepenultimo_app pre c a b :
  antepenultimo (pre +:+ String c (String a (String b ""))) = Some c.
Proof.
  induction pre as [|x pre IH]; [done|].
  change (String x pre +:+ ?s) with (String x (pre +:+ s)).
  destruct pre as [|y [|z [|u pre]]]; try done.
Qed.

(** The amount token of the Sicoob pattern: an optional minus or
    comma, digits with thousands groups, a point or a comma, two
    digits. *)
Lemma lang_valor_sicoob w :
  in_lang valor_sicoob_re w ->
  exists sinal corpo sep a b ip,
    w = sinal +:+ corpo +:+ String sep (String a (String b ""))
    /\ (sinal = "" \/ sinal = "-" \/ sinal = ",")
    /\ (exists c r, corpo = String c r /\ isdigit c = true)
    /\ normalizar_valor corpo = ip /\ ip <> "" /\ digits ip
    /\ (sep = "." \/ sep = ",")%char
    /\ isdigit a = true /\ isdigit b = true.
Proof.
  unfold valor_sicoob_re. intros H.
  inversion H as [| |? ? w0 w' H0 H'| | | | | | |]; subst; clear H.
  inversion H' as [| |? ? w1 w'' H1 H''| | | | | | |]; subst; clear H'.
  inversion H'' as [| |? ? w2 w''' H2 H'''| | | | | | |]; subst; clear H''.
  inversion H''' as [| |? ? w3 w4 H3 H4| | | | | | |]; subst; clear H'''.
  apply lang_digit2 in H4 as (a & b & -> & Ha & Hb).
  pose proof (lang_digit1to3 _ H1) as [Hne Hd1].
  apply lang_milhares_g in H2.
  inversion H3 as [? sep Hsep| | | | | | | | |]; subst; clear H3.
  exists w0, (w1 +:+ w2), sep, a, b, (w1 +:+ normalizar_valor w2).
  repeat split; try done.
  - by rewrite !app_assoc.
  - unfold opt in H0.
    inversion H0 as [| | |? ? ? Hc|? ? ? He| | | | |]; subst; clear H0.
    + inversion Hc as [? s Hs| | | | | | | | |]; subst.
      unfold menos_ou_virgula in Hs.
      apply orb_true_iff in Hs as [->%Ascii.eqb_eq | ->%Ascii.eqb_eq]; auto.
    + inversion He; subst. auto.
  - destruct w1 as [|c r]; [done|]. apply digits_cons in Hd1 as [Hc _].
    by exists c, (r +:+ w2).
  - by rewrite normalizar_app, normalizar_digits.
  - by destruct w1.
  - by apply digits_app.
  - unfold ponto_ou_virgula in Hsep.
    apply orb_true_iff in Hsep as [->%Ascii.eqb_eq | ->%Ascii.eqb_eq]; auto.
Qed.

(** [float] rejects the normalised amount exactly when the token
    opens with a comma and has a comma before the cents. *)
Lemma float_normalizar_sicoob w :
  in_lang valor_sicoob_re w ->
  if virgula_dupla w
  then PyFloat.float (normalizar_valor w) = Raise ValueError
  else exists v, PyFloat.float (normalizar_valor w) = Ok v.
Proof.
  intros (sinal & corpo & sep & a & b & ip & -> & Hs & (c & r & -> & Hc)
          & Hn & Hne & Hip & Hsep & Ha & Hb)%lang_valor_sicoob.
  assert (Hfp : digits (String a (String b ""))).
  { unfold digits. simpl. by rewrite Ha, Hb. }
  assert (Hnfp : normalizar_valor (String a (String b ""))
                 = String a (String b "")) by by apply normalizar_digits.
  destruct (isdigit_facts c Hc) as (_ & _ & _ & Hv & _).
  rewrite !normalizar_app, Hn.
  assert (Hint : exists f, PyFloat.parse_unsigned
                             (ip +:+ String a (String b "")) = Some f).
  { apply parse_unsigned_inteiro; [by destruct ip|by apply digits_app]. }
  assert (Hnum : all_chars numchar (ip +:+ String a (String b "")) = true)
    by by apply digits_nospace, digits_app.
  assert (Hnum' : all_chars numchar
                    (ip +:+ String "." (String a (String b ""))) = true).
  { rewrite all_chars_app. rewrite (digits_nospace ip Hip). simpl.
    unfold numchar. by rewrite Ha, Hb. }
  destruct Hs as [-> | [-> | ->]], Hsep as [-> | ->].
  - (* ddd.dd *)
    assert (virgula_dupla ("" +:+ String c r +:+ String "." (String a (String b "")))
            = false) as ->.
    { simpl. by rewrite Hv. }
    change (normalizar_valor "") with "".
    change (normalizar_valor (String "." ?s)) with (normalizar_valor s).
    rewrite Hnfp. simpl String.append at 1.
    rewrite float_sem_sinal by done.
    destruct Hint as (f & ->). by eexists.
  - (* ddd,dd *)
    assert (virgula_dupla ("" +:+ String c r +:+ String "," (String a (String b "")))
            = false) as ->.
    { simpl. by rewrite Hv. }
    change (normalizar_valor "") with "".
    change (normalizar_valor (String "," ?s)) with (String "." (normalizar_valor s)).
    rewrite Hnfp. simpl String.append at 1.
    rewrite float_decimal by done. by eexists.
  - (* -ddd.dd *)
    assert (virgula_dupla ("-" +:+ String c r +:+ String "." (String a (String b "")))
            = false) as -> by done.
    change (normalizar_valor "-") with "-".
    change (normalizar_valor (String "." ?s)) with (normalizar_valor s).
    rewrite Hnfp.
    change ("-" +:+ ?s) with (String "-" s).
    rewrite float_com_menos by done.
    destruct Hint as (f & ->). by eexists.
  - (* -ddd,dd *)
    assert (virgula_dupla ("-" +:+ String c r +:+ String "," (String a (String b "")))
            = false) as -> by done.
    change (normalizar_valor "-") with "-".
    change (normalizar_valor (String "," ?s)) with (String "." (normalizar_valor s)).
    rewrite Hnfp.
    change ("-" +:+ ?s) with (String "-" s).
    rewrite float_com_menos by done.
    pose proof (float_decimal ip (String a (String b "")) Hne Hip Hfp) as Hf.
    rewrite float_sem_sinal in Hf by done.
    destruct (PyFloat.parse_unsigned
                (ip +:+ String "." (String a (String b "")))) as [f|];
      [by exists (PyFloat.neg f)|done].
  - (* ,ddd.dd *)
    assert (virgula_dupla ("," +:+ String c r +:+ String "." (String a (String b "")))
            = false) as ->.
    { change ("," +:+ ?s) with (String "," s).
      unfold virgula_dupla.
      change (String "," (String c r +:+ ?s)) with (String "," (String c r) +:+ s).
      by rewrite antepenultimo_app. }
    change (normalizar_valor ",") with ".".
    change (normalizar_valor (String "." ?s)) with (normalizar_valor s).
    rewrite Hnfp.
    change ("." +:+ ?s) with (String "." s).
    rewrite float_sem_sinal.
    2:{ simpl. done. }
    destruct (parse_unsigned_fracao (ip +:+ String a (String b "")))
      as (f & ->); [by destruct ip|by apply digits_app|]. by eexists.
  - (* ,ddd,dd *)
    assert (virgula_dupla ("," +:+ String c r +:+ String "," (String a (String b "")))
            = true) as ->.
    { change ("," +:+ ?s) with (String "," s).
      unfold virgula_dupla.
      change (String "," (String c r +:+ ?s)) with (String "," (String c r) +:+ s).
      by rewrite antepenultimo_app. }
    change (normalizar_valor ",") with ".".
    change (normalizar_valor (String "," ?s)) with (String "." (normalizar_valor s)).
    rewrite Hnfp.
    change ("." +:+ ?s) with (String "." s).
    rewrite float_sem_sinal.
    2:{ simpl. done. }
    by rewrite parse_unsigned_dois_pontos.
Qed.

End SicoobTexto.

Section SicoobClaims.
Import Re Padroes.

(** What the groups of a match of the Sicoob pattern are. *)
Lemma sicoob_grupos_valor linha m :
  search padrao_sicoob linha = Some m ->
  exists data_str descricao valor_str,
    groups3 m = Some (data_str, descricao, valor_str)
    /\ in_lang dia_mes_re data_str
    /\ in_lang valor_sicoob_re valor_str.
Proof.
  intros H. apply grupos_com_cauda in H
    as (a & b & c & _ & _ & _ & Hg & La & _ & Lc & _); try done.
  by exists a, b, c.
Qed.

(** When the body of the Sicoob loop raises. *)
Lemma sicoob_linha_Raise ano linha e :
  sicoob_linha ano linha = Raise e <->
  e = ValueError
  /\ contem_alguma marcadores_sicoob linha = false
  /\ exists m data_str descricao valor_str,
       search padrao_sicoob linha = Some m
       /\ groups3 m = Some (data_str, descricao, valor_str)
       /\ virgula_dupla valor_str = true.
Proof.
  unfold sicoob_linha.
  destruct (contem_alguma marcadores_sicoob linha).
  { split; [done|]. by intros (_ & ? & _). }
  destruct (search padrao_sicoob linha) as [m|] eqn:Hs.
  2:{ split; [done|]. by intros (_ & _ & ? & ? & ? & ? & ? & _). }
  destruct (sicoob_grupos_valor _ _ Hs) as (a & b & c & Hg & _ & Lc).
  rewrite Hg. pose proof (float_normalizar_sicoob c Lc) as Hf.
  destruct (virgula_dupla c) eqn:Hv.
  - rewrite Hf. simpl. split.
    + intros [= <-]. split; [done|]. split; [done|]. by exists m, a, b, c.
    + by intros (-> & _).
  - destruct Hf as (v & ->). simpl. split.
    + by destruct (gt0 v).
    + intros (_ & _ & m' & a' & b' & c' & [= <-] & Hg' & Hv').
      rewrite Hg in Hg'. injection Hg' as <- <- <-. congruence.
Qed.

Lemma para_cada_linha_Raise_conv corpo linhas l e :
  l ∈ linhas -> corpo l = Raise e ->
  exists e', para_cada_linha corpo linhas = Raise e'.
Proof.
  intros Hl Hc.
  destruct (para_cada_linha corpo linhas) as [d|e'] eqn:E; [|by exists e'].
  exfalso. revert d E. induction Hl as [l ls|l l' ls Hl IH]; simpl; intros d.
  - by rewrite Hc.
  - intros (novos & _ & (resto & Hr & _)%bind_Ok)%bind_Ok. by eapply IH.
Qed.

(** X6. The Sicoob parser fails on a text exactly when one of its
    lines has no marker, matches the pattern and has an amount group
    that opens with a comma and has a comma before the cents; the
    exception is then the [ValueError] of [float].  Nothing else makes
    it raise. *)
Theorem processar_formato_sicoob_excecao texto ano e :
  processar_formato_sicoob texto ano = Raise e <->
  e = ValueError
  /\ exists linha m data_str descricao valor_str,
       linha ∈ linhas_de texto
       /\ contem_alguma marcadores_sicoob linha = false
       /\ search padrao_sicoob linha = Some m
       /\ groups3 m = Some (data_str, descricao, valor_str)
       /\ virgula_dupla valor_str = true.
Proof.
  unfold processar_formato_sicoob. split.
  - intros (l & Hl & (-> & Hm & m & a & b & c & H)%sicoob_linha_Raise)
             %para_cada_linha_Raise.
    split; [done|]. by exists l, m, a, b, c.
  - intros (-> & l & m & a & b & c & Hl & Hm & Hs & Hg & Hv).
    assert (Hr : sicoob_linha ano l = Raise ValueError).
    { apply sicoob_linha_Raise. split; [done|]. split; [done|].
      by exists m, a, b, c. }
    destruct (para_cada_linha_Raise_conv _ _ _ _ Hl Hr) as (e' & He').
    rewrite He'. f_equal.
    apply para_cada_linha_Raise in He' as (l' & _ & H').
    by apply sicoob_linha_Raise in H' as (-> & _).
Qed.

(** What one line of a Sicoob statement appends. *)
Lemma sicoob_linha_entradas ano linha novos :
  (1000 <= ano <= 9999)%Z ->
  sicoob_linha ano linha = Ok novos ->
  Forall (fun t => gt0 (Valor t) = true
                   /\ fullmatch data_completa_re (Data t) = true
                   /\ (exists dia_mes,
                         in_lang dia_mes_re dia_mes
                         /\ Data t = dia_mes +:+ "/" +:+ str_int ano)
                   /\ Observacao t = Descricao t
                   /\ strip (Descricao t) = Descricao t) novos
  /\ (length novos <= 1)%nat.
Proof.
  intros Hano. unfold sicoob_linha.
  destruct (contem_alguma marcadores_sicoob linha).
  { intros [= <-]. split; [constructor|simpl; lia]. }
  destruct (search padrao_sicoob linha) as [m|] eqn:Hs.
  2:{ intros [= <-]. split; [constructor|simpl; lia]. }
  destruct (sicoob_grupos_valor _ _ Hs) as (a & b & c & -> & La & _).
  destruct (float (normalizar_valor c)) as [v|e]; simpl; [|done].
  destruct (gt0 v) eqn:Hpos; intros [= <-].
  2:{ split; [constructor|simpl; lia]. }
  split; [|simpl; lia]. repeat constructor; simpl; try done.
  - rewrite str_int_pad4 by done.
    apply lang_dia_mes in La as (x1 & x2 & x3 & x4 & -> & ? & ? & ? & ?).
    apply fullmatch_data_completa; try done; apply isdigit_digit_char.
  - by exists a.
  - apply strip_idem.
Qed.

(** X7. With a year of four digits (the dialog asks for one from 2000
    on), every entry the Sicoob parser returns has a positive amount
    and a date laid out as DD/MM/YYYY, made of the DD/MM of the line,
    a slash and the year; its note equals its description, which has
    no white space at its ends; and there is at most one entry for
    each non-blank line. *)
Theorem processar_formato_sicoob_entradas texto ano dados :
  (1000 <= ano <= 9999)%Z ->
  processar_formato_sicoob texto ano = Ok dados ->
  Forall (fun t => gt0 (Valor t) = true
                   /\ fullmatch data_completa_re (Data t) = true
                   /\ (exists dia_mes,
                         in_lang dia_mes_re dia_mes
                         /\ Data t = dia_mes +:+ "/" +:+ str_int ano)
                   /\ Observacao t = Descricao t
                   /\ strip (Descricao t) = Descricao t) dados
  /\ (length dados <= length (linhas_de texto))%nat.
Proof.
  intros Hano. apply para_cada_linha_Forall. intros l novos _.
  by apply sicoob_linha_entradas.
Qed.

Lemma processar_formato_sicoob_entradas_witness :
  (1000 <= 2024 <= 9999)%Z
  /\ processar_formato_sicoob fatura_sicoob_exemplo 2024
     = Ok [Transacao "05/03/2024" "MERCADO LIVRE" (PFin 120) "MERCADO LIVRE";
           Transacao "06/03/2024" "PADARIA" (of_decimal 123456 (-2))
             "PADARIA"]
  /\ Forall (fun t => gt0 (Valor t) = true
                      /\ fullmatch data_completa_re (Data t) = true
                      /\ (exists dia_mes,
                            in_lang dia_mes_re dia_mes
                            /\ Data t = dia_mes +:+ "/" +:+ str_int 2024)
                      /\ Observacao t = Descricao t
                      /\ strip (Descricao t) = Descricao t)
       [Transacao "05/03/2024" "MERCADO LIVRE" (PFin 120) "MERCADO LIVRE";
        Transacao "06/03/2024" "PADARIA" (of_decimal 123456 (-2)) "PADARIA"].
Proof.
  assert (H : processar_formato_sicoob fatura_sicoob_exemplo 2024
              = Ok [Transacao "05/03/2024" "MERCADO LIVRE" (PFin 120)
                      "MERCADO LIVRE";
                    Transacao "06/03/2024" "PADARIA" (of_decimal 123456 (-2))
                      "PADARIA"])
    by (vm_compute; reflexivity).
  split; [lia|]. split; [exact H|].
  exact (proj1 (processar_formato_sicoob_entradas fatura_sicoob_exemplo 2024
                  _ ltac:(lia) H)).
Defined.

End SicoobClaims.

(** ** Dates written with two, two and four digits *)

Section DatasPreenchidas.
Import Re Padroes.

Lemma digit_val_range c : isdigit c = true -> (0 <= digit_val c <= 9)%Z.
Proof.
  unfold isdigit, digit_val. intros [H1 H2]%andb_true_iff.
  apply N.leb_le in H1, H2. lia.
Qed.

(** The last digit of [10 * k + c] is [c]. *)
Lemma digit_char_val c k :
  isdigit c = true -> (0 <= k)%Z ->
  digit_char (Z.to_N (10 * k + digit_val c)) = c.
Proof.
  intros Hc Hk. pose proof (digit_val_range c Hc) as Hr.
  unfold digit_char. unfold digit_val in *.
  assert (E : Z.to_N (10 * k + (Z.of_N (ord c) - 48))
              = (ord c - 48 + Z.to_N k * 10)%N) by lia.
  rewrite E, N.Div0.mod_add, N.mod_small by lia.
  replace (48 + (ord c - 48))%N with (ord c) by lia.
  apply ascii_N_embedding.
Qed.

Lemma pad2_digitos a b :
  isdigit a = true -> isdigit b = true ->
  pad2 (10 * digit_val a + digit_val b) = String a (String b "").
Proof.
  intros Ha Hb. pose proof (digit_val_range a Ha).
  pose proof (digit_val_range b Hb). unfold pad2.
  rewrite (digit_char_val b) by (done || lia).
  replace ((10 * digit_val a + digit_val b) / 10)%Z
    with (10 * 0 + digit_val a)%Z.
  2:{ apply (Z.div_unique _ _ _ (digit_val b)); lia. }
  by rewrite digit_char_val by (done || lia).
Qed.

Lemma pad4_digitos a b c d :
  isdigit a = true -> isdigit b = true ->
  isdigit c = true -> isdigit d = true ->
  pad4 (digits_val (String a (String b (String c (String d "")))))
  = String a (String b (String c (String d ""))).
Proof.
  intros Ha Hb Hc Hd.
  pose proof (digit_val_range a Ha). pose proof (digit_val_range b Hb).
  pose proof (digit_val_range c Hc). pose proof (digit_val_range d Hd).
  unfold digits_val. cbn [digits_val_acc]. unfold pad4.
  set (y := (10 * (10 * (10 * (10 * 0 + digit_val a) + digit_val b)
                   + digit_val c) + digit_val d)%Z).
  replace (y / 1000)%Z with (10 * 0 + digit_val a)%Z.
  2:{ apply (Z.div_unique _ _ _
               (100 * digit_val b + 10 * digit_val c + digit_val d)); lia. }
  replace (y / 100)%Z with (10 * digit_val a + digit_val b)%Z.
  2:{ apply (Z.div_unique _ _ _ (10 * digit_val c + digit_val d)); lia. }
  replace (y / 10)%Z
    with (10 * (10 * digit_val a + digit_val b) + digit_val c)%Z.
  2:{ apply (Z.div_unique _ _ _ (digit_val d)); lia. }
  unfold y. by rewrite !digit_char_val by (done || lia).
Qed.

Lemma isdigit_nao_espaco c : isdigit c = true -> Ascii.eqb c " " = false.
Proof.
  intros H%isdigit_inv. simpl in H.
  repeat destruct H as [<-|H]; done.
Qed.

Lemma campo_dia_digitos a b v :
  isdigit a = true -> isdigit b = true ->
  campo_dia (String a (String b "")) = Some v ->
  v = (10 * digit_val a + digit_val b)%Z.
Proof.
  intros Ha Hb. unfold campo_dia.
  destruct (_ || _); [by intros [= <-]|].
  by rewrite (isdigit_nao_espaco a Ha).
Qed.

Lemma campo_mes_digitos a b v :
  campo_mes (String a (String b "")) = Some v ->
  v = (10 * digit_val a + digit_val b)%Z.
Proof. unfold campo_mes. destruct (_ || _); [by intros [= <-]|done]. Qed.

Lemma campo_ano_digitos s v : campo_ano s = Some v -> v = digits_val s.
Proof.
  unfold campo_ano. destruct s as [|a [|b [|c [|d [|? ?]]]]]; try done.
  destruct (_ && _); [by intros [= <-]|done].
Qed.

(** The layout DD/MM/YYYY, character by character. *)
Lemma lang_data_completa_forma w :
  in_lang data_completa_re w ->
  exists a b c d e f g h,
    w = String a (String b (String "/" (String c (String d (String "/"
          (String e (String f (String g (String h "")))))))))
    /\ isdigit a = true /\ isdigit b = true /\ isdigit c = true
    /\ isdigit d = true /\ isdigit e = true /\ isdigit f = true
    /\ isdigit g = true /\ isdigit h = true.
Proof.
  intros H. unfold data_completa_re, digit4, digit3, digit2, digit, lit in H.
  repeat match goal with
    | H : in_lang (Seq _ _) _ |- _ => inversion H; subst; clear H
    | H : in_lang (Chr _) _ |- _ => inversion H; subst; clear H
    | H : Ascii.eqb _ _ = true |- _ => apply Ascii.eqb_eq in H; subst
    end.
  simpl. eauto 20.
Qed.

Lemma ate_barra_digitos a b r :
  isdigit a = true -> isdigit b = true ->
  ate_barra (String a (String b (String "/" r)))
  = Some (String a (String b ""), r).
Proof.
  intros Ha Hb. simpl.
  destruct (isdigit_facts a Ha) as (_ & _ & _ & _ & _ & _ & _ & _ & _ & ->).
  destruct (isdigit_facts b Hb) as (_ & _ & _ & _ & _ & _ & _ & _ & _ & ->).
  done.
Qed.

(** Parsing a date written as DD/MM/YYYY and rendering it gives the
    text back. *)
Lemma strftime_strptime_forma s d :
  fullmatch data_completa_re s = true ->
  strptime s = Some d -> strftime d = s.
Proof.
  intros (a & b & c & x & e & f & g & h & -> & Ha & Hb & Hc & Hx & He & Hf
          & Hg & Hh)%fullmatch_lang%lang_data_completa_forma.
  unfold strptime. rewrite !ate_barra_digitos by done.
  destruct (campo_dia _) as [vd|] eqn:Ed; [|done].
  destruct (campo_mes _) as [vm|] eqn:Em; [|done].
  destruct (campo_ano _) as [vy|] eqn:Ey; [|done].
  destruct (date_ok _); [|done]. intros [= <-].
  apply campo_dia_digitos in Ed; [|done..].
  apply campo_mes_digitos in Em. apply campo_ano_digitos in Ey. subst.
  unfold strftime. cbn [year month day].
  by rewrite !pad2_digitos, pad4_digitos.
Qed.

End DatasPreenchidas.

Section DatasClaims.
Import Re Padroes.

(** X8. Rendering and parsing agree on dates written in full: a
    valid date renders as a DD/MM/YYYY text that parses back to it, and
    a DD/MM/YYYY text that parses renders back as itself.  A date
    written with fewer digits parses too, but renders differently. *)
Theorem strptime_strftime_ida_e_volta :
  (forall d, date_ok d = true ->
             fullmatch data_completa_re (strftime d) = true
             /\ strptime (strftime d) = Some d)
  /\ (forall s d, fullmatch data_completa_re s = true ->
                  strptime s = Some d -> strftime d = s)
  /\ strptime "5/3/2024" = Some (Date 2024 3 5)
  /\ strftime (Date 2024 3 5) = "05/03/2024".
Proof.
  split; [|split; [apply strftime_strptime_forma|by vm_compute]].
  intros d Hd. split; [|by apply strptime_strftime].
  unfold strftime, pad2, pad4. simpl.
  apply fullmatch_data_completa; apply isdigit_digit_char.
Qed.

Lemma dt_strftime_linha_id col (r : linha) d :
  data_preenchida (r !! col) ->
  to_datetime_cell (r !! col) = Some d ->
  dt_strftime_linha col (Some d, r) = r.
Proof.
  intros (s & E & Hs). rewrite E. simpl. intros Hd.
  unfold dt_strftime_linha. simpl.
  rewrite (strftime_strptime_forma s d Hs Hd). by apply insert_id.
Qed.

Lemma dt_strftime_dropna_filter col df :
  Forall (fun r : linha => data_preenchida (r !! col)) df ->
  dt_strftime col (dropna (to_datetime col df))
  = filter (fun r : linha => is_Some (to_datetime_cell (r !! col))) df.
Proof.
  unfold dt_strftime, dropna, to_datetime.
  induction 1 as [|r df Hr Hdf IH]; [done|].
  rewrite fmap_cons, !filter_cons. simpl.
  destruct (decide (is_Some (to_datetime_cell (r !! col)))) as [[d Hd]|Hn].
  - rewrite fmap_cons, IH. f_equal. rewrite Hd.
    by apply dt_strftime_linha_id.
  - done.
Qed.

(** X9. When every row holds its date as a DD/MM/YYYY text (what both
    parsers write), the sort-and-drop step changes no row: its result
    is a rearrangement of the rows whose date is a calendar date inside
    the range of pandas, each exactly as it came in. *)
Theorem ordenar_por_data_nao_altera sort_values col df :
  sort_values_spec sort_values ->
  Forall (fun r : linha => data_preenchida (r !! col)) df ->
  ordenar_por_data sort_values col df
  ≡ₚ filter (fun r : linha => is_Some (to_datetime_cell (r !! col))) df.
Proof.
  intros Hspec Hdf. rewrite <- dt_strftime_dropna_filter by done.
  unfold ordenar_por_data, dt_strftime. apply fmap_Permutation.
  by apply dropna_sort_perm.
Qed.

Lemma data_preenchida_exemplo a b c d e f g h desc :
  isdigit a = true -> isdigit b = true -> isdigit c = true ->
  isdigit d = true -> isdigit e = true -> isdigit f = true ->
  isdigit g = true -> isdigit h = true ->
  data_preenchida
    (linha_exemplo
       (String a (String b (String "/" (String c (String d (String "/"
          (String e (String f (String g (String h ""))))))))))
       desc !! "Data").
Proof.
  intros. eexists. split; [apply lookup_insert_eq|].
  by apply fullmatch_data_completa.
Qed.

Lemma ordenar_por_data_nao_altera_witness :
  sort_values_spec sort_merge
  /\ Forall (fun r : linha => data_preenchida (r !! "Data")) tres_datas
  /\ ordenar_por_data sort_merge "Data" tres_datas
     ≡ₚ filter (fun r : linha => is_Some (to_datetime_cell (r !! "Data")))
          tres_datas.
Proof.
  assert (H : Forall (fun r : linha => data_preenchida (r !! "Data"))
                tres_datas).
  { repeat constructor; by apply data_preenchida_exemplo. }
  split; [apply sort_merge_spec|]. split; [exact H|].
  exact (ordenar_por_data_nao_altera sort_merge "Data" tres_datas
           sort_merge_spec H).
Defined.

Lemma chaves_retidas col df :
  (dropna (to_datetime col df)).*1
  = Some <$> omap (fun r : linha => to_datetime_cell (r !! col)) df.
Proof.
  unfold dropna, to_datetime. induction df as [|r df IH]; [done|].
  rewrite fmap_cons, filter_cons. simpl.
  destruct (decide (is_Some (to_datetime_cell (r !! col)))) as [[d Hd]|Hn].
  - rewrite fmap_cons, IH. simpl. by rewrite Hd.
  - rewrite IH. destruct (to_datetime_cell (r !! col)) eqn:E; [|done].
    exfalso. by apply Hn.
Qed.

(** X10. When the dates that parse are pairwise distinct, the table
    after the sort-and-drop step does not depend on the sorting
    algorithm: any two that return the rows in ascending order of
    the date give the same table, row for row. *)
Theorem ordenar_por_data_independe sort_values1 sort_values2 col df :
  sort_values_spec sort_values1 ->
  sort_values_spec sort_values2 ->
  NoDup (omap (fun r : linha => to_datetime_cell (r !! col)) df) ->
  ordenar_por_data sort_values1 col df = ordenar_por_data sort_values2 col df.
Proof.
  intros H1 H2 Hnd. unfold ordenar_por_data. f_equal.
  apply ordenadas_iguais.
  - by apply Sorted_dropna, sort_values_sorted.
  - by apply Sorted_dropna, sort_values_sorted.
  - by rewrite !dropna_sort_perm.
  - rewrite dropna_sort_perm by done. rewrite chaves_retidas.
    apply NoDup_fmap_2; [|done]. by intros ?? [=].
Qed.

Lemma sort_merge_reverse_spec :
  sort_values_spec (fun df => sort_merge (reverse df)).
Proof.
  intros df. destruct (sort_merge_spec (reverse df)) as [Hp Hs].
  split; [|done]. by rewrite Hp, reverse_Permutation.
Qed.

Lemma ordenar_por_data_independe_witness :
  sort_values_spec sort_merge
  /\ sort_values_spec (fun df => sort_merge (reverse df))
  /\ NoDup (omap (fun r : linha => to_datetime_cell (r !! "Data")) tres_datas)
  /\ ordenar_por_data sort_merge "Data" tres_datas
     = ordenar_por_data (fun df => sort_merge (reverse df)) "Data" tres_datas.
Proof.
  assert (H : NoDup (omap (fun r : linha => to_datetime_cell (r !! "Data"))
                       tres_datas)).
  { assert (omap (fun r : linha => to_datetime_cell (r !! "Data")) tres_datas
            = [Date 2024 1 10; Date 2024 1 5]) as -> by (vm_compute; reflexivity).
    apply NoDup_cons. split; [|apply NoDup_singleton].
    intros [=]%list_elem_of_singleton. }
  split; [apply sort_merge_spec|]. split; [apply sort_merge_reverse_spec|].
  split; [exact H|].
  exact (ordenar_por_data_independe sort_merge
           (fun df => sort_merge (reverse df)) "Data" tres_datas
           sort_merge_spec sort_merge_reverse_spec H).
Defined.

End DatasClaims.

(** ** White space around the text *)

Section Margens.

Lemma em_branco_cons c s :
  em_branco (String c s) <-> isspace c = true /\ em_branco s.
Proof. unfold em_branco. simpl. apply andb_true_iff. Qed.

Lemma em_branco_app a b : em_branco a -> em_branco b -> em_branco (a +:+ b).
Proof. unfold em_branco. rewrite all_chars_app. by intros -> ->. Qed.

Lemma rstrip_app_branco y w : em_branco w -> rstrip (y +:+ w) = rstrip y.
Proof.
  intros Hw. induction y as [|c y IH]; simpl.
  - by apply rstrip_empty.
  - by rewrite IH.
Qed.

Lemma strip_app_branco x w : em_branco w -> strip (x +:+ w) = strip x.
Proof.
  intros Hw. induction x as [|c x IH].
  - simpl. by apply strip_empty.
  - unfold strip in *. simpl String.append. cbn [lstrip].
    destruct (isspace c); [done|].
    change (String c (x +:+ w)) with (String c x +:+ w).
    by apply rstrip_app_branco.
Qed.

(** A text is its right-stripped part followed by white space. *)
Lemma rstrip_resto t : exists w, em_branco w /\ t = rstrip t +:+ w.
Proof.
  induction t as [|c t (w & Hw & E)]; [by exists ""|]. simpl.
  destruct (rstrip t) as [|x r] eqn:Er.
  - destruct (isspace c) eqn:Ec.
    + exists (String c t). split; [|done].
      apply em_branco_cons. split; [done|]. by apply rstrip_empty.
    + exists t. split; [by apply rstrip_empty|done].
  - exists w. split; [done|]. simpl in *. by f_equal.
Qed.

Lemma linhas_de_branco w : em_branco w -> linhas_de w = [].
Proof.
  intros Hw. unfold linhas_de.
  pose proof (split_nl_all isspace w Hw) as H.
  induction H as [|p ps Hp _ IH]; [done|].
  rewrite fmap_cons, filter_cons.
  apply strip_empty in Hp. rewrite Hp.
  destruct (decide _); done.
Qed.

Lemma linhas_de_cons_branco c t :
  isspace c = true -> linhas_de (String c t) = linhas_de t.
Proof.
  intros Hc. unfold linhas_de. simpl.
  destruct (Ascii.eqb c "010").
  - rewrite fmap_cons, filter_cons. change (strip "") with "".
    by destruct (decide _).
  - destruct (split_nl_cons t) as (h & r & ->).
    rewrite !fmap_cons. f_equal. unfold strip. simpl. by rewrite Hc.
Qed.

Lemma linhas_de_lstrip t : linhas_de (lstrip t) = linhas_de t.
Proof.
  induction t as [|c t IH]; [done|]. simpl.
  destruct (isspace c) eqn:Ec; [|done].
  by rewrite IH, linhas_de_cons_branco.
Qed.

(** White space appended to a text lengthens its last piece and adds
    blank pieces. *)
Lemma split_nl_app_branco a w :
  em_branco w ->
  exists h r w' r',
    split_nl a = h :: r /\ split_nl (a +:+ w) = (h +:+ w') :: r'
    /\ em_branco w'
    /\ filter (fun l => l <> "") (strip <$> r')
       = filter (fun l => l <> "") (strip <$> r).
Proof.
  intros Hw. induction a as [|c a (h & r & w' & r' & E & E' & Hw' & Hr)].
  - destruct (split_nl_cons w) as (h & r & E).
    exists "", [], h, r. simpl. rewrite E.
    pose proof (split_nl_all isspace w Hw) as H. rewrite E in H.
    apply Forall_cons in H as [Hh Hr].
    repeat split; try done.
    clear E. induction Hr as [|p ps Hp _ IH]; [done|].
    rewrite fmap_cons, filter_cons. apply strip_empty in Hp. rewrite Hp.
    by destruct (decide _).
  - simpl. rewrite E, E'. destruct (Ascii.eqb c "010").
    + exists "", (h :: r), "", ((h +:+ w') :: r').
      repeat split; try done.
      rewrite !fmap_cons, !filter_cons, strip_app_branco, Hr by done. done.
    + exists (String c h), r, w', r'. done.
Qed.

Lemma linhas_de_app_branco a w :
  em_branco w -> linhas_de (a +:+ w) = linhas_de a.
Proof.
  intros Hw.
  destruct (split_nl_app_branco a w Hw)
    as (h & r & w' & r' & E & E' & Hw' & Hr).
  unfold linhas_de. rewrite E, E', !fmap_cons, !filter_cons.
  by rewrite strip_app_branco, Hr.
Qed.

Lemma linhas_de_strip t : linhas_de (strip t) = linhas_de t.
Proof.
  unfold strip. rewrite <- (linhas_de_lstrip t).
  destruct (rstrip_resto (lstrip t)) as (w & Hw & E).
  rewrite E at 2. by rewrite linhas_de_app_branco.
Qed.

(** X11. White space (blank lines included) before and after the
    text changes nothing for either parser: [processar_fatura] strips
    the text of the box before it parses, and the parsers return for
    the stripped text what they return for the text as typed. *)
Theorem processar_formato_margens texto ano :
  processar_formato_santander (strip texto)
  = processar_formato_santander texto
  /\ processar_formato_sicoob (strip texto) ano
     = processar_formato_sicoob texto ano.
Proof.
  unfold processar_formato_santander, processar_formato_sicoob.
  by rewrite linhas_de_strip.
Qed.

End Margens.

(** ** Sicoob amounts written with a decimal point *)

Section PontoDecimal.
Import Re Padroes.

Lemma parse_unsigned_inteiro_valor ip :
  ip <> "" -> digits ip ->
  PyFloat.parse_unsigned ip = Some (of_decimal (digits_val ip) 0).
Proof.
  intros Hne Hd. unfold PyFloat.parse_unsigned.
  rewrite lower_numchar by by apply digits_nospace.
  destruct ip as [|c ip]; [done|].
  pose proof Hd as [Hc _]%digits_cons.
  destruct (numchar_palavras c ip) as (-> & -> & ->);
    [unfold numchar; by rewrite Hc|].
  cbv [orb]. cbv iota.
  pose proof (span_digits_app (String c ip) "" Hd I) as E.
  rewrite app_nil_r in E. rewrite E. cbv iota.
  rewrite app_nil_r. cbv iota.
  change (PyFloat.parse_exponent "") with (Some 0%Z). cbv iota.
  reflexivity.
Qed.

(** X12. The Sicoob pattern also takes a point before the cents, but
    the normalisation deletes every point: an unsigned amount written
    with a decimal point reaches [float] as its digits alone and is
    read as that integer, a hundred times the amount written (120.50
    becomes 12050.0). *)
Theorem sicoob_linha_ponto_decimal
    ano linha m data_str descricao valor_str c r :
  contem_alguma marcadores_sicoob linha = false ->
  search padrao_sicoob linha = Some m ->
  groups3 m = Some (data_str, descricao, valor_str) ->
  valor_str = String c r -> isdigit c = true ->
  antepenultimo valor_str = Some "."%char ->
  digits (normalizar_valor valor_str)
  /\ let valor := of_decimal (digits_val (normalizar_valor valor_str)) 0 in
     sicoob_linha ano linha
     = Ok (if gt0 valor
           then [Transacao (data_str +:+ "/" +:+ str_int ano)
                   (strip descricao) valor (strip descricao)]
           else []).
Proof.
  intros Hm Hs Hg Ev Hc Hsep.
  destruct (sicoob_grupos_valor _ _ Hs) as (a' & b' & c' & Hg' & _ & Lc).
  rewrite Hg in Hg'. injection Hg' as <- <- <-.
  destruct (lang_valor_sicoob _ Lc)
    as (sinal & corpo & sep & a & b & ip & E & Hsin & (x & y & -> & Hx)
        & Hn & Hne & Hip & _ & Ha & Hb).
  assert (sinal = "") as ->.
  { destruct Hsin as [-> | [-> | ->]]; [done|..];
      rewrite E in Ev; injection Ev as <- _; done. }
  assert (sep = "."%char) as ->.
  { rewrite E in Hsep. simpl String.append in Hsep.
    change (String x (y +:+ ?s)) with (String x y +:+ s) in Hsep.
    rewrite antepenultimo_app in Hsep. by injection Hsep. }
  assert (Hfp : digits (String a (String b ""))).
  { unfold digits. simpl. by rewrite Ha, Hb. }
  assert (En : normalizar_valor valor_str = ip +:+ String a (String b "")).
  { rewrite E. change ("" +:+ ?s) with s. rewrite normalizar_app, Hn.
    change (normalizar_valor (String "." ?s)) with (normalizar_valor s).
    by rewrite normalizar_digits. }
  assert (Hd : digits (normalizar_valor valor_str)).
  { rewrite En. by apply digits_app. }
  split; [done|]. intros valor. unfold sicoob_linha.
  rewrite Hm, Hs, Hg.
  rewrite float_sem_sinal by by apply digits_nospace.
  rewrite parse_unsigned_inteiro_valor;
    [subst valor; unfold bind; by destruct (gt0 _)| |done].
  rewrite En. by destruct ip.
Qed.

Lemma sicoob_linha_ponto_decimal_witness :
  contem_alguma marcadores_sicoob "05/03 LOJA 120.50" = false
  /\ search padrao_sicoob "05/03 LOJA 120.50"
     = Some (MState 17 "" [(3, "120.50"); (2, "LOJA"); (1, "05/03")]%nat)
  /\ isdigit "1" = true
  /\ antepenultimo "120.50" = Some "."%char
  /\ sicoob_linha 2024 "05/03 LOJA 120.50"
     = Ok [Transacao "05/03/2024" "LOJA" (PFin 12050) "LOJA"].
Proof.
  split; [by vm_compute|]. split; [by vm_compute|].
  split; [reflexivity|]. split; [reflexivity|].
  destruct (sicoob_linha_ponto_decimal 2024%Z "05/03 LOJA 120.50"
              (MState 17 "" [(3, "120.50"); (2, "LOJA"); (1, "05/03")]%nat)
              "05/03" "LOJA" "120.50" "1" "20.50"
              eq_refl eq_refl eq_refl eq_refl eq_refl eq_refl) as [_ H].
  rewrite H. by vm_compute.
Defined.

End PontoDecimal.

(** ** The keywords of the roles *)

Section Palavras.

Lemma prefix_app sub s :
  String.prefix sub s = true <-> exists post, s = sub +:+ post.
Proof.
  revert sub. induction s as [|b s IH]; intros [|a sub]; simpl.
  - split; [by exists ""|done].
  - split; [done|by intros (? & ?)].
  - split; [by exists (String b s)|done].
  - destruct (ascii_dec a b) as [->|Hab].
    + rewrite IH. split; intros (post & E); exists post; [by rewrite E|].
      by injection E.
    + split; [done|]. intros (post & E). by injection E as -> _.
Qed.

(** [sub in s]: [s] is a text, [sub], a text. *)
Lemma contains_app sub s :
  contains sub s = true <-> exists pre post, s = pre +:+ sub +:+ post.
Proof.
  induction s as [|c s IH]; cbn [contains].
  - rewrite orb_false_r, prefix_app. split.
    + intros (post & E). by exists "", post.
    + intros ([|? ?] & post & E); [by exists post|done].
  - rewrite orb_true_iff, prefix_app, IH. split.
    + intros [(post & E)|(pre & post & E)].
      * by exists "", post.
      * exists (String c pre), post. by rewrite E.
    + intros ([|x pre] & post & E).
      * left. by exists post.
      * right. injection E as -> E. by exists pre, post.
Qed.

(** A text that holds [a +:+ sub +:+ b] holds [sub]. *)
Lemma contains_parte a sub b s :
  contains (a +:+ sub +:+ b) s = true -> contains sub s = true.
Proof.
  rewrite !contains_app. intros (pre & post & ->).
  exists (pre +:+ a), (b +:+ post). by rewrite !app_assoc.
Qed.

(** X13. Of the three keywords of the description role only [desc]
    counts, and of the three of the note role only [obs]: the other
    two contain it.  So the description goes to the first column
    whose lower-cased name contains [desc], and the note to the first
    one whose lower-cased name contains [obs], whatever else the name
    says. *)
Theorem colunas_com_palavra_curta colunas_modelo :
  colunas_com palavras_descricao colunas_modelo
  = List.filter (fun col => contains "desc" (lower col)) colunas_modelo
  /\ colunas_com palavras_observacao colunas_modelo
     = List.filter (fun col => contains "obs" (lower col)) colunas_modelo.
Proof.
  unfold colunas_com. split; apply List.filter_ext; intros col;
    unfold contem_alguma, palavras_descricao, palavras_observacao; simpl;
    rewrite orb_false_r.
  - destruct (contains "desc" (lower col)) eqn:E;
      [by rewrite !orb_true_r|].
    rewrite orb_false_r. apply orb_false_iff. split.
    + destruct (contains "descricao" _) eqn:E1; [|done].
      by rewrite (contains_parte "" "desc" "ricao") in E.
    + destruct (contains "description" _) eqn:E1; [|done].
      by rewrite (contains_parte "" "desc" "ription") in E.
  - destruct (contains "obs" (lower col)) eqn:E.
    + by rewrite orb_true_r.
    + rewrite orb_false_l. apply orb_false_iff. split.
      * destruct (contains "observacao" _) eqn:E1; [|done].
        by rewrite (contains_parte "" "obs" "ervacao") in E.
      * destruct (contains "observation" _) eqn:E1; [|done].
        by rewrite (contains_parte "" "obs" "ervation") in E.
Qed.

End Palavras.

(** ** The name of the workbook written *)

Section NomeArquivo.

Lemma digit_char_inj n m :
  digit_char n = digit_char m -> (n mod 10 = m mod 10)%N.
Proof.
  unfold digit_char. intros H%(f_equal N_of_ascii).
  pose proof (N.mod_lt n 10 ltac:(done)).
  pose proof (N.mod_lt m 10 ltac:(done)).
  rewrite !N_ascii_embedding in H by lia. lia.
Qed.

Lemma pad2_inj n m :
  (0 <= n <= 99)%Z -> (0 <= m <= 99)%Z -> pad2 n = pad2 m -> n = m.
Proof.
  intros Hn Hm. unfold pad2.
  intros [= H1%digit_char_inj H2%digit_char_inj].
  zify. Z.to_euclidean_division_equations. lia.
Qed.

Lemma digito_a_digito x y :
  (0 <= x)%Z -> (0 <= y)%Z ->
  (Z.to_N x mod 10 = Z.to_N y mod 10)%N -> (x / 10 = y / 10)%Z -> x = y.
Proof.
  intros Hx Hy H1 H2. zify. Z.to_euclidean_division_equations. lia.
Qed.

Lemma pad4_inj n m :
  (0 <= n <= 9999)%Z -> (0 <= m <= 9999)%Z -> pad4 n = pad4 m -> n = m.
Proof.
  intros Hn Hm. unfold pad4.
  intros [= H1 H2 H3 H4].
  apply digit_char_inj in H1, H2, H3, H4.
  assert (D : forall k, (k / 10 / 10 = k / 100 /\ k / 100 / 10 = k / 1000)%Z).
  { intros k. by rewrite !Zdiv.Zdiv_Zdiv by lia. }
  destruct (D n) as [Dn1 Dn2], (D m) as [Dm1 Dm2].
  assert (E3 : (n / 1000 = m / 1000)%Z).
  { apply digito_a_digito; [apply Z.div_pos; lia..|done|].
    rewrite !Z.div_small; [done|split..].
    - apply Z.div_pos; lia.
    - apply Z.div_lt_upper_bound; lia.
    - apply Z.div_pos; lia.
    - apply Z.div_lt_upper_bound; lia. }
  assert (E2 : (n / 100 = m / 100)%Z).
  { apply digito_a_digito; [apply Z.div_pos; lia..|done|].
    by rewrite Dn2, Dm2. }
  assert (E1 : (n / 10 = m / 10)%Z).
  { apply digito_a_digito; [apply Z.div_pos; lia..|done|].
    by rewrite Dn1, Dm1. }
  apply digito_a_digito; [lia..|done|done].
Qed.

Lemma datetime_ok_ranges agora :
  datetime_ok agora = true ->
  (1000 <= year (dia_de agora) <= 9999 /\ 1 <= month (dia_de agora) <= 12
   /\ 1 <= day (dia_de agora) <= 31 /\ 0 <= hora agora <= 23
   /\ 0 <= minuto agora <= 59 /\ 0 <= segundo agora <= 59)%Z.
Proof.
  unfold datetime_ok, calendar_ok.
  pose proof (days_in_month_le (year (dia_de agora)) (month (dia_de agora))).
  lia.
Qed.

(** X14. The workbook is named after the moment of the export, to
    the second: two exports get the same file name exactly when they
    happen within the same second (the later one then replaces the
    earlier file). *)
Theorem nome_novo_arquivo_segundo a b :
  datetime_ok a = true -> datetime_ok b = true ->
  nome_novo_arquivo a = nome_novo_arquivo b <-> a = b.
Proof.
  intros (Hy & Hm & Hd & Hh & Hmi & Hs)%datetime_ok_ranges
         (Hy' & Hm' & Hd' & Hh' & Hmi' & Hs')%datetime_ok_ranges.
  split; [|by intros ->].
  destruct a as [[y m d] h mi s], b as [[y' m' d'] h' mi' s'].
  cbn [dia_de hora minuto segundo year month day] in *.
  unfold nome_novo_arquivo, strftime_arquivo.
  cbn [dia_de hora minuto segundo year month day].
  unfold pad2, pad4. cbn [String.append].
  intros [= E1 E2 E3 E4 E5 E6 E7 E8 E9 E10 E11 E12 E13 E14].
  assert (y = y') as <-.
  { apply pad4_inj; [lia..|]. unfold pad4. congruence. }
  assert (m = m') as <-.
  { apply pad2_inj; [lia..|]. unfold pad2. congruence. }
  assert (d = d') as <-.
  { apply pad2_inj; [lia..|]. unfold pad2. congruence. }
  assert (h = h') as <-.
  { apply pad2_inj; [lia..|]. unfold pad2. congruence. }
  assert (mi = mi') as <-.
  { apply pad2_inj; [lia..|]. unfold pad2. congruence. }
  assert (s = s') as <-.
  { apply pad2_inj; [lia..|]. unfold pad2. congruence. }
  done.
Qed.

Lemma nome_novo_arquivo_segundo_witness :
  datetime_ok (DateTime (Date 2024 3 5) 14 7 9) = true
  /\ nome_novo_arquivo (DateTime (Date 2024 3 5) 14 7 9)
     = "fatura_processada_20240305_140709.xlsx"
  /\ (nome_novo_arquivo (DateTime (Date 2024 3 5) 14 7 9)
      = nome_novo_arquivo (DateTime (Date 2024 3 5) 14 7 9)
      <-> DateTime (Date 2024 3 5) 14 7 9 = DateTime (Date 2024 3 5) 14 7 9).
Proof.
  split; [reflexivity|]. split; [reflexivity|].
  exact (nome_novo_arquivo_segundo (DateTime (Date 2024 3 5) 14 7 9)
           (DateTime (Date 2024 3 5) 14 7 9) eq_refl eq_refl).
Defined.

End NomeArquivo.

(** ** Reading a PDF statement by OCR *)

Section OCRFacts.
Context {imagem : Type}.
Context (image_to_string : option string -> imagem -> option string).

Lemma texto_das_paginas_juntar paginas acc texto :
  texto_das_paginas image_to_string paginas acc = Some texto ->
  exists textos,
    Forall2 (fun p t => exists img, p = Some img
               /\ texto_da_pagina image_to_string img = Some t)
      paginas textos
    /\ texto = acc +:+ juntar_paginas textos.
Proof.
  revert acc. induction paginas as [|[img|] ps IH]; intros acc; simpl.
  - intros [= <-]. exists []. split; [constructor|]. simpl.
    by rewrite app_nil_r.
  - destruct (texto_da_pagina image_to_string img) as [t|] eqn:Et; [|done].
    intros (textos & HF & ->)%IH. exists (t :: textos). split.
    + constructor; [by exists img|done].
    + simpl. by rewrite !app_assoc.
  - done.
Qed.

Lemma linhas_de_juntar textos :
  linhas_de (juntar_paginas textos) = concat (linhas_de <$> textos).
Proof.
  induction textos as [|t ts IH]; [done|]. simpl.
  by rewrite linhas_de_app, IH.
Qed.

Lemma processar_formato_santander_juntar textos :
  exists dados_por_pagina,
    Forall2 (fun t d => processar_formato_santander t = Ok d)
      textos dados_por_pagina
    /\ processar_formato_santander (juntar_paginas textos)
       = Ok (concat dados_por_pagina).
Proof.
  induction textos as [|t ts (ds & HF & E)].
  - exists []. split; [constructor|done].
  - destruct (para_cada_linha_Ok santander_linha (linhas_de t)) as (d & Hd).
    { intros l _. apply santander_linha_Ok. }
    exists (d :: ds). split; [by constructor|]. simpl.
    unfold processar_formato_santander in *.
    by rewrite linhas_de_app, para_cada_linha_app, Hd, E.
Qed.

(** X15. A statement read from a PDF is parsed page by page: when
    the extraction returns, every page was read by the first of the
    three OCR attempts (Portuguese, English, no language) that did not
    raise, the lines the parsers see are the lines of the first page,
    then those of the second, and so on, and the Santander entries are
    the entries of each page's text, in the order of the pages. *)
Theorem extrair_texto_pdf_com_ocr_paginas tesseract documento texto :
  extrair_texto_pdf_com_ocr image_to_string tesseract documento = Some texto ->
  exists paginas textos dados_por_pagina,
    documento = Some paginas
    /\ Forall2 (fun p t => exists img, p = Some img
                  /\ texto_da_pagina image_to_string img = Some t)
         paginas textos
    /\ texto = juntar_paginas textos
    /\ linhas_de texto = concat (linhas_de <$> textos)
    /\ Forall2 (fun t d => processar_formato_santander t = Ok d)
         textos dados_por_pagina
    /\ processar_formato_santander texto = Ok (concat dados_por_pagina).
Proof.
  unfold extrair_texto_pdf_com_ocr.
  destruct tesseract; [|done]. destruct documento as [paginas|]; [|done].
  intros (textos & HF & ->)%texto_das_paginas_juntar.
  destruct (processar_formato_santander_juntar textos) as (ds & Hds & E).
  exists paginas, textos, ds. simpl.
  repeat split; try done. apply linhas_de_juntar.
Qed.

(** X16. The extraction raises exactly when Tesseract was not found,
    the PDF could not be opened, a page could not be rendered, or all
    three OCR attempts raised on some page. *)
Theorem extrair_texto_pdf_com_ocr_falha tesseract documento :
  extrair_texto_pdf_com_ocr image_to_string tesseract documento = None <->
  tesseract = false
  \/ documento = None
  \/ exists paginas, documento = Some paginas
       /\ exists p, p ∈ paginas
            /\ (p = None
                \/ exists img, p = Some img
                     /\ image_to_string (Some "por") img = None
                     /\ image_to_string (Some "eng") img = None
                     /\ image_to_string None img = None).
Proof.
  unfold extrair_texto_pdf_com_ocr.
  destruct tesseract; [|by split; [left|]].
  destruct documento as [paginas|]; [|by split; [right; left|]].
  assert (H : forall acc,
             texto_das_paginas image_to_string paginas acc = None <->
             exists p, p ∈ paginas
               /\ (p = None
                   \/ exists img, p = Some img
                        /\ image_to_string (Some "por") img = None
                        /\ image_to_string (Some "eng") img = None
                        /\ image_to_string None img = None)).
  { induction paginas as [|[img|] ps IH]; intros acc; simpl.
    - split; [done|]. by intros (p & ?%elem_of_nil & _).
    - unfold texto_da_pagina.
      destruct (image_to_string (Some "por") img) as [t|] eqn:E1.
      { rewrite IH. split.
        - intros (p & Hp & H). exists p. split; [by right|done].
        - intros (p & [->|Hp]%elem_of_cons & H); [|by exists p].
          destruct H as [|(? & [= <-] & ? & _)]; congruence. }
      destruct (image_to_string (Some "eng") img) as [t|] eqn:E2.
      { rewrite IH. split.
        - intros (p & Hp & H). exists p. split; [by right|done].
        - intros (p & [->|Hp]%elem_of_cons & H); [|by exists p].
          destruct H as [|(? & [= <-] & _ & ? & _)]; congruence. }
      destruct (image_to_string None img) as [t|] eqn:E3.
      { rewrite IH. split.
        - intros (p & Hp & H). exists p. split; [by right|done].
        - intros (p & [->|Hp]%elem_of_cons & H); [|by exists p].
          destruct H as [|(? & [= <-] & _ & _ & ?)]; congruence. }
      split; [intros _|done]. exists (Some img). split; [by left|].
      right. by exists img.
    - split; [intros _|done]. exists None. split; [by left|by left]. }
  rewrite H. split.
  - intros Hp. right; right. by exists paginas.
  - intros [|[|(ps & [= <-] & Hp)]]; done.
Qed.

End OCRFacts.

(** ** Where the entries come from *)

Section Origem.
Import Re Padroes.

Lemma lang_star_space w : in_lang (Star true space) w -> em_branco w.
Proof.
  remember (Star true space) as r eqn:Er.
  induction 1 as [| | | | | |g r0 w1 w2 H1 _ H2 IH2| | |]; try done.
  inversion Er; subst. apply em_branco_app; [|by apply IH2].
  inversion H1; subst. apply em_branco_cons. by split.
Qed.

(** [\s+] consumes white space, at least one character. *)
Lemma lang_spaces w : in_lang spaces w -> w <> "" /\ em_branco w.
Proof.
  unfold spaces, plus. intros H.
  inversion H as [| |? ? w1 w2 H1 H2| | | | | | |]; subst; clear H.
  inversion H1; subst. split; [done|].
  apply em_branco_cons. split; [done|]. by apply lang_star_space.
Qed.

Lemma linhas_de_sem_quebra l texto : l ∈ linhas_de texto -> sem_quebra l.
Proof.
  unfold linhas_de. intros [_ Hl]%list_elem_of_filter.
  apply list_elem_of_fmap in Hl as (p & -> & Hp).
  apply all_chars_strip.
  pose proof (split_nl_sem_quebra texto) as H.
  rewrite Forall_forall in H. by apply H.
Qed.

(** A match of [^(A)\s+(B)\s+(C)$]: the third group runs to the end
    of the text, or to a line break that ends it. *)
Lemma grupos_com_eol A B C linha m :
  search (Bol @@ Group 1 A @@ spaces @@ Group 2 B @@ spaces
            @@ Group 3 C @@ Eol) linha = Some m ->
  no_groups A = true -> no_groups B = true -> no_groups C = true ->
  exists a b c ws1 ws2,
    groups3 m = Some (a, b, c)
    /\ in_lang A a /\ in_lang B b /\ in_lang C c
    /\ in_lang spaces ws1 /\ in_lang spaces ws2
    /\ linha = a +:+ ws1 +:+ b +:+ ws2 +:+ c +:+ rest m
    /\ (rest m = "" \/ rest m = String "010" "").
Proof.
  rewrite search_bol. intros H HA HB HC.
  apply rmatch_sound in H as (st' & M & H). inversion H; subst; clear H.
  repeat match goal with
    | H : matches (Seq _ _) _ _ |- _ => inversion H; subst; clear H
    end.
  match goal with
  | H0 : matches Bol _ ?s0, H1 : matches (Group 1 _) ?s0 ?s1,
    H2 : matches spaces ?s1 ?s2, H3 : matches (Group 2 _) ?s2 ?s3,
    H4 : matches spaces ?s3 ?s4, H5 : matches (Group 3 _) ?s4 ?s5,
    H6 : matches Eol ?s5 m |- _ =>
      destruct (tres_grupos _ _ _ _ _ _ _ _ _ _ H0 H1 H2 H3 H4 H5 HA HB HC)
        as (a & b & c & ws1 & ws2 & Hc & La & Lb & Lc & L1 & L2 & E);
      inversion H6 as [| | | | | | | | |? Hr]; subst
  end.
  simpl in E, Hc.
  exists a, b, c, ws1, ws2. unfold groups3, group.
  rewrite Hc, E. done.
Qed.

Lemma sem_quebra_fim a r :
  sem_quebra (a +:+ r) -> r = "" \/ r = String "010" "" -> r = "".
Proof.
  unfold sem_quebra. rewrite all_chars_app.
  intros [_ Hr]%andb_true_iff [->| ->]; done.
Qed.

(** The line behind an entry of the Santander parser. *)
Lemma santander_linha_origem linha novos :
  santander_linha linha = Ok novos ->
  Forall (fun t =>
            exists ws1 desc ws2 valor_str cauda,
              linha = Data t +:+ ws1 +:+ desc +:+ ws2 +:+ valor_str +:+ cauda
              /\ ws1 <> "" /\ em_branco ws1 /\ ws2 <> "" /\ em_branco ws2
              /\ in_lang valor_re valor_str
              /\ Descricao t = strip desc
              /\ float (normalizar_valor valor_str) = Ok (Valor t)) novos.
Proof.
  destruct (search padrao_santander linha) as [m|] eqn:Hs.
  - destruct (santander_linha_match _ _ Hs)
      as (a & b & c & ? & ? & Hg & Lc & _ & _ & _ & _ & Hf & ->).
    apply grupos_com_cauda in Hs
      as (a' & b' & c' & ws1 & ws2 & t & Hg' & _ & _ & _ & [? ?]%lang_spaces
          & [? ?]%lang_spaces & _ & E); try done.
    rewrite Hg in Hg'. injection Hg' as <- <- <-.
    destruct (gt0 _); intros [= <-]; [|constructor].
    repeat constructor. exists ws1, b, ws2, c, (t +:+ rest m). done.
  - unfold santander_linha. rewrite Hs.
    destruct (search padrao_negativo linha) as [m|] eqn:Hn.
    + apply grupos_sem_cauda in Hn as (a & b & c & ? & ? & -> & _); try done.
      intros [= <-]. constructor.
    + intros [= <-]. constructor.
Qed.

(** X17. The Santander parser invents nothing: every entry it
    returns stands on a line of the text that begins with the entry's
    date, followed by white space, a text whose stripped form is the
    entry's description, white space and an amount token that [float]
    reads, once normalised, as the entry's amount. *)
Theorem processar_formato_santander_origem texto dados :
  processar_formato_santander texto = Ok dados ->
  Forall (fun t =>
            exists linha ws1 desc ws2 valor_str cauda,
              linha ∈ linhas_de texto
              /\ linha = Data t +:+ ws1 +:+ desc +:+ ws2 +:+ valor_str
                         +:+ cauda
              /\ ws1 <> "" /\ em_branco ws1 /\ ws2 <> "" /\ em_branco ws2
              /\ in_lang valor_re valor_str
              /\ Descricao t = strip desc
              /\ float (normalizar_valor valor_str) = Ok (Valor t)) dados.
Proof.
  intros H. eapply proj1, para_cada_linha_Forall; [|exact H].
  intros l novos Hl Hn.
  destruct (santander_linha_entradas _ _ Hn) as [_ Hlen].
  split; [|done].
  eapply Forall_impl; [by apply santander_linha_origem|].
  intros t (ws1 & desc & ws2 & v & cauda & ?). by exists l, ws1, desc, ws2, v, cauda.
Qed.

Lemma processar_formato_santander_origem_witness :
  processar_formato_santander fatura_santander_exemplo
  = Ok [Transacao "01/03/2024" "UBER TRIP" (of_decimal 4590 (-2))
          "UBER TRIP";
        Transacao "05/04/2024" "POSTO SHELL" (PFin 1250) "POSTO SHELL"]
  /\ Forall (fun t =>
            exists linha ws1 desc ws2 valor_str cauda,
              linha ∈ linhas_de fatura_santander_exemplo
              /\ linha = Data t +:+ ws1 +:+ desc +:+ ws2 +:+ valor_str
                         +:+ cauda
              /\ ws1 <> "" /\ em_branco ws1 /\ ws2 <> "" /\ em_branco ws2
              /\ in_lang valor_re valor_str
              /\ Descricao t = strip desc
              /\ float (normalizar_valor valor_str) = Ok (Valor t))
       [Transacao "01/03/2024" "UBER TRIP" (of_decimal 4590 (-2))
          "UBER TRIP";
        Transacao "05/04/2024" "POSTO SHELL" (PFin 1250) "POSTO SHELL"].
Proof.
  assert (H : processar_formato_santander fatura_santander_exemplo
              = Ok [Transacao "01/03/2024" "UBER TRIP" (of_decimal 4590 (-2))
                      "UBER TRIP";
                    Transacao "05/04/2024" "POSTO SHELL" (PFin 1250)
                      "POSTO SHELL"])
    by (vm_compute; reflexivity).
  split; [exact H|].
  exact (processar_formato_santander_origem _ _ H).
Defined.

(** The line behind an entry of the Sicoob parser. *)
Lemma sicoob_linha_origem ano linha novos :
  sem_quebra linha ->
  sicoob_linha ano linha = Ok novos ->
  Forall (fun t =>
            exists dia_mes ws1 desc ws2 valor_str,
              contem_alguma marcadores_sicoob linha = false
              /\ linha = dia_mes +:+ ws1 +:+ desc +:+ ws2 +:+ valor_str
              /\ in_lang dia_mes_re dia_mes
              /\ ws1 <> "" /\ em_branco ws1 /\ ws2 <> "" /\ em_branco ws2
              /\ in_lang valor_sicoob_re valor_str
              /\ Data t = dia_mes +:+ "/" +:+ str_int ano
              /\ Descricao t = strip desc
              /\ float (normalizar_valor valor_str) = Ok (Valor t)) novos.
Proof.
  intros Hq. unfold sicoob_linha.
  destruct (contem_alguma marcadores_sicoob linha) eqn:Hm.
  { intros [= <-]. constructor. }
  destruct (search padrao_sicoob linha) as [m|] eqn:Hs.
  2:{ intros [= <-]. constructor. }
  apply grupos_com_eol in Hs
    as (a & b & c & ws1 & ws2 & -> & La & _ & Lc & [? ?]%lang_spaces
        & [? ?]%lang_spaces & E & Hr); try done.
  assert (rest m = "") as Er.
  { rewrite E in Hq. rewrite <- !app_assoc in Hq.
    by apply sem_quebra_fim in Hq. }
  rewrite Er, !app_nil_r in E.
  destruct (float (normalizar_valor c)) as [v|e] eqn:Hf; simpl; [|done].
  destruct (gt0 v); intros [= <-]; [|constructor].
  repeat constructor. by exists a, ws1, b, ws2, c.
Qed.

(** X18. The Sicoob parser invents nothing either: every entry it
    returns stands on a line of the text without marker that is, from
    end to end, a DD/MM, white space, a text whose stripped form is the
    entry's description, white space and an amount token that [float]
    reads, once normalised, as the entry's amount; the entry's date is
    the DD/MM, a slash and the year. *)
Theorem processar_formato_sicoob_origem texto ano dados :
  processar_formato_sicoob texto ano = Ok dados ->
  Forall (fun t =>
            exists linha dia_mes ws1 desc ws2 valor_str,
              linha ∈ linhas_de texto
              /\ contem_alguma marcadores_sicoob linha = false
              /\ linha = dia_mes +:+ ws1 +:+ desc +:+ ws2 +:+ valor_str
              /\ in_lang dia_mes_re dia_mes
              /\ ws1 <> "" /\ em_branco ws1 /\ ws2 <> "" /\ em_branco ws2
              /\ in_lang valor_sicoob_re valor_str
              /\ Data t = dia_mes +:+ "/" +:+ str_int ano
              /\ Descricao t = strip desc
              /\ float (normalizar_valor valor_str) = Ok (Valor t)) dados.
Proof.
  intros H. eapply proj1, para_cada_linha_Forall; [|exact H].
  intros l novos Hl Hn. split.
  - eapply Forall_impl;
      [by eapply sicoob_linha_origem; [eapply linhas_de_sem_quebra|]|].
    intros t (dm & ws1 & desc & ws2 & v & ?).
    by exists l, dm, ws1, desc, ws2, v.
  - revert Hn. unfold sicoob_linha.
    destruct (contem_alguma _ _); [by intros [= <-]; simpl; lia|].
    destruct (search _ _) as [m|]; [|by intros [= <-]; simpl; lia].
    destruct (groups3 m) as [[[a b] c]|]; [|done].
    destruct (float _) as [v|]; simpl; [|done].
    destruct (gt0 v); intros [= <-]; simpl; lia.
Qed.

Lemma processar_formato_sicoob_origem_witness :
  processar_formato_sicoob fatura_sicoob_exemplo 2024
  = Ok [Transacao "05/03/2024" "MERCADO LIVRE" (PFin 120) "MERCADO LIVRE";
        Transacao "06/03/2024" "PADARIA" (of_decimal 123456 (-2)) "PADARIA"]
  /\ Forall (fun t =>
            exists linha dia_mes ws1 desc ws2 valor_str,
              linha ∈ linhas_de fatura_sicoob_exemplo
              /\ contem_alguma marcadores_sicoob linha = false
              /\ linha = dia_mes +:+ ws1 +:+ desc +:+ ws2 +:+ valor_str
              /\ in_lang dia_mes_re dia_mes
              /\ ws1 <> "" /\ em_branco ws1 /\ ws2 <> "" /\ em_branco ws2
              /\ in_lang valor_sicoob_re valor_str
              /\ Data t = dia_mes +:+ "/" +:+ str_int 2024
              /\ Descricao t = strip desc
              /\ float (normalizar_valor valor_str) = Ok (Valor t))
       [Transacao "05/03/2024" "MERCADO LIVRE" (PFin 120) "MERCADO LIVRE";
        Transacao "06/03/2024" "PADARIA" (of_decimal 123456 (-2)) "PADARIA"].
Proof.
  assert (H : processar_formato_sicoob fatura_sicoob_exemplo 2024
              = Ok [Transacao "05/03/2024" "MERCADO LIVRE" (PFin 120)
                      "MERCADO LIVRE";
                    Transacao "06/03/2024" "PADARIA" (of_decimal 123456 (-2))
                      "PADARIA"])
    by (vm_compute; reflexivity).
  split; [exact H|].
  exact (processar_formato_sicoob_origem _ _ _ H).
Defined.

End Origem.

Section OCRExemplos.

Lemma extrair_texto_pdf_com_ocr_paginas_witness :
  extrair_texto_pdf_com_ocr ocr_exemplo true (Some paginas_exemplo)
  = Some (juntar_paginas ["01/03/2024 UBER TRIP 45,90 9,18 5,000";
                          "05/04/2024 POSTO SHELL 1.250,00 250,00 5,000"])
  /\ exists paginas textos dados_por_pagina,
       Some paginas_exemplo = Some paginas
       /\ Forall2 (fun p t => exists img, p = Some img
                     /\ texto_da_pagina ocr_exemplo img = Some t)
            paginas textos
       /\ juntar_paginas ["01/03/2024 UBER TRIP 45,90 9,18 5,000";
                          "05/04/2024 POSTO SHELL 1.250,00 250,00 5,000"]
          = juntar_paginas textos
       /\ linhas_de
            (juntar_paginas ["01/03/2024 UBER TRIP 45,90 9,18 5,000";
                             "05/04/2024 POSTO SHELL 1.250,00 250,00 5,000"])
          = concat (linhas_de <$> textos)
       /\ Forall2 (fun t d => processar_formato_santander t = Ok d)
            textos dados_por_pagina
       /\ processar_formato_santander
            (juntar_paginas ["01/03/2024 UBER TRIP 45,90 9,18 5,000";
                             "05/04/2024 POSTO SHELL 1.250,00 250,00 5,000"])
          = Ok (concat dados_por_pagina).
Proof.
  assert (H : extrair_texto_pdf_com_ocr ocr_exemplo true (Some paginas_exemplo)
              = Some (juntar_paginas
                        ["01/03/2024 UBER TRIP 45,90 9,18 5,000";
                         "05/04/2024 POSTO SHELL 1.250,00 250,00 5,000"]))
    by (vm_compute; reflexivity).
  split; [exact H|].
  exact (extrair_texto_pdf_com_ocr_paginas ocr_exemplo true
           (Some paginas_exemplo) _ H).
Defined.

End OCRExemplos.

(** ** From the entries to the rows *)

Section Linhas.
Import Re Padroes.

Lemma filter_fmap_nova_linha cols dc (dados : list transacao) :
  (forall t, nova_linha cols dc t !! dc = Some (CStr (Data t))) ->
  filter (fun r : linha => is_Some (to_datetime_cell (r !! dc)))
    (nova_linha cols dc <$> dados)
  = nova_linha cols dc <$> filter (fun t => is_Some (strptime (Data t))) dados.
Proof.
  intros Hcel. induction dados as [|t ts IH]; [done|].
  rewrite fmap_cons, !filter_cons, Hcel. simpl.
  destruct (decide (is_Some (strptime (Data t)))); by rewrite IH.
Qed.

(** X19. When the entries carry their date as a DD/MM/YYYY text (as
    the entries of both parsers do) and the date column is not also
    the column of the description, value or note role, the table
    handed to the writer holds exactly the rows built from the entries
    whose date is a calendar date, each as it was built: the sorting
    step rearranges rows and drops those of impossible dates, and
    rewrites none. *)
Theorem tabela_final_linhas sort_values cols dados :
  sort_values_spec sort_values ->
  cols <> [] -> dados <> [] ->
  Forall (fun t => fullmatch data_completa_re (Data t) = true) dados ->
  let dc := identificar_coluna_data cols in
  coluna_do_papel palavras_descricao cols <> Some dc ->
  coluna_do_papel palavras_valor cols <> Some dc ->
  coluna_do_papel palavras_observacao cols <> Some dc ->
  exists df,
    tabela_final sort_values cols dados = Some df
    /\ df ≡ₚ nova_linha cols dc
              <$> filter (fun t => is_Some (strptime (Data t))) dados.
Proof.
  intros Hspec Hc Hd Hdatas dc H1 H2 H3.
  assert (Hcel : forall t, nova_linha cols dc t !! dc = Some (CStr (Data t))).
  { intros t. rewrite lookup_nova_linha. unfold coluna_do_papel in *.
    rewrite !decide_False by done. by rewrite decide_True. }
  exists (ordenar_por_data sort_values dc (montar_tabela cols dados)).
  split.
  - unfold tabela_final. destruct dados; [done|]. fold dc.
    rewrite bool_decide_eq_true_2; [done|].
    by apply identificar_coluna_data_elem.
  - rewrite <- filter_fmap_nova_linha by done.
    unfold montar_tabela. fold dc.
    rewrite <- dt_strftime_dropna_filter.
    + unfold ordenar_por_data, dt_strftime. apply fmap_Permutation.
      by apply dropna_sort_perm.
    + apply Forall_fmap. eapply Forall_impl; [exact Hdatas|].
      intros t Ht. simpl. rewrite Hcel. by exists (Data t).
Qed.

Lemma tabela_final_linhas_witness :
  sort_values_spec sort_merge
  /\ ["Data"; "Descricao"; "Valor"] <> []
  /\ [transacao_exemplo; Transacao "31/02/2024" "X" (PFin 1) "X"] <> []
  /\ Forall (fun t => fullmatch data_completa_re (Data t) = true)
       [transacao_exemplo; Transacao "31/02/2024" "X" (PFin 1) "X"]
  /\ exists df,
       tabela_final sort_merge ["Data"; "Descricao"; "Valor"]
         [transacao_exemplo; Transacao "31/02/2024" "X" (PFin 1) "X"]
       = Some df
       /\ df ≡ₚ nova_linha ["Data"; "Descricao"; "Valor"]
                 (identificar_coluna_data ["Data"; "Descricao"; "Valor"])
                 <$> filter (fun t => is_Some (strptime (Data t)))
                       [transacao_exemplo;
                        Transacao "31/02/2024" "X" (PFin 1) "X"].
Proof.
  assert (H : Forall (fun t => fullmatch data_completa_re (Data t) = true)
                [transacao_exemplo; Transacao "31/02/2024" "X" (PFin 1) "X"])
    by (repeat constructor).
  split; [exact sort_merge_spec|]. split; [done|]. split; [done|].
  split; [exact H|].
  exact (tabela_final_linhas sort_merge ["Data"; "Descricao"; "Valor"]
           [transacao_exemplo; Transacao "31/02/2024" "X" (PFin 1) "X"]
           sort_merge_spec ltac:(done) ltac:(done) H
           ltac:(vm_compute; discriminate) ltac:(vm_compute; discriminate)
           ltac:(vm_compute; discriminate)).
Defined.

End Linhas.

(** ** Sicoob amounts with a minus sign *)

Section Estorno.
Import Re Padroes.

Lemma digits_val_acc_nonneg s acc :
  digits s -> (0 <= acc)%Z -> (0 <= digits_val_acc acc s)%Z.
Proof.
  revert acc. induction s as [|c s IH]; intros acc Hd Hacc; [done|].
  apply digits_cons in Hd as [Hc Hd]. simpl. apply IH; [done|].
  pose proof (digit_val_range c Hc). lia.
Qed.

Lemma Qred_nonneg q : (0 <= Qnum q)%Z -> (0 <= Qnum (Qred q))%Z.
Proof.
  intros Hq. pose proof (Qred_correct q) as E. unfold Qeq in E.
  pose proof (Pos2Z.is_pos (Qden q)). pose proof (Pos2Z.is_pos (Qden (Qred q))).
  nia.
Qed.

Lemma round64_pos_nonneg a b q :
  (0 <= a)%Z -> (0 < b)%Z ->
  PyFloat.round64_pos a b = Some q -> (0 <= Qnum q)%Z.
Proof.
  intros Ha Hb. unfold PyFloat.round64_pos.
  set (u := (Z.max (PyFloat.ilog2_ratio a b) (-1022) - 52)%Z).
  set (num := if (u <? 0)%Z then (a * 2 ^ (- u))%Z else a).
  set (den := if (u <? 0)%Z then b else (b * 2 ^ u)%Z).
  assert (Hnum : (0 <= num)%Z).
  { unfold num. destruct (u <? 0)%Z; [|done].
    apply Z.mul_nonneg_nonneg; [done|]. apply Z.pow_nonneg. lia. }
  assert (Hden : (0 < den)%Z).
  { unfold den. destruct (u <? 0)%Z eqn:Eu; [done|].
    apply Z.mul_pos_pos; [done|]. apply Z.pow_pos_nonneg; lia. }
  pose proof (Z.div_pos num den Hnum Hden) as Hn.
  set (n' := if (2 * (num mod den) <? den)%Z then (num / den)%Z
             else if (den <? 2 * (num mod den))%Z then (num / den + 1)%Z
             else if Z.even (num / den) then (num / den)%Z
                  else (num / den + 1)%Z).
  assert (Hn' : (0 <= n')%Z).
  { unfold n'. repeat destruct (_ <? _)%Z; try destruct (Z.even _); lia. }
  destruct (_ && _); [done|]. intros [= <-].
  apply Qred_nonneg. destruct (u <? 0)%Z eqn:Eu; simpl; [done|].
  apply Z.mul_nonneg_nonneg; [done|]. apply Z.pow_nonneg. lia.
Qed.

(** The opposite of the float of a decimal without sign is not
    positive. *)
Lemma gt0_neg_of_decimal m e :
  (0 <= m)%Z -> gt0 (PyFloat.neg (of_decimal m e)) = false.
Proof.
  intros Hm. unfold of_decimal.
  destruct (m =? 0)%Z eqn:E0; [done|].
  apply Z.eqb_neq in E0.
  assert ((m <? 0)%Z = false) as -> by lia.
  rewrite Z.abs_eq by done.
  destruct (PyFloat.round64_pos _ _) as [q|] eqn:Er; [|done].
  apply round64_pos_nonneg in Er.
  - simpl. apply Z.ltb_ge. lia.
  - destruct (0 <=? e)%Z; [|done].
    apply Z.mul_nonneg_nonneg; [done|]. apply Z.pow_nonneg. lia.
  - destruct (0 <=? e)%Z eqn:Ee; [done|]. apply Z.pow_pos_nonneg; lia.
Qed.

(** X20. A Sicoob line whose amount carries a minus sign (a refund)
    appends nothing, and raises nothing: [float] reads the normalised
    amount as a value that is not positive. *)
Theorem sicoob_linha_estorno ano linha m data_str descricao valor_str r :
  search padrao_sicoob linha = Some m ->
  groups3 m = Some (data_str, descricao, valor_str) ->
  valor_str = String "-" r ->
  sicoob_linha ano linha = Ok [].
Proof.
  intros Hs Hg Ev. unfold sicoob_linha.
  destruct (contem_alguma marcadores_sicoob linha); [done|].
  rewrite Hs, Hg.
  destruct (sicoob_grupos_valor _ _ Hs) as (a' & b' & c' & Hg' & _ & Lc).
  rewrite Hg in Hg'. injection Hg' as <- <- <-.
  destruct (lang_valor_sicoob _ Lc)
    as (sinal & corpo & sep & a & b & ip & E & Hsin & (x & y & -> & Hx)
        & Hn & Hne & Hip & Hsep & Ha & Hb).
  assert (sinal = "-") as ->.
  { destruct Hsin as [-> | [-> | ->]]; [|done|];
      rewrite E in Ev; injection Ev as -> _; done. }
  assert (Hfp : digits (String a (String b ""))).
  { unfold digits. simpl. by rewrite Ha, Hb. }
  rewrite E, !normalizar_app, Hn.
  change (normalizar_valor "-") with "-".
  change ("-" +:+ ?s) with (String "-" s).
  destruct Hsep as [-> | ->].
  - change (normalizar_valor (String "." ?s)) with (normalizar_valor s).
    rewrite normalizar_digits by done.
    rewrite float_com_menos by by apply digits_nospace, digits_app.
    rewrite parse_unsigned_inteiro_valor;
      [|by destruct ip|by apply digits_app].
    simpl bind. rewrite gt0_neg_of_decimal; [done|].
    apply digits_val_acc_nonneg; [by apply digits_app|done].
  - change (normalizar_valor (String "," ?s))
      with (String "." (normalizar_valor s)).
    rewrite normalizar_digits by done.
    assert (Hnum : all_chars numchar
                     (ip +:+ String "." (String a (String b ""))) = true).
    { rewrite all_chars_app. rewrite (digits_nospace ip Hip). simpl.
      unfold numchar. by rewrite Ha, Hb. }
    rewrite float_com_menos by done.
    pose proof (float_decimal ip (String a (String b "")) Hne Hip Hfp) as Hf.
    rewrite float_sem_sinal in Hf by done.
    destruct (PyFloat.parse_unsigned
                (ip +:+ String "." (String a (String b "")))) as [f|];
      [|done].
    injection Hf as ->. simpl bind. rewrite gt0_neg_of_decimal; [done|].
    apply digits_val_acc_nonneg; [by apply digits_app|done].
Qed.

Lemma sicoob_linha_estorno_witness :
  search padrao_sicoob "07/03 ESTORNO LOJA -1.234,56"
  = Some (MState 28 "" [(3, "-1.234,56"); (2, "ESTORNO LOJA");
                          (1, "07/03")]%nat)
  /\ sicoob_linha 2024 "07/03 ESTORNO LOJA -1.234,56" = Ok [].
Proof.
  split; [by vm_compute|].
  exact (sicoob_linha_estorno 2024%Z "07/03 ESTORNO LOJA -1.234,56"
           (MState 28 "" [(3, "-1.234,56"); (2, "ESTORNO LOJA");
                            (1, "07/03")]%nat)
           "07/03" "ESTORNO LOJA" "-1.234,56" "1.234,56"
           eq_refl eq_refl eq_refl).
Defined.

End Estorno.

(** ** Lines the Sicoob pattern recognises *)

Section SicoobGramatica.
Import Re Padroes.

Lemma In_todos_ascii c : In c todos_ascii.
Proof.
  unfold todos_ascii. rewrite <- (ascii_nat_embedding c).
  apply in_map, in_seq. pose proof (nat_ascii_bounded c). lia.
Qed.

(** The words of a pattern are made of the characters of its
    classes. *)
Lemma classes_em_lang q r w :
  in_lang r w -> classes_em q r = true -> all_chars q w = true.
Proof.
  induction 1 as [p c Hp| |r1 r2 w1 w2 _ IH1 _ IH2|r1 r2 w _ IH
                 |r1 r2 w _ IH|g r|g r w1 w2 _ IH1 _ IH2|i r w _ IH| |];
    cbn [classes_em all_chars]; intros Hq; try done.
  - rewrite forallb_forall in Hq. specialize (Hq c (In_todos_ascii c)).
    rewrite Hp in Hq. simpl in Hq. by rewrite Hq.
  - apply andb_true_iff in Hq as [? ?]. rewrite all_chars_app.
    by rewrite IH1, IH2.
  - apply andb_true_iff in Hq as [? ?]. auto.
  - apply andb_true_iff in Hq as [? ?]. auto.
  - rewrite all_chars_app. by rewrite IH1, IH2.
  - auto.
Qed.

Lemma valor_sicoob_sem_espaco v :
  in_lang valor_sicoob_re v ->
  all_chars (fun c => negb (isspace c)) v = true.
Proof. intros H. apply (classes_em_lang _ _ _ H). by vm_compute. Qed.

(** A text ends in one way only with a white space followed by a
    token without white space. *)
Lemma ultimo_token p c t p' c' t' :
  p +:+ String c t = p' +:+ String c' t' ->
  isspace c = true -> isspace c' = true ->
  all_chars (fun c => negb (isspace c)) t = true ->
  all_chars (fun c => negb (isspace c)) t' = true ->
  p = p' /\ t = t'.
Proof.
  intros E Hc Hc' Ht Ht'. revert p' E.
  induction p as [|x p IH]; intros [|x' p'] E; simpl in E.
  - by injection E as _ ->.
  - injection E as -> ->. rewrite all_chars_app in Ht. simpl in Ht.
    rewrite Hc' in Ht. simpl in Ht. by rewrite andb_false_r in Ht.
  - injection E as -> <-. rewrite all_chars_app in Ht'. simpl in Ht'.
    rewrite Hc in Ht'. simpl in Ht'. by rewrite andb_false_r in Ht'.
  - injection E as -> E. destruct (IH _ E) as [-> ->]. done.
Qed.

(** White space, not empty, ends with a white space. *)
Lemma em_branco_fim w :
  w <> "" -> em_branco w ->
  exists i c, w = i +:+ String c "" /\ em_branco i /\ isspace c = true.
Proof.
  induction w as [|x w IH]; [done|]. intros _ [Hx Hw]%em_branco_cons.
  destruct w as [|y w].
  - by exists "", x.
  - destruct IH as (i & c & E & Hi & Hc); [done..|].
    exists (String x i), c. rewrite E. split; [done|].
    split; [|done]. by apply em_branco_cons.
Qed.

Lemma lstrip_app_branco w x : em_branco w -> lstrip (w +:+ x) = lstrip x.
Proof.
  induction w as [|c w IH]; [done|]. intros [Hc Hw]%em_branco_cons.
  simpl. rewrite Hc. by apply IH.
Qed.

Lemma strip_entre_brancos w1 x w2 :
  em_branco w1 -> em_branco w2 -> strip (w1 +:+ x +:+ w2) = strip x.
Proof.
  intros H1 H2. unfold strip. rewrite lstrip_app_branco by done.
  fold (strip (x +:+ w2)). by rewrite strip_app_branco.
Qed.

Lemma sicoob_casa d ws1 desc ws2 v :
  in_lang dia_mes_re d -> in_lang spaces ws1 ->
  in_lang (plus false dot) desc -> in_lang spaces ws2 ->
  in_lang valor_sicoob_re v ->
  is_Some (search padrao_sicoob (d +:+ ws1 +:+ desc +:+ ws2 +:+ v)).
Proof.
  intros Ld L1 Ldesc L2 Lv.
  set (linha := d +:+ ws1 +:+ desc +:+ ws2 +:+ v).
  destruct (word_matches (Group 1 dia_mes_re) d (L_Group _ _ _ Ld) eq_refl
              (MState 0 linha []) (ws1 +:+ desc +:+ ws2 +:+ v) eq_refl)
    as (s1 & M1 & E1).
  destruct (word_matches spaces ws1 L1 eq_refl s1 _ E1) as (s2 & M2 & E2).
  destruct (word_matches (Group 2 (plus false dot)) desc
              (L_Group _ _ _ Ldesc) eq_refl s2 _ E2) as (s3 & M3 & E3).
  destruct (word_matches spaces ws2 L2 eq_refl s3 _ E3) as (s4 & M4 & E4).
  rewrite <- (app_nil_r v) in E4.
  destruct (word_matches (Group 3 valor_sicoob_re) v
              (L_Group _ _ _ Lv) eq_refl s4 _ E4) as (s5 & M5 & E5).
  unfold padrao_sicoob. rewrite search_bol. unfold match_at.
  eapply rmatch_complete; [|done].
  eapply M_Seq; [by apply M_Bol|].
  repeat (eapply M_Seq; [eassumption|]).
  apply M_Eol. by left.
Qed.

(** X21. A line made of a DD/MM, white space, a description, white
    space and an amount token of the pattern, and holding no marker, is
    recognised whatever the description says: the line appends the
    entry of that date, stripped description and amount when [float]
    reads the normalised token as a positive value, nothing when the
    value is not positive, and raises when [float] does. *)
Theorem sicoob_gramatica ano d ws1 desc ws2 v :
  fullmatch dia_mes_re d = true ->
  fullmatch spaces ws1 = true ->
  fullmatch (plus false dot) desc = true ->
  fullmatch spaces ws2 = true ->
  fullmatch valor_sicoob_re v = true ->
  let linha := d +:+ ws1 +:+ desc +:+ ws2 +:+ v in
  contem_alguma marcadores_sicoob linha = false ->
  sicoob_linha ano linha
  = bind (float (normalizar_valor v)) (fun valor =>
      Ok (if gt0 valor
          then [Transacao (d +:+ "/" +:+ str_int ano) (strip desc) valor
                  (strip desc)]
          else [])).
Proof.
  intros Ld%fullmatch_lang L1%fullmatch_lang Ldesc%fullmatch_lang
         L2%fullmatch_lang Lv%fullmatch_lang linha Hm.
  destruct (sicoob_casa d ws1 desc ws2 v) as [m Hs]; try done.
  fold linha in Hs. unfold sicoob_linha. rewrite Hm, Hs.
  apply grupos_com_eol in Hs
    as (a & b & c & ws1' & ws2' & -> & La & _ & Lc & [_ B1']%lang_spaces
        & [N2' B2']%lang_spaces & E & Hr); try done.
  destruct (lang_spaces _ L1) as [_ B1], (lang_spaces _ L2) as [N2 B2].
  destruct (em_branco_fim ws2 N2 B2) as (i & l & -> & Bi & Hl).
  destruct (em_branco_fim ws2' N2' B2') as (i' & l' & -> & Bi' & Hl').
  pose proof (valor_sicoob_sem_espaco v Lv) as Sv.
  pose proof (valor_sicoob_sem_espaco c Lc) as Sc.
  assert (Hv : v <> "").
  { destruct (lang_valor_sicoob v Lv) as ([|? ?] & ? & ? & ? & ? & ? & -> & _
      & (? & ? & -> & _) & _); done. }
  assert (E' : (d +:+ ws1 +:+ desc +:+ i) +:+ String l v
               = (a +:+ ws1' +:+ b +:+ i') +:+ String l' (c +:+ rest m)).
  { rewrite !app_assoc. simpl. unfold linha in E.
    rewrite !app_assoc in E. simpl in E. exact E. }
  assert (rest m = "") as Er.
  { destruct Hr as [Hr|Hr]; [done|]. exfalso. rewrite Hr in E'.
    assert (E'' : (d +:+ ws1 +:+ desc +:+ i) +:+ String l v
                  = (a +:+ ws1' +:+ b +:+ i' +:+ String l' c)
                    +:+ String "010" "").
    { rewrite E'. by rewrite !app_assoc. }
    by destruct (ultimo_token _ _ _ _ _ _ E'' Hl eq_refl Sv eq_refl)
      as [_ ->]. }
  rewrite Er, app_nil_r in E'.
  destruct (ultimo_token _ _ _ _ _ _ E' Hl Hl' Sv Sc) as [Ep <-].
  apply lang_dia_mes in Ld as (x1 & x2 & x3 & x4 & -> & _).
  apply lang_dia_mes in La as (y1 & y2 & y3 & y4 & -> & _).
  simpl in Ep. injection Ep as <- <- <- <- Ep.
  assert (strip b = strip desc) as ->.
  { rewrite <- (strip_entre_brancos ws1' b i') by done.
    rewrite <- Ep. by apply strip_entre_brancos. }
  destruct (float (normalizar_valor v)) as [valor|e]; simpl; [|done].
  by destruct (gt0 valor).
Qed.

Lemma sicoob_gramatica_witness :
  fullmatch dia_mes_re "05/03" = true
  /\ fullmatch spaces " " = true
  /\ fullmatch (plus false dot) "MERCADO LIVRE 1,00" = true
  /\ fullmatch spaces "  " = true
  /\ fullmatch valor_sicoob_re "120,00" = true
  /\ contem_alguma marcadores_sicoob "05/03 MERCADO LIVRE 1,00  120,00" = false
  /\ sicoob_linha 2024 "05/03 MERCADO LIVRE 1,00  120,00"
     = Ok [Transacao "05/03/2024" "MERCADO LIVRE 1,00" (PFin 120)
             "MERCADO LIVRE 1,00"].
Proof.
  repeat (split; [reflexivity|]).
  etransitivity.
  - exact (sicoob_gramatica 2024%Z "05/03" " " "MERCADO LIVRE 1,00" "  "
             "120,00" eq_refl eq_refl eq_refl eq_refl eq_refl eq_refl).
  - vm_compute. reflexivity.
Defined.

End SicoobGramatica.
